(** * DocuChat: ingestion pipeline and scoped vector retrieval

    A shallow embedding of the Python backend (backend/vector_store.py,
    backend/chunking.py, backend/loaders.py, backend/retriever.py and the
    ingestion task of backend/api.py), with the properties of its
    specification stated and proved over it.

    Conventions.
    - A MongoDB collection is the list of its documents in insertion order.
    - A Python call that may raise returns a [result]; the exception carries
      the text that [str(e)] gives.
    - The collaborators that the source only calls (the PDF loader, the
      text splitter of langchain, the embedding model, the Atlas
      [$vectorSearch] stage, the MongoDB driver's failures) are inputs of
      the model: interfaces with instances, or outcomes handed to the call.
    - [utc_now()] reads a logical clock kept in the world; an instant is
      stored where the source stores its ISO-8601 text.
    - A [str] is the string of the bytes of its UTF-8 encoding; [len] and
      slicing count characters, not bytes. *)

From Stdlib Require Import String Ascii ZArith Bool Arith Lia DecimalString Floats List.
From Stdlib Require Import Permutation Sorted.
Import ListNotations.
Open Scope string_scope.
Open Scope list_scope.

(** ** Python values and exceptions *)

(** [str(n)] for a Python int. *)
Definition str_of_Z (z : Z) : string := NilZero.string_of_int (Z.to_int z).

(** [str(n)] for a length, as [len] returns it. *)
Definition str_of_nat (n : nat) : string := NilZero.string_of_uint (Nat.to_uint n).

(** Truthiness of a [str]: only the empty string is falsy. *)
Definition truthy (s : string) : bool := negb (String.eqb s "").

(** The exceptions of the model. [ValueError] is what the core raises
    itself; [OtherException] is any other one (pymongo's, the loader's, the
    embedding model's, an HTTPException), with the text [str] gives for it.
    Both are caught by [except Exception]. *)
Inductive exn : Type :=
| ValueError (msg : string)
| OtherException (msg : string).

(** [str(e)]. *)
Definition str_of_exn (e : exn) : string :=
  match e with
  | ValueError m => m
  | OtherException m => m
  end.

Inductive result (A : Type) : Type :=
| OK (a : A)
| Raise (e : exn).
Arguments OK {A} a.
Arguments Raise {A} e.

(** An embedding: [List[float]]. *)
Definition vector : Type := list float.

(** Instants of the UTC clock. *)
Definition instant : Type := nat.

(** ** backend/settings.py : the fields the core reads *)

Record Settings : Type := {
  mongodb_vector_index_name : string;
  embeddings_dimensions : Z;
  chunk_size : Z;
  chunk_overlap : Z;
  top_k : Z;
  num_candidates : Z;
  storage_dir : string;
  default_session_id : string
}.

(** The defaults of the [Field(...)] declarations. *)
Definition default_settings : Settings := {|
  mongodb_vector_index_name := "chunks_vector_index";
  embeddings_dimensions := 384;
  chunk_size := 1000;
  chunk_overlap := 150;
  top_k := 6;
  num_candidates := 80;
  storage_dir := "backend/storage";
  default_session_id := "default"
|}.

(** ** The two collections *)

Inductive Status : Type := PROCESSING | READY | ERROR.

Definition terminal (s : Status) : bool :=
  match s with
  | PROCESSING => false
  | READY | ERROR => true
  end.

(** A row of the documents collection, as [create_document_record] builds it. *)
Record DocumentRecord : Type := {
  doc_documentId : string;
  doc_sessionId : string;
  doc_fileName : string;
  doc_fileSize : option Z;
  doc_status : Status;
  doc_pages : Z;
  doc_errorMessage : option string;
  doc_createdAt : instant;
  doc_updatedAt : instant
}.

(** The ["metadata"] sub-document of a chunk. *)
Record ChunkMeta : Type := {
  meta_page : Z;
  meta_source : string
}.

(** A row of the chunks collection, as [process_document_background] builds it. *)
Record ChunkDoc : Type := {
  chunk_sessionId : string;
  chunk_documentId : string;
  chunk_text : string;
  chunk_embedding : vector;
  chunk_metadata : ChunkMeta;
  chunk_page : Z;
  chunk_source : string;
  chunk_chunkIndex : Z;
  chunk_createdAt : instant
}.

(** A query document of the source: equality constraints on string fields,
    in the order the dict was filled. *)
Definition query_doc : Type := list (string * string).

(** The string fields a query of the source can name. *)
Definition doc_field (r : DocumentRecord) (k : string) : option string :=
  if String.eqb k "documentId" then Some (doc_documentId r)
  else if String.eqb k "sessionId" then Some (doc_sessionId r)
  else if String.eqb k "fileName" then Some (doc_fileName r)
  else None.

Definition chunk_field (c : ChunkDoc) (k : string) : option string :=
  if String.eqb k "documentId" then Some (chunk_documentId c)
  else if String.eqb k "sessionId" then Some (chunk_sessionId c)
  else if String.eqb k "text" then Some (chunk_text c)
  else if String.eqb k "source" then Some (chunk_source c)
  else None.

Definition field_is (f : option string) (v : string) : bool :=
  match f with
  | Some x => String.eqb x v
  | None => false
  end.

(** A row matches a query when every constraint holds. *)
Definition doc_matches (q : query_doc) (r : DocumentRecord) : bool :=
  forallb (fun kv => field_is (doc_field r (fst kv)) (snd kv)) q.

Definition chunk_matches (q : query_doc) (c : ChunkDoc) : bool :=
  forallb (fun kv => field_is (chunk_field c (fst kv)) (snd kv)) q.

(** ** The driver's collection operations *)

Section Collection.
Variable A : Type.
Variable matches : A -> bool.

(** [delete_one]: the first matching row goes. *)
Fixpoint delete_one (rows : list A) : list A :=
  match rows with
  | [] => []
  | r :: rest => if matches r then rest else r :: delete_one rest
  end.

(** [delete_many]: every matching row goes. *)
Definition delete_many (rows : list A) : list A :=
  filter (fun r => negb (matches r)) rows.

(** [update_one] with a [$set]: the first matching row is rewritten. *)
Fixpoint update_one (set : A -> A) (rows : list A) : list A :=
  match rows with
  | [] => []
  | r :: rest => if matches r then set r :: rest else r :: update_one set rest
  end.

(** [find_one]. *)
Definition find_one (rows : list A) : option A := find matches rows.

(** [count_documents]. *)
Definition count_documents (rows : list A) : nat :=
  length (filter matches rows).
End Collection.

Arguments delete_one {A} matches rows.
Arguments delete_many {A} matches rows.
Arguments update_one {A} matches set rows.
Arguments find_one {A} matches rows.
Arguments count_documents {A} matches rows.

(** What [insert_many] did: every document written, or an exception after
    the first [persisted] documents were written (an ordered bulk write
    stops at the first document the server refuses). *)
Inductive InsertOutcome : Type :=
| InsertAll
| InsertRaises (persisted : nat) (e : exn).

(** [insert_many]: the rows after the call, and the number of inserted ids
    or the exception. *)
Definition insert_many (o : InsertOutcome) (rows docs : list ChunkDoc)
  : list ChunkDoc * result nat :=
  match o with
  | InsertAll => (rows ++ docs, OK (length docs))
  | InsertRaises n e => (rows ++ firstn n docs, Raise e)
  end.

(** ** The world, and computations over it *)

(** The world the backend acts on: the two collections, the uploads kept on
    disk for the background task, and the clock. *)
Record World : Type := {
  documents : list DocumentRecord;
  chunks : list ChunkDoc;
  files : list string;
  clock : instant
}.

Definition set_documents (ds : list DocumentRecord) (w : World) : World :=
  {| documents := ds; chunks := chunks w; files := files w; clock := clock w |}.

Definition set_chunks (cs : list ChunkDoc) (w : World) : World :=
  {| documents := documents w; chunks := cs; files := files w; clock := clock w |}.

Definition set_files (fs : list string) (w : World) : World :=
  {| documents := documents w; chunks := chunks w; files := fs; clock := clock w |}.

Definition tick (w : World) : World :=
  {| documents := documents w; chunks := chunks w; files := files w;
     clock := S (clock w) |}.

(** A statement sequence of the source: it reads and writes the world and
    ends with a value or an exception. What was written before an exception
    stays written. *)
Definition M (A : Type) : Type := World -> result A * World.

Definition ret {A : Type} (a : A) : M A := fun w => (OK a, w).

Definition raise {A : Type} (e : exn) : M A := fun w => (Raise e, w).

Definition lift {A : Type} (r : result A) : M A := fun w => (r, w).

Definition bind {A B : Type} (m : M A) (k : A -> M B) : M B :=
  fun w =>
    match m w with
    | (OK a, w1) => k a w1
    | (Raise e, w1) => (Raise e, w1)
    end.

(** [try: body except Exception as e: handler]. *)
Definition try_except {A : Type} (body : M A) (handler : exn -> M A) : M A :=
  fun w =>
    match body w with
    | (OK a, w1) => (OK a, w1)
    | (Raise e, w1) => handler e w1
    end.

(** [finally: cleanup], for a cleanup that cannot raise. *)
Definition finally {A : Type} (body : M A) (cleanup : World -> World) : M A :=
  fun w => let (r, w1) := body w in (r, cleanup w1).

Notation "x <- m ;; k" := (bind m (fun x => k))
  (at level 61, m at next level, right associativity).
Notation "m ;;; k" := (bind m (fun _ => k))
  (at level 61, right associativity).

Infix "+++" := String.append (at level 60, right associativity).

(** ** backend/vector_store.py *)

(** [utc_now()]: the clock is read, and time passes. *)
Definition utc_now : M instant := fun w => (OK (clock w), tick w).

Definition create_document_record (document_id session_id file_name : string)
    (file_size : option Z) : M DocumentRecord :=
  now <- utc_now ;;
  let doc := {| doc_documentId := document_id;
                doc_sessionId := session_id;
                doc_fileName := file_name;
                doc_fileSize := file_size;
                doc_status := PROCESSING;
                doc_pages := 0;
                doc_errorMessage := None;
                doc_createdAt := now;
                doc_updatedAt := now |} in
  fun w => (OK doc, set_documents (documents w ++ [doc]) w).

(** The [$set] document of [update_document_status]: status and updatedAt
    always, pages and errorMessage only when given. *)
Definition status_update (status : Status) (now : instant) (pages : option Z)
    (error_message : option string) (r : DocumentRecord) : DocumentRecord :=
  {| doc_documentId := doc_documentId r;
     doc_sessionId := doc_sessionId r;
     doc_fileName := doc_fileName r;
     doc_fileSize := doc_fileSize r;
     doc_status := status;
     doc_pages := match pages with Some p => p | None => doc_pages r end;
     doc_errorMessage := match error_message with
                         | Some m => Some m
                         | None => doc_errorMessage r
                         end;
     doc_createdAt := doc_createdAt r;
     doc_updatedAt := now |}.

(** [update_document_status]. [fault] is the driver's outcome for the
    [update_one] call: an exception, and then nothing is written. *)
Definition update_document_status (fault : option exn) (document_id : string)
    (status : Status) (pages : option Z) (error_message : option string)
  : M unit :=
  now <- utc_now ;;
  match fault with
  | Some e => raise e
  | None =>
      fun w =>
        (OK tt,
         set_documents
           (update_one (doc_matches [("documentId", document_id)])
                       (status_update status now pages error_message)
                       (documents w))
           w)
  end.

Definition get_document (document_id : string) (w : World) : option DocumentRecord :=
  find_one (doc_matches [("documentId", document_id)]) (documents w).

Definition delete_document_and_chunks (document_id : string)
    (session_id : option string) (w : World) : World :=
  let query := [("documentId", document_id)] in
  let query := match session_id with
               | Some s => if truthy s then query ++ [("sessionId", s)] else query
               | None => query
               end in
  let w1 := set_documents (delete_one (doc_matches query) (documents w)) w in
  set_chunks (delete_many (chunk_matches [("documentId", document_id)]) (chunks w1)) w1.

(** [insert_chunks]: nothing is sent for an empty list. *)
Definition insert_chunks (o : InsertOutcome) (chunk_docs : list ChunkDoc) : M nat :=
  match chunk_docs with
  | [] => ret 0%nat
  | _ :: _ =>
      fun w =>
        let (rows, res) := insert_many o (chunks w) chunk_docs in
        (res, set_chunks rows w)
  end.

(** ** langchain's documents and text splitter *)

(** A langchain [Document] of the ingestion path: text, and the metadata
    contract of the loader (page, source). *)
Record Document : Type := {
  page_content : string;
  metadata : ChunkMeta
}.

(** [RecursiveCharacterTextSplitter], as far as the source relies on it:
    the constructor checks its two sizes, and [split_text] cuts one text.
    How the text is cut (paragraphs, lines, words, characters) is the
    library's. *)
Record TextSplitter : Type := {
  splitter_init : Z -> Z -> option exn;
  split_text : Z -> Z -> string -> list string
}.

(** [TextSplitter.split_documents]: every input document, in order, is cut
    by [split_text], and each piece carries a copy of its metadata. *)
Definition split_documents (ts : TextSplitter) (size overlap : Z)
    (docs : list Document) : list Document :=
  flat_map
    (fun d => map (fun t => {| page_content := t; metadata := metadata d |})
                  (split_text ts size overlap (page_content d)))
    docs.

(** ** backend/chunking.py *)

Definition split_into_chunks (ts : TextSplitter) (pages : list Document)
    (chunk_size chunk_overlap : Z) : result (list Document) :=
  match splitter_init ts chunk_size chunk_overlap with
  | Some e => Raise e
  | None => OK (split_documents ts chunk_size chunk_overlap pages)
  end.

(** ** backend/loaders.py *)

(** A page as [PyPDFLoader] yields it: the text, and the 0-indexed page
    number when the metadata has one. *)
Record RawPage : Type := {
  raw_content : string;
  raw_page : option Z
}.

(** [load_pdf_pages]; [loaded] is what [loader.load()] gave for the file. *)
Definition load_pdf_pages (loaded : result (list RawPage))
    (source_filename : string) : result (list Document) :=
  match loaded with
  | Raise e => Raise e
  | OK pages =>
      OK (map (fun d =>
                 let page0 := match raw_page d with Some p => p | None => 0%Z end in
                 {| page_content := raw_content d;
                    metadata := {| meta_page := (page0 + 1)%Z;
                                   meta_source := source_filename |} |})
              pages)
  end.

(** ** backend/embeddings.py *)

(** The [EmbeddingsLike] protocol. *)
Record EmbeddingsLike : Type := {
  embed_documents : list string -> result (list vector);
  embed_query : string -> result vector
}.

(** ** backend/api.py : the ingestion task *)

(** What the collaborators do during one run of the task. [setup_fault]
    is the exception of the lines before the [try] (opening the client,
    creating the plain indexes), [unlink_fault] the one of removing the
    upload in the [finally]. *)
Record IngestEnv : Type := {
  pypdf_load : string -> result (list RawPage);
  text_splitter : TextSplitter;
  get_embeddings : Settings -> result EmbeddingsLike;
  insert_outcome : InsertOutcome;
  ready_update_fault : option exn;
  error_update_fault : option exn;
  setup_fault : option exn;
  unlink_fault : option exn
}.

(** [enumerate(xs)]. *)
Definition enumerate {A : Type} (xs : list A) : list (nat * A) :=
  combine (seq 0 (length xs)) xs.

(** The loop that pairs each chunk with its vector; [zip] stops at the
    shorter of the two lists. *)
Definition build_chunk_docs (session_id document_id : string) (now : instant)
    (split_chunks : list Document) (vectors : list vector) : list ChunkDoc :=
  map (fun ic =>
         let idx := fst ic in
         let chunk := fst (snd ic) in
         let vec := snd (snd ic) in
         let meta := {| meta_page := meta_page (metadata chunk);
                        meta_source := meta_source (metadata chunk) |} in
         {| chunk_sessionId := session_id;
            chunk_documentId := document_id;
            chunk_text := page_content chunk;
            chunk_embedding := vec;
            chunk_metadata := meta;
            chunk_page := meta_page meta;
            chunk_source := meta_source meta;
            chunk_chunkIndex := Z.of_nat idx;
            chunk_createdAt := now |})
      (enumerate (combine split_chunks vectors)).

Definition dimension_mismatch_message (got : nat) (expected : Z) : string :=
  "Embedding dimensions mismatch. "
  +++ "Got " +++ str_of_nat got +++ ", expected " +++ str_of_Z expected +++ ". "
  +++ "Update EMBEDDINGS_DIMENSIONS and recreate the Atlas Vector Search index.".

(** [if vectors and len(vectors[0]) != settings.embeddings_dimensions: raise]. *)
Definition check_dimensions (settings : Settings) (vectors : list vector) : M unit :=
  match vectors with
  | v0 :: _ =>
      if negb (Z.of_nat (length v0) =? embeddings_dimensions settings)%Z
      then raise (ValueError (dimension_mismatch_message
                                (length v0) (embeddings_dimensions settings)))
      else ret tt
  | [] => ret tt
  end.

(** The body of the [try]. *)
Definition ingest (env : IngestEnv) (settings : Settings)
    (document_id session_id file_path original_filename : string) : M unit :=
  pages <- lift (load_pdf_pages (pypdf_load env file_path) original_filename) ;;
  (match pages with
   | [] => raise (ValueError "No text could be extracted from this PDF.")
   | _ :: _ => ret tt
   end) ;;;
  split_chunks <- lift (split_into_chunks (text_splitter env) pages
                          (chunk_size settings) (chunk_overlap settings)) ;;
  let texts := map page_content split_chunks in
  embeddings <- lift (get_embeddings env settings) ;;
  vectors <- lift (embed_documents embeddings texts) ;;
  check_dimensions settings vectors ;;;
  now <- utc_now ;;
  let chunk_docs := build_chunk_docs session_id document_id now split_chunks vectors in
  inserted <- insert_chunks (insert_outcome env) chunk_docs ;;
  (if Nat.eqb inserted 0
   then raise (ValueError "No chunks were stored (empty document).")
   else ret tt) ;;;
  update_document_status (ready_update_fault env) document_id READY
    (Some (Z.of_nat (length pages))) None.

(** [Path(file_path).unlink(missing_ok=True)]. *)
Definition unlink (file_path : string) (w : World) : World :=
  set_files (filter (fun f => negb (String.eqb f file_path)) (files w)) w.

(** [process_document_background] from its [try] on: the [try], its
    [except Exception] and its [finally], for a run in which the client was
    opened and the plain indexes created (the lines before the [try], which
    write nothing to the two collections) and in which the file system lets
    the upload go. The whole call, with these two steps failing as well, is
    [process_document_background_call] below. *)
Definition process_document_background (env : IngestEnv) (settings : Settings)
    (document_id session_id file_path original_filename : string) : M unit :=
  finally
    (try_except
       (ingest env settings document_id session_id file_path original_filename)
       (fun e =>
          update_document_status (error_update_fault env) document_id ERROR
            (Some 0%Z) (Some (str_of_exn e))))
    (unlink file_path).

(** The [finally] block:
    [try: Path(file_path).unlink(missing_ok=True) except Exception: pass].
    When the file system refuses ([fault]), the file stays and nothing is
    raised. *)
Definition unlink_quietly (fault : option exn) (file_path : string) (w : World)
  : World :=
  match fault with
  | Some _ => w
  | None => unlink file_path w
  end.

(** The whole of [process_document_background]. Before the [try] it opens
    the client and creates the plain indexes ([get_mongo_client],
    [ensure_non_vector_indexes]); an exception of these lines leaves the
    function at once: neither the [except] nor the [finally] is reached. *)
Definition process_document_background_call (env : IngestEnv) (settings : Settings)
    (document_id session_id file_path original_filename : string) : M unit :=
  match setup_fault env with
  | Some e => raise e
  | None =>
      finally
        (try_except
           (ingest env settings document_id session_id file_path original_filename)
           (fun e =>
              update_document_status (error_update_fault env) document_id ERROR
                (Some 0%Z) (Some (str_of_exn e))))
        (unlink_quietly (unlink_fault env) file_path)
  end.

(** ** backend/retriever.py *)

(** The [$vectorSearch] stage. *)
Record VectorSearch : Type := {
  vs_index : string;
  vs_path : string;
  vs_queryVector : vector;
  vs_numCandidates : Z;
  vs_limit : Z;
  vs_filter : query_doc
}.

(** The stages the retriever sends. [StageProject fields score] keeps the
    listed fields and, when [score] is set, adds the search score. *)
Inductive Stage : Type :=
| StageVectorSearch (vs : VectorSearch)
| StageProject (fields : list string) (score : bool).

(** A row of an aggregation's result; a field the row lacks is [None],
    which is also what [r.get(key)] returns for it. *)
Record RawResult : Type := {
  raw_text : option string;
  raw_pageno : option Z;
  raw_source : option string;
  raw_documentId : option string;
  raw_score : option float
}.

Definition listed (k : string) (fields : list string) : bool :=
  existsb (String.eqb k) fields.

(** [$project] on one hit of the search. *)
Definition project (fields : list string) (score : bool)
    (hit : ChunkDoc * float) : RawResult :=
  let c := fst hit in
  {| raw_text := if listed "text" fields then Some (chunk_text c) else None;
     raw_pageno := if listed "page" fields then Some (chunk_page c) else None;
     raw_source := if listed "source" fields then Some (chunk_source c) else None;
     raw_documentId :=
       if listed "documentId" fields then Some (chunk_documentId c) else None;
     raw_score := if score then Some (snd hit) else None |}.

(** The Atlas search behind [$vectorSearch]: ranked rows with their scores,
    or an exception. Whatever the index and the metric, the rows it returns
    are rows of the collection that satisfy the stage's filter. *)
Class AtlasSearch : Type := {
  vector_search : VectorSearch -> list ChunkDoc -> result (list (ChunkDoc * float));
  vector_search_filtered :
    forall vs coll hits,
      vector_search vs coll = OK hits ->
      Forall (fun hit => In (fst hit) coll /\ chunk_matches (vs_filter vs) (fst hit) = true)
             hits
}.

(** [collection.aggregate(pipeline)] for the pipelines of the retriever. *)
Definition aggregate `{AtlasSearch} (pipeline : list Stage) (coll : list ChunkDoc)
  : result (list RawResult) :=
  match pipeline with
  | [StageVectorSearch vs; StageProject fields score] =>
      match vector_search vs coll with
      | OK hits => OK (map (project fields score) hits)
      | Raise e => Raise e
      end
  | _ => Raise (OtherException "unsupported pipeline")
  end.

(** A langchain [Document] as the retriever returns it. *)
Record ScoredDocument : Type := {
  sd_page_content : string;
  sd_page : option Z;
  sd_source : option string;
  sd_documentId : option string;
  sd_similarity : option float
}.

Record MongoAtlasVectorRetriever : Type := {
  embeddings : EmbeddingsLike;
  index_name : string;
  retriever_top_k : Z;
  retriever_num_candidates : Z;
  session_id : string;
  document_id : option string
}.

Definition _vector_search_pipeline (self : MongoAtlasVectorRetriever)
    (query_vector : vector) : list Stage :=
  let filter_doc := [("sessionId", session_id self)] in
  let filter_doc := match document_id self with
                    | Some d => if truthy d then filter_doc ++ [("documentId", d)]
                                else filter_doc
                    | None => filter_doc
                    end in
  [ StageVectorSearch {| vs_index := index_name self;
                         vs_path := "embedding";
                         vs_queryVector := query_vector;
                         vs_numCandidates := retriever_num_candidates self;
                         vs_limit := retriever_top_k self;
                         vs_filter := filter_doc |};
    StageProject ["text"; "page"; "source"; "documentId"] true ].

(** [r.get("text", "")]. *)
Definition text_of (r : RawResult) : string :=
  match raw_text r with
  | Some t => t
  | None => ""
  end.

Definition to_document (r : RawResult) : ScoredDocument :=
  {| sd_page_content := text_of r;
     sd_page := raw_pageno r;
     sd_source := raw_source r;
     sd_documentId := raw_documentId r;
     sd_similarity := raw_score r |}.

(** The [for r in results] loop: [docs] grows by [append]. *)
Definition collect_documents (results : list RawResult) : list ScoredDocument :=
  fold_left
    (fun docs r =>
       let text := text_of r in
       if negb (truthy text) then docs else docs ++ [to_document r])
    results [].

Definition query_dimension_message (got : nat) : string :=
  "Query vector dimension mismatch: expected 384, got " +++ str_of_nat got.

(** [_get_relevant_documents]. The first component lists the pipelines
    that were sent to [aggregate], in order; the call only reads the
    collection. The writes to the debug log are left out. *)
Definition _get_relevant_documents `{AtlasSearch} (self : MongoAtlasVectorRetriever)
    (query : string) (w : World) : list (list Stage) * result (list ScoredDocument) :=
  match embed_query (embeddings self) query with
  | Raise e => ([], Raise e)
  | OK query_vector =>
      if negb (Nat.eqb (length query_vector) 384)
      then ([], Raise (ValueError (query_dimension_message (length query_vector))))
      else
        let pipeline := _vector_search_pipeline self query_vector in
        match aggregate pipeline (chunks w) with
        | Raise e => ([pipeline], OK [])
        | OK results => ([pipeline], OK (collect_documents results))
        end
  end.

(** The retriever as [chat] builds it from the settings. *)
Definition chat_retriever (settings : Settings) (emb : EmbeddingsLike)
    (session : string) : MongoAtlasVectorRetriever :=
  {| embeddings := emb;
     index_name := mongodb_vector_index_name settings;
     retriever_top_k := top_k settings;
     retriever_num_candidates := num_candidates settings;
     session_id := session;
     document_id := None |}.

(** ** pathlib *)

(** [s.split(sep)] for a one-character separator. *)
Fixpoint split_on (sep : ascii) (s : string) : list string :=
  match s with
  | EmptyString => [""]
  | String c rest =>
      if Ascii.eqb c sep then "" :: split_on sep rest
      else match split_on sep rest with
           | piece :: pieces => String c piece :: pieces
           | [] => [String c ""]
           end
  end.

(** The root of a POSIX path: none for a relative path, two slashes when
    the path starts with exactly two, one slash otherwise. *)
Definition path_root (s : string) : string :=
  match s with
  | String "/" (String "/" (String "/" _)) => "/"
  | String "/" (String "/" _) => "//"
  | String "/" _ => "/"
  | _ => ""
  end.

(** The parts of a path: what stands between the slashes, without the
    empty pieces and the pieces that are a single dot. *)
Definition path_parts (s : string) : list string :=
  filter (fun part => negb (String.eqb part "") && negb (String.eqb part "."))
         (split_on "/" s).

(** [str] of a path given by its root and parts. *)
Definition str_of_path (root : string) (parts : list string) : string :=
  match root, parts with
  | EmptyString, [] => "."
  | _, _ => root +++ String.concat "/" parts
  end.

(** [str(Path(a) / b)] on a POSIX system: an absolute [b] replaces [a]. *)
Definition path_join (a b : string) : string :=
  if String.eqb (path_root b) ""
  then str_of_path (path_root a) (path_parts a ++ path_parts b)
  else str_of_path (path_root b) (path_parts b).

(** ** backend/api.py : the routes that write *)

(** A call of [process_document_background] waiting in [background_tasks]. *)
Record Task : Type := {
  task_document_id : string;
  task_session_id : string;
  task_file_path : string;
  task_original_filename : string
}.

(** How saving an upload fails: before the file is opened ([mkdir] or
    [open] raises, and no file exists), or during the copy, when the file
    opened for writing stays on disk with what was written. *)
Inductive SaveFault : Type :=
| BeforeOpen (e : exn)
| DuringCopy (e : exn).

(** [_save_upload_to_disk]: the file is written under
    [Path(settings.storage_dir) / f"{document_id}.pdf"] and the text of
    this path returned. *)
Definition _save_upload_to_disk (fault : option SaveFault) (settings : Settings)
    (document_id : string) : M string :=
  let file_path := path_join (storage_dir settings) (document_id +++ ".pdf") in
  match fault with
  | Some (BeforeOpen e) => raise e
  | Some (DuringCopy e) =>
      fun w => (Raise e, set_files (files w ++ [file_path]) w)
  | None => fun w => (OK file_path, set_files (files w ++ [file_path]) w)
  end.

(** [upload_pdf] once the upload is validated, the session resolved and the
    id drawn: the record is created, the file saved, and the task handed
    over. When saving fails the record goes to ERROR and no task exists. *)
Definition upload_pdf (settings : Settings) (save_fault : option SaveFault)
    (error_fault : option exn)
    (document_id session : string) (filename : option string) : M Task :=
  let file_name := match filename with
                   | Some f => if truthy f then f else document_id +++ ".pdf"
                   | None => document_id +++ ".pdf"
                   end in
  record <- create_document_record document_id session file_name None ;;
  file_path <- try_except
                 (_save_upload_to_disk save_fault settings document_id)
                 (fun e =>
                    update_document_status error_fault document_id ERROR None
                      (Some ("Failed to store upload: " +++ str_of_exn e)) ;;;
                    raise (OtherException "Failed to store upload.")) ;;
  ret {| task_document_id := document_id;
         task_session_id := session;
         task_file_path := file_path;
         task_original_filename := doc_fileName record |}.

(** [ui_delete_document], the session resolved. *)
Definition ui_delete_document (document_id session : string) (w : World) : World :=
  delete_document_and_chunks document_id (Some session) w.

(** The call that [background_tasks] makes for a waiting task. *)
Definition run_task (env : IngestEnv) (settings : Settings) (t : Task) : M unit :=
  process_document_background_call env settings
    (task_document_id t) (task_session_id t) (task_file_path t)
    (task_original_filename t).

(** ** The backend as a transition system *)

(** The store, the tasks not yet run, and the ids [uuid4] has drawn. *)
Record System : Type := {
  world : World;
  pending : list Task;
  minted : list string
}.

Definition initial : System :=
  {| world := {| documents := []; chunks := []; files := []; clock := 0 |};
     pending := [];
     minted := [] |}.

(** What can happen: an upload (with the id drawn for it and the outcome of
    saving the file), the run of the [n]-th waiting task (with what the
    collaborators do during it), a delete request. *)
Inductive Event : Type :=
| Upload (document_id session : string) (filename : option string)
         (save_fault : option SaveFault) (error_fault : option exn)
| RunTask (n : nat) (env : IngestEnv)
| Delete (document_id session : string).

(** One event. An upload is possible only with an id never drawn before
    ([uuid4]), a run only for a task that waits. A run is one step: its
    only write to the documents collection is the last thing it does. *)
Definition step (settings : Settings) (ev : Event) (s : System) : option System :=
  match ev with
  | Upload id session filename save_fault error_fault =>
      if existsb (String.eqb id) (minted s) then None
      else
        let (r, w1) := upload_pdf settings save_fault error_fault id session
                                  filename (world s) in
        Some {| world := w1;
                pending := match r with
                           | OK t => pending s ++ [t]
                           | Raise _ => pending s
                           end;
                minted := id :: minted s |}
  | RunTask n env =>
      match nth_error (pending s) n with
      | None => None
      | Some t =>
          Some {| world := snd (run_task env settings t (world s));
                  pending := firstn n (pending s) ++ skipn (S n) (pending s);
                  minted := minted s |}
      end
  | Delete id session =>
      Some {| world := ui_delete_document id session (world s);
              pending := pending s;
              minted := minted s |}
  end.

Fixpoint run (settings : Settings) (evs : list Event) (s : System) : option System :=
  match evs with
  | [] => Some s
  | ev :: rest =>
      match step settings ev s with
      | Some s1 => run settings rest s1
      | None => None
      end
  end.

(** A state the backend can be in. *)
Definition reachable (settings : Settings) (s : System) : Prop :=
  exists evs, run settings evs initial = Some s.

(** ** backend/vector_store.py : listing *)

(** [sort("createdAt", -1)]: newest first. Rows created at the same instant
    keep the order of the collection. *)
Fixpoint insert_newest_first (r : DocumentRecord) (rows : list DocumentRecord)
  : list DocumentRecord :=
  match rows with
  | [] => [r]
  | x :: rest =>
      if (doc_createdAt x <=? doc_createdAt r)%nat then r :: rows
      else x :: insert_newest_first r rest
  end.

Definition sort_newest_first (rows : list DocumentRecord) : list DocumentRecord :=
  fold_right insert_newest_first [] rows.

Definition list_documents (session_id : string) (w : World) : list DocumentRecord :=
  sort_newest_first (filter (doc_matches [("sessionId", session_id)]) (documents w)).

(** ** Python's str methods *)

(** [str.strip] and [str.lower]. Which characters count as white space and
    which have a lower case is Python's; the code below only relies on
    calling them. *)
Class PyStr : Type := {
  strip : string -> string;
  lower : string -> string
}.

(** A [str] is held as the bytes of its UTF-8 encoding, so a character
    takes one to four of them: a first byte, and then bytes of the form
    10xxxxxx that continue it. *)
Definition is_continuation (c : ascii) : bool :=
  let n := nat_of_ascii c in
  ((128 <=? n) && (n <? 192))%nat.

(** [len(s)]: the number of characters, one for each byte that starts
    one. *)
Fixpoint str_len (s : string) : nat :=
  match s with
  | EmptyString => 0
  | String c rest => if is_continuation c then str_len rest else S (str_len rest)
  end.

(** [s[:n]]: the first [n] characters, each with the bytes that continue
    it. *)
Fixpoint str_prefix (n : nat) (s : string) : string :=
  match s with
  | EmptyString => ""
  | String c rest =>
      if is_continuation c then String c (str_prefix n rest)
      else match n with
           | O => ""
           | S m => String c (str_prefix m rest)
           end
  end.

(** [s.replace(a, b)] for one-character ASCII [a] and [b]; a byte below 128
    is never part of a longer character. *)
Fixpoint replace_char (a b : ascii) (s : string) : string :=
  match s with
  | EmptyString => ""
  | String c rest => String (if Ascii.eqb c a then b else c) (replace_char a b rest)
  end.

Definition newline : ascii := "010"%char.
Definition space : ascii := " "%char.

(** ** backend/api.py : helpers of the routes *)

(** [(provided or "").strip() or settings.default_session_id]. *)
Definition _safe_session_id `{PyStr} (settings : Settings) (provided : option string)
  : string :=
  let given := match provided with
               | Some p => p
               | None => ""
               end in
  let stripped := strip given in
  if truthy stripped then stripped else default_session_id settings.

Record ChatTurn : Type := {
  role : string;
  content : string
}.

Definition role_in (r : string) (names : list string) : bool :=
  existsb (String.eqb r) names.

(** [_history_to_tuples]: the loop appends to [out]. *)
Definition _history_to_tuples `{PyStr} (history : option (list ChatTurn))
  : list (string * string) :=
  match history with
  | None => []
  | Some turns =>
      fold_left
        (fun out t =>
           let r := lower (role t) in
           if role_in r ["user"; "human"] then out ++ [("human", content t)]
           else if role_in r ["assistant"; "ai"] then out ++ [("ai", content t)]
           else out)
        turns []
  end.

Record ChatResponseSource : Type := {
  pageNumber : Z;
  snippet : string;
  similarity : option float;
  source : option string;
  src_documentId : option string
}.

(** The snippet of a chunk: stripped, on one line, cut after 240
    characters and then followed by an ellipsis:
    [snippet[:240] + ("..." if len(snippet) > 240 else "")]. *)
Definition snippet_of `{PyStr} (d : ScoredDocument) : string :=
  let text := replace_char newline space (strip (sd_page_content d)) in
  str_prefix 240 text +++ (if (240 <? str_len text)%nat then "..." else "").

(** The key of the deduplication: [(s.source, s.pageNumber)]. *)
Definition source_key (s : ChatResponseSource) : option string * Z :=
  (source s, pageNumber s).

Definition key_eqb (k1 k2 : option string * Z) : bool :=
  match fst k1, fst k2 with
  | Some a, Some b => String.eqb a b
  | None, None => true
  | _, _ => false
  end && Z.eqb (snd k1) (snd k2).

(** The first loop of [_compact_sources]: a source per chunk that has a page. *)
Definition sources_of `{PyStr} (docs : list ScoredDocument) : list ChatResponseSource :=
  fold_left
    (fun sources d =>
       match sd_page d with
       | None => sources
       | Some page =>
           sources ++ [ {| pageNumber := page;
                           snippet := snippet_of d;
                           similarity := sd_similarity d;
                           source := sd_source d;
                           src_documentId := sd_documentId d |} ]
       end)
    docs [].

(** The second loop: [seen] is the set of keys met, [unique] the sources
    kept. *)
Definition dedupe_step (st : list (option string * Z) * list ChatResponseSource)
    (s : ChatResponseSource) : list (option string * Z) * list ChatResponseSource :=
  let key := source_key s in
  if existsb (key_eqb key) (fst st) then st
  else (key :: fst st, snd st ++ [s]).

Definition dedupe_sources (sources : list ChatResponseSource) : list ChatResponseSource :=
  snd (fold_left dedupe_step sources ([], [])).

Definition _compact_sources `{PyStr} (docs : list ScoredDocument)
  : list ChatResponseSource :=
  dedupe_sources (sources_of docs).

(** [HTTPException(status_code=404, detail="Document not found.")]. *)
Definition not_found : exn := OtherException "Document not found.".

(** [ui_get_document]. *)
Definition ui_get_document `{PyStr} (settings : Settings) (document_id : string)
    (x_session_id : option string) (w : World) : result DocumentRecord :=
  let session := _safe_session_id settings x_session_id in
  match get_document document_id w with
  | None => Raise not_found
  | Some doc =>
      if negb (String.eqb (doc_sessionId doc) session) then Raise not_found
      else OK doc
  end.

(** [ui_list_documents]. *)
Definition ui_list_documents `{PyStr} (settings : Settings)
    (x_session_id : option string) (w : World) : list DocumentRecord :=
  list_documents (_safe_session_id settings x_session_id) w.

(** The delete route from the header on: the session is resolved, then
    [ui_delete_document]. *)
Definition ui_delete_document_request `{PyStr} (settings : Settings)
    (document_id : string) (x_session_id : option string) (w : World) : World :=
  ui_delete_document document_id (_safe_session_id settings x_session_id) w.

(** ** backend/api.py : the chat route of the UI *)

Record ChatResponse : Type := {
  answer : string;
  sources : list ChatResponseSource
}.

(** What the RetrievalQA chain gives back: [out.get("result")] and
    [out.get("source_documents")]. *)
Record ChainOutput : Type := {
  out_result : option string;
  out_source_documents : option (list ScoredDocument)
}.

(** Building the LLM and the chain and calling it with the question; the
    chain is handed the retriever. *)
Definition QAChain : Type :=
  MongoAtlasVectorRetriever -> string -> World -> result ChainOutput.

(** The text stored for a status. *)
Definition status_name (s : Status) : string :=
  match s with
  | PROCESSING => "PROCESSING"
  | READY => "READY"
  | ERROR => "ERROR"
  end.

Definition answer_not_found : string :=
  "Document not found. Please upload the document first.".

Definition answer_not_ready (s : Status) : string :=
  "Document is still processing (status: " +++ status_name s
  +++ "). Please wait and try again.".

Definition answer_no_chunks : string :=
  "This document has no processed chunks yet. "
  +++ "The document may still be processing, or there was an error during ingestion. "
  +++ "Please try uploading the document again.".

Definition answer_no_match (chunk_count : nat) : string :=
  "I couldn't find relevant content matching your question in this PDF. "
  +++ "The document has " +++ str_of_nat chunk_count
  +++ " chunks, but none matched your query. "
  +++ "Try rephrasing your question with different keywords or asking about specific topics mentioned in the document.".

(** The [try] body of [ui_chat_query]. *)
Definition chat_query_body `{AtlasSearch} `{PyStr} (settings : Settings)
    (get_emb : Settings -> result EmbeddingsLike) (chain : QAChain)
    (x_session_id : option string) (documentId question : string) (w : World)
  : result ChatResponse :=
  let session := _safe_session_id settings x_session_id in
  match get_emb settings with
  | Raise e => Raise e
  | OK emb =>
      let retriever :=
        {| embeddings := emb;
           index_name := mongodb_vector_index_name settings;
           retriever_top_k := top_k settings;
           retriever_num_candidates := num_candidates settings;
           session_id := session;
           document_id := Some documentId |} in
      match get_document documentId w with
      | None => OK {| answer := answer_not_found; sources := [] |}
      | Some doc =>
          match doc_status doc with
          | READY =>
              let chunk_count :=
                count_documents (chunk_matches [("documentId", documentId)])
                  (chunks w) in
              if Nat.eqb chunk_count 0
              then OK {| answer := answer_no_chunks; sources := [] |}
              else
                match snd (_get_relevant_documents retriever question w) with
                | Raise e => Raise e
                | OK [] => OK {| answer := answer_no_match chunk_count;
                                 sources := [] |}
                | OK (d :: ds) =>
                    match chain retriever question w with
                    | Raise e => Raise e
                    | OK out =>
                        let answer_text := match out_result out with
                                           | Some a => a
                                           | None => ""
                                           end in
                        let used_docs := match out_source_documents out with
                                         | Some (u :: us) => u :: us
                                         | _ => d :: ds
                                         end in
                        OK {| answer := answer_text;
                              sources := _compact_sources used_docs |}
                    end
                end
          | st => OK {| answer := answer_not_ready st; sources := [] |}
          end
      end
  end.

(** [ui_chat_query]: whatever the body raises becomes an HTTPException 500
    whose detail quotes it. *)
Definition ui_chat_query `{AtlasSearch} `{PyStr} (settings : Settings)
    (get_emb : Settings -> result EmbeddingsLike) (chain : QAChain)
    (x_session_id : option string) (documentId question : string) (w : World)
  : result ChatResponse :=
  match chat_query_body settings get_emb chain x_session_id documentId question w with
  | OK r => OK r
  | Raise e => Raise (OtherException ("Error processing chat query: " +++ str_of_exn e))
  end.

(** ** backend/api.py : validating an upload *)

(** [_validate_upload]. [content_type] is [upload.content_type], [size]
    what seeking to the end of the file tells (or the exception of the
    file object), [max_upload_mb] the setting of that name. The size check
    sits in a [try] whose [except Exception] passes. *)
Definition _validate_upload (max_upload_mb : Z) (content_type : option string)
    (size : result Z) : result unit :=
  let allowed := match content_type with
                 | Some ct => role_in ct ["application/pdf"; "application/octet-stream"]
                 | None => false
                 end in
  if negb allowed then Raise (OtherException "Only PDF files are supported.")
  else
    let attempt :=
      match size with
      | Raise e => Raise e
      | OK n =>
          if (n >? max_upload_mb * 1024 * 1024)%Z
          then Raise (OtherException "File too large.")
          else OK tt
      end in
    match attempt with
    | OK _ => OK tt
    | Raise _ => OK tt
    end.

(** The shape of a record in each status: PROCESSING and ERROR have no
    page, READY has at least one; ERROR has an error message, the others
    none. *)
Definition record_shape (r : DocumentRecord) : Prop :=
  match doc_status r with
  | PROCESSING => doc_pages r = 0%Z /\ doc_errorMessage r = None
  | READY => (1 <= doc_pages r)%Z /\ doc_errorMessage r = None
  | ERROR => doc_pages r = 0%Z /\ doc_errorMessage r <> None
  end.

(** What every reachable state satisfies: the ids of the waiting tasks and
    of the stored records were all drawn by [uuid4], no id occurs twice
    among the tasks or among the records, and the record of a waiting task
    is still PROCESSING. *)
Record consistent (s : System) : Prop := {
  pending_minted :
    forall t, In t (pending s) -> In (task_document_id t) (minted s);
  pending_distinct : NoDup (map task_document_id (pending s));
  documents_minted :
    forall r, In r (documents (world s)) -> In (doc_documentId r) (minted s);
  documents_distinct : NoDup (map doc_documentId (documents (world s)));
  pending_processing :
    forall t r,
      In t (pending s) -> In r (documents (world s)) ->
      doc_documentId r = task_document_id t -> doc_status r = PROCESSING
}.

Arguments pending_minted {s} _ t _.
Arguments pending_distinct {s} _.
Arguments documents_minted {s} _ r _.
Arguments documents_distinct {s} _.
Arguments pending_processing {s} _ t r _ _ _.

(** The document [id] has settled on the status [st]: the id was drawn, and
    whatever record carries it has that status. *)
Definition settled (id : string) (st : Status) (s : System) : Prop :=
  In id (minted s)
  /\ forall r, In r (documents (world s)) -> doc_documentId r = id -> doc_status r = st.

(** ** Collaborators and data for the examples *)

(** A splitter on pages shorter than the chunk size: a page that has text
    is one chunk. The constructor refuses an overlap above the size. *)
Definition short_page_splitter : TextSplitter :=
  {| splitter_init := fun size overlap =>
       if (size <? overlap)%Z
       then Some (ValueError "chunk overlap larger than chunk size")
       else None;
     split_text := fun _ _ t => if truthy t then [t] else [] |}.

Definition zeros (n : nat) : vector := repeat 0%float n.

(** A model whose vectors all have [dim] entries. *)
Definition constant_embeddings (dim : nat) : EmbeddingsLike :=
  {| embed_documents := fun texts => OK (map (fun _ => zeros dim) texts);
     embed_query := fun _ => OK (zeros dim) |}.

(** A model whose first vector has [dim] entries and every later one [other]. *)
Definition ragged_embeddings (dim other : nat) : EmbeddingsLike :=
  {| embed_documents := fun texts =>
       OK (match texts with
           | [] => []
           | _ :: rest => zeros dim :: map (fun _ => zeros other) rest
           end);
     embed_query := fun _ => OK (zeros dim) |}.

(** A model that returns one vector, whatever the number of texts. *)
Definition single_vector_embeddings (dim : nat) : EmbeddingsLike :=
  {| embed_documents := fun _ => OK [zeros dim];
     embed_query := fun _ => OK (zeros dim) |}.

(** A two-page PDF. *)
Definition two_pages : list RawPage :=
  [ {| raw_content := "alpha"; raw_page := Some 0%Z |};
    {| raw_content := "beta"; raw_page := Some 1%Z |} ].

(** A run in which every collaborator works, with the given loader output
    and embedding model. *)
Definition healthy_env (loaded : result (list RawPage)) (emb : EmbeddingsLike)
  : IngestEnv :=
  {| pypdf_load := fun _ => loaded;
     text_splitter := short_page_splitter;
     get_embeddings := fun _ => OK emb;
     insert_outcome := InsertAll;
     ready_update_fault := None;
     error_update_fault := None;
     setup_fault := None;
     unlink_fault := None |}.

(** The same, but the bulk insert raises after [n] documents. *)
Definition insert_failing_env (loaded : result (list RawPage)) (emb : EmbeddingsLike)
    (n : nat) : IngestEnv :=
  {| pypdf_load := fun _ => loaded;
     text_splitter := short_page_splitter;
     get_embeddings := fun _ => OK emb;
     insert_outcome := InsertRaises n (OtherException "batch op errors occurred");
     ready_update_fault := None;
     error_update_fault := None;
     setup_fault := None;
     unlink_fault := None |}.

(** A run that finds no database server: creating the first index raises. *)
Definition no_server_env (loaded : result (list RawPage)) (emb : EmbeddingsLike)
  : IngestEnv :=
  {| pypdf_load := fun _ => loaded;
     text_splitter := short_page_splitter;
     get_embeddings := fun _ => OK emb;
     insert_outcome := InsertAll;
     ready_update_fault := None;
     error_update_fault := None;
     setup_fault := Some (OtherException "ServerSelectionTimeoutError");
     unlink_fault := None |}.

(** The world right after the upload of document d1 in session alice. *)
Definition uploaded_world : World :=
  snd (upload_pdf default_settings None None "d1" "alice" (Some "a.pdf")
         (world initial)).

Definition d1_path : string := "backend/storage/d1.pdf".

Definition with_dimensions (d : Z) (s : Settings) : Settings :=
  {| mongodb_vector_index_name := mongodb_vector_index_name s;
     embeddings_dimensions := d;
     chunk_size := chunk_size s;
     chunk_overlap := chunk_overlap s;
     top_k := top_k s;
     num_candidates := num_candidates s;
     storage_dir := storage_dir s;
     default_session_id := default_session_id s |}.

(** A chunk as the ingestion stores it, with a one-entry vector. *)
Definition sample_chunk (session doc text : string) (x : float) : ChunkDoc :=
  {| chunk_sessionId := session;
     chunk_documentId := doc;
     chunk_text := text;
     chunk_embedding := [x];
     chunk_metadata := {| meta_page := 1; meta_source := "a.pdf" |};
     chunk_page := 1;
     chunk_source := "a.pdf";
     chunk_chunkIndex := 0;
     chunk_createdAt := 0 |}.

Definition ready_record (session doc : string) : DocumentRecord :=
  {| doc_documentId := doc;
     doc_sessionId := session;
     doc_fileName := "a.pdf";
     doc_fileSize := None;
     doc_status := READY;
     doc_pages := 1;
     doc_errorMessage := None;
     doc_createdAt := 0;
     doc_updatedAt := 1 |}.

(** Two sessions that hold the same text. *)
Definition shared_text_world : World :=
  {| documents := [ready_record "alice" "d1"; ready_record "bob" "d2"];
     chunks := [ sample_chunk "alice" "d1" "the same words" 1%float;
                 sample_chunk "bob" "d2" "the same words" 1%float ];
     files := [];
     clock := 0 |}.

(** A history: d1 is uploaded by alice and ingested. *)
Definition first_history : list Event :=
  [ Upload "d1" "alice" (Some "a.pdf") None None;
    RunTask 0 (healthy_env (OK two_pages) (constant_embeddings 384)) ].

(** What follows: d2 is uploaded by bob and turns out to have no page, bob
    asks to delete d1, bob deletes d2, and a third upload cannot be saved. *)
Definition later_history : list Event :=
  [ Upload "d2" "bob" (Some "b.pdf") None None;
    RunTask 0 (healthy_env (OK []) (constant_embeddings 384));
    Delete "d1" "bob";
    Delete "d2" "bob";
    Upload "d3" "alice" None (Some (BeforeOpen (OtherException "disk full"))) None ].

Definition state_after (evs : list Event) (s : System) : System :=
  match run default_settings evs s with
  | Some s1 => s1
  | None => s
  end.

(** An exact search: the rows that satisfy the filter, ranked by the dot
    product with the query vector, the best [limit] of them. *)
Fixpoint dot (u v : vector) : float :=
  match u, v with
  | x :: u1, y :: v1 => (x * y + dot u1 v1)%float
  | _, _ => 0%float
  end.

Fixpoint insert_by_score (h : ChunkDoc * float) (hs : list (ChunkDoc * float))
  : list (ChunkDoc * float) :=
  match hs with
  | [] => [h]
  | h1 :: rest =>
      if PrimFloat.ltb (snd h1) (snd h) then h :: hs
      else h1 :: insert_by_score h rest
  end.

Definition rank (hits : list (ChunkDoc * float)) : list (ChunkDoc * float) :=
  fold_right insert_by_score [] hits.

Definition exact_vector_search (vs : VectorSearch) (coll : list ChunkDoc)
  : result (list (ChunkDoc * float)) :=
  OK (firstn (Z.to_nat (vs_limit vs))
        (rank (map (fun c => (c, dot (vs_queryVector vs) (chunk_embedding c)))
                   (filter (chunk_matches (vs_filter vs)) coll)))).

Lemma insert_by_score_In :
  forall h hs x, In x (insert_by_score h hs) -> x = h \/ In x hs.
Proof.
  induction hs as [|h1 rest IH]; simpl; intros x Hx.
  - destruct Hx as [<-|[]]; auto.
  - destruct (PrimFloat.ltb (snd h1) (snd h)).
    + destruct Hx as [<-|Hx]; auto.
    + destruct Hx as [<-|Hx]; auto.
      destruct (IH _ Hx); auto.
Qed.

Lemma rank_In : forall hits x, In x (rank hits) -> In x hits.
Proof.
  induction hits as [|h rest IH]; simpl; intros x Hx; auto.
  destruct (insert_by_score_In _ _ _ Hx); auto.
Qed.

Lemma firstn_subset :
  forall (A : Type) (n : nat) (l : list A) (x : A), In x (firstn n l) -> In x l.
Proof.
  intros A n l x H. rewrite <- (firstn_skipn n l). apply in_or_app. now left.
Qed.

Lemma exact_vector_search_filtered :
  forall vs coll hits,
    exact_vector_search vs coll = OK hits ->
    Forall (fun hit => In (fst hit) coll /\ chunk_matches (vs_filter vs) (fst hit) = true)
           hits.
Proof.
  intros vs coll hits H. unfold exact_vector_search in H.
  injection H as <-. apply Forall_forall. intros hit Hin.
  apply firstn_subset, rank_In, in_map_iff in Hin.
  destruct Hin as [c [<- Hc]]. simpl.
  apply filter_In in Hc. exact Hc.
Qed.

#[local] Instance exact_search : AtlasSearch :=
  {| vector_search := exact_vector_search;
     vector_search_filtered := exact_vector_search_filtered |}.

Lemma failing_vector_search_filtered :
  forall (e : exn) (vs : VectorSearch) (coll : list ChunkDoc) hits,
    @Raise (list (ChunkDoc * float)) e = OK hits ->
    Forall (fun hit => In (fst hit) coll /\ chunk_matches (vs_filter vs) (fst hit) = true)
           hits.
Proof. intros e vs coll hits H. discriminate H. Qed.

(** A store that cannot be reached: every search raises [e]. *)
Definition unreachable_search (e : exn) : AtlasSearch :=
  {| vector_search := fun _ _ => Raise e;
     vector_search_filtered := failing_vector_search_filtered e |}.

(** Python's two methods on ASCII text: white space is the tab, the line
    and page controls, the separators 28 to 31 and the blank; the upper
    case letters are A to Z. *)
Definition is_space (c : ascii) : bool :=
  let n := nat_of_ascii c in
  ((9 <=? n) && (n <=? 13) || (28 <=? n) && (n <=? 32))%nat.

Fixpoint lstrip (s : string) : string :=
  match s with
  | EmptyString => ""
  | String c rest => if is_space c then lstrip rest else s
  end.

Fixpoint rstrip (s : string) : string :=
  match s with
  | EmptyString => ""
  | String c rest =>
      let kept := rstrip rest in
      if is_space c && String.eqb kept "" then "" else String c kept
  end.

Definition lower_char (c : ascii) : ascii :=
  let n := nat_of_ascii c in
  if ((65 <=? n) && (n <=? 90))%nat then ascii_of_nat (n + 32) else c.

Fixpoint lower_ascii (s : string) : string :=
  match s with
  | EmptyString => ""
  | String c rest => String (lower_char c) (lower_ascii rest)
  end.

#[local] Instance ascii_str : PyStr :=
  {| strip := fun s => rstrip (lstrip s);
     lower := lower_ascii |}.

(** Chunks as the retriever returns them, two of them from the same page. *)
Definition scored (text : string) (page : option Z) (name : option string)
  : ScoredDocument :=
  {| sd_page_content := text;
     sd_page := page;
     sd_source := name;
     sd_documentId := Some "d1";
     sd_similarity := Some 0%float |}.

Definition retrieved_chunks : list ScoredDocument :=
  [ scored "  first of page one  " (Some 1%Z) (Some "a.pdf");
    scored "second of page one" (Some 1%Z) (Some "a.pdf");
    scored "no page" None (Some "a.pdf");
    scored "page two" (Some 2%Z) (Some "a.pdf") ].

(** A chunk of 300 letters outside ASCII: e with an acute accent, two bytes
    each. *)
Definition e_acute : string :=
  String (ascii_of_nat 195) (String (ascii_of_nat 169) "").

Definition accented_chunk : ScoredDocument :=
  scored (String.concat "" (repeat e_acute 300)) (Some 1%Z) (Some "a.pdf").

(** A chain that answers and hands back no documents of its own. *)
Definition echo_chain : QAChain :=
  fun _ question _ =>
    OK {| out_result := Some question; out_source_documents := None |}.

(** * Properties *)

(** ** Queries and collection operations *)

Lemma doc_matches_documentId :
  forall id r,
    doc_matches [("documentId", id)] r = String.eqb (doc_documentId r) id.
Proof. intros id r. unfold doc_matches. simpl. apply andb_true_r. Qed.

Lemma doc_matches_documentId_sessionId :
  forall id s r,
    doc_matches [("documentId", id); ("sessionId", s)] r
    = String.eqb (doc_documentId r) id && String.eqb (doc_sessionId r) s.
Proof. intros id s r. unfold doc_matches. simpl. now rewrite andb_true_r. Qed.

Lemma chunk_matches_documentId :
  forall id c,
    chunk_matches [("documentId", id)] c = String.eqb (chunk_documentId c) id.
Proof. intros id c. unfold chunk_matches. simpl. apply andb_true_r. Qed.

Lemma chunk_matches_sessionId_first :
  forall s q c,
    chunk_matches (("sessionId", s) :: q) c = true -> chunk_sessionId c = s.
Proof.
  intros s q c H. unfold chunk_matches in H. simpl in H.
  apply andb_true_iff in H. destruct H as [H _]. now apply String.eqb_eq.
Qed.

Lemma delete_one_no_match :
  forall (A : Type) (m : A -> bool) (rows : list A),
    (forall r, In r rows -> m r = false) -> delete_one m rows = rows.
Proof.
  induction rows as [|r rest IH]; simpl; intros H; auto.
  rewrite (H r (or_introl eq_refl)). f_equal. apply IH. auto.
Qed.

Lemma delete_one_subset :
  forall (A : Type) (m : A -> bool) (rows : list A) (x : A),
    In x (delete_one m rows) -> In x rows.
Proof.
  induction rows as [|r rest IH]; simpl; intros x H; auto.
  destruct (m r); simpl in *; intuition.
Qed.

Lemma update_one_In :
  forall (A : Type) (m : A -> bool) (f : A -> A) (rows : list A) (x : A),
    In x (update_one m f rows) ->
    In x rows \/ exists r, In r rows /\ m r = true /\ x = f r.
Proof.
  induction rows as [|r rest IH]; simpl; intros x H; auto.
  destruct (m r) eqn:E; simpl in H.
  - destruct H as [<-|H]; [right; exists r; auto | auto].
  - destruct H as [<-|H]; auto.
    destruct (IH _ H) as [H1|[r1 [H1 [H2 H3]]]]; [auto|].
    right. exists r1. auto.
Qed.

Lemma update_one_no_match :
  forall (A : Type) (m : A -> bool) (f : A -> A) (rows : list A),
    (forall r, In r rows -> m r = false) -> update_one m f rows = rows.
Proof.
  induction rows as [|r rest IH]; simpl; intros H; auto.
  rewrite (H r (or_introl eq_refl)). f_equal. apply IH. auto.
Qed.

Lemma update_one_map :
  forall (A B : Type) (g : A -> B) (m : A -> bool) (f : A -> A) (rows : list A),
    (forall r, g (f r) = g r) -> map g (update_one m f rows) = map g rows.
Proof.
  induction rows as [|r rest IH]; simpl; intros H; auto.
  destruct (m r); simpl; [now rewrite H | now rewrite IH].
Qed.

Lemma find_update_one :
  forall (A : Type) (m : A -> bool) (f : A -> A) (rows : list A),
    (forall r, m (f r) = m r) ->
    find m (update_one m f rows) = option_map f (find m rows).
Proof.
  induction rows as [|r rest IH]; simpl; intros H; auto.
  destruct (m r) eqn:E; simpl.
  - now rewrite H, E.
  - rewrite E. now apply IH.
Qed.

(** ** Deleting a document *)

(** C9, as the code has it: a non-empty session id is given and no stored
    record of that documentId carries it. Then the delete leaves the
    documents collection as it was, the session-filtered [delete_one]
    matching nothing, and still removes every chunk of that documentId,
    whatever session the chunk belongs to; the other chunks stay, in their
    order. The guard [if session_id:] takes the empty string for no session
    id, so the property does not reach it. *)
Theorem delete_foreign_session_keeps_record_drops_chunks :
  forall (document_id s : string) (w : World),
    s <> "" ->
    (forall r, In r (documents w) ->
               doc_documentId r = document_id -> doc_sessionId r <> s) ->
    documents (delete_document_and_chunks document_id (Some s) w) = documents w
    /\ chunks (delete_document_and_chunks document_id (Some s) w)
       = filter (fun c => negb (String.eqb (chunk_documentId c) document_id))
                (chunks w).
Proof.
  intros document_id s w Hs Hforeign.
  unfold delete_document_and_chunks, truthy.
  apply String.eqb_neq in Hs. rewrite Hs. simpl. split.
  - apply delete_one_no_match. intros r Hr.
    rewrite doc_matches_documentId_sessionId.
    destruct (String.eqb (doc_documentId r) document_id) eqn:E; simpl; auto.
    apply String.eqb_neq. apply Hforeign; auto. now apply String.eqb_eq.
  - unfold delete_many. apply filter_ext. intros c.
    now rewrite chunk_matches_documentId.
Qed.

(** The theorem applies: bob asks to delete alice's document d1. *)
Lemma delete_foreign_session_example :
  documents (delete_document_and_chunks "d1" (Some "bob") shared_text_world)
  = documents shared_text_world
  /\ chunks (delete_document_and_chunks "d1" (Some "bob") shared_text_world)
     = filter (fun c => negb (String.eqb (chunk_documentId c) "d1"))
              (chunks shared_text_world).
Proof.
  apply (delete_foreign_session_keeps_record_drops_chunks "d1" "bob" shared_text_world).
  - discriminate.
  - simpl. intros r [<-|[<-|[]]]; simpl; intros H; discriminate.
Defined.

(** C9 as stated fails for the empty session id: it is provided and is not
    the session of the stored record d1, yet for the guard it is no session
    id, the filter is dropped and the record of d1 is removed. *)
Lemma delete_empty_session_removes_record :
  "" <> doc_sessionId
          {| doc_documentId := "d1"; doc_sessionId := "alice";
             doc_fileName := "a.pdf"; doc_fileSize := None;
             doc_status := PROCESSING; doc_pages := 0;
             doc_errorMessage := None; doc_createdAt := 0;
             doc_updatedAt := 0 |}
  /\ documents uploaded_world
     = [ {| doc_documentId := "d1"; doc_sessionId := "alice";
            doc_fileName := "a.pdf"; doc_fileSize := None;
            doc_status := PROCESSING; doc_pages := 0;
            doc_errorMessage := None; doc_createdAt := 0;
            doc_updatedAt := 0 |} ]
  /\ documents (delete_document_and_chunks "d1" (Some "") uploaded_world) = [].
Proof. repeat split. discriminate. Qed.

(** ** The retriever's result loop *)

Lemma collect_documents_from :
  forall results acc,
    fold_left
      (fun docs r =>
         let text := text_of r in
         if negb (truthy text) then docs else docs ++ [to_document r])
      results acc
    = acc ++ map to_document (filter (fun r => truthy (text_of r)) results).
Proof.
  induction results as [|r rest IH]; intros acc; simpl.
  - now rewrite app_nil_r.
  - rewrite IH. destruct (truthy (text_of r)); simpl; auto.
    now rewrite <- app_assoc.
Qed.

Lemma collect_documents_eq :
  forall results,
    collect_documents results
    = map to_document (filter (fun r => truthy (text_of r)) results).
Proof. intros results. unfold collect_documents. apply collect_documents_from. Qed.

(** C8: the loop skips exactly the rows whose text is the empty string or
    which have no text field, and returns the remaining rows in the order
    the store returned them, never re-sorted: the result is the sublist of
    the rows with a non-empty text, in place, each turned into the Document
    that carries this text and the row's page, source, documentId and
    score. *)
Theorem collect_documents_filters_in_order :
  forall results,
    collect_documents results
    = map (fun r =>
             {| sd_page_content := match raw_text r with
                                   | Some t => t
                                   | None => ""
                                   end;
                sd_page := raw_pageno r;
                sd_source := raw_source r;
                sd_documentId := raw_documentId r;
                sd_similarity := raw_score r |})
          (filter (fun r => match raw_text r with
                            | Some t => negb (String.eqb t "")
                            | None => false
                            end)
                  results).
Proof.
  intros results. rewrite collect_documents_eq.
  rewrite (filter_ext (fun r => truthy (text_of r))
             (fun r => match raw_text r with
                       | Some t => negb (String.eqb t "")
                       | None => false
                       end)).
  - reflexivity.
  - intros r. unfold truthy, text_of. destruct (raw_text r); reflexivity.
Qed.

(** ** The splitter on no pages *)

Lemma split_documents_nil :
  forall ts size overlap, split_documents ts size overlap [] = [].
Proof. reflexivity. Qed.

(** Running a task whose loader yields no page. *)
Lemma ingest_no_pages :
  forall env settings document_id session_id file_path original_filename w,
    pypdf_load env file_path = OK [] ->
    ingest env settings document_id session_id file_path original_filename w
    = (Raise (ValueError "No text could be extracted from this PDF."), w).
Proof.
  intros env settings document_id session_id file_path original_filename w Hload.
  unfold ingest, bind, lift, load_pdf_pages. rewrite Hload. reflexivity.
Qed.

(** C5, as the code has it: on no pages the splitter, once its sizes are
    accepted, returns no chunks and signals nothing. The empty document is
    caught one level up: the task checks the loaded pages before it calls
    the splitter, and on none it ends with the record in ERROR with the
    message of its own ValueError, and with the chunks as they were. *)
Theorem empty_pages_caught_by_task_not_splitter :
  forall env settings document_id session_id file_path original_filename w,
    splitter_init (text_splitter env) (chunk_size settings) (chunk_overlap settings)
    = None ->
    pypdf_load env file_path = OK [] ->
    error_update_fault env = None ->
    split_into_chunks (text_splitter env) []
      (chunk_size settings) (chunk_overlap settings) = OK []
    /\ process_document_background env settings document_id session_id
         file_path original_filename w
       = (OK tt,
          unlink file_path
            (set_documents
               (update_one (doc_matches [("documentId", document_id)])
                  (status_update ERROR (clock w) (Some 0%Z)
                     (Some "No text could be extracted from this PDF."))
                  (documents w))
               (tick w))).
Proof.
  intros env settings document_id session_id file_path original_filename w
         Hinit Hload Hfault.
  split.
  - unfold split_into_chunks. now rewrite Hinit.
  - unfold process_document_background, finally, try_except.
    rewrite ingest_no_pages by assumption.
    unfold update_document_status, bind, utc_now. rewrite Hfault. reflexivity.
Qed.

(** The theorem applies: the upload d1 turns out to have no page. *)
Lemma empty_pages_example :
  split_into_chunks short_page_splitter [] 1000 150 = OK []
  /\ process_document_background (healthy_env (OK []) (constant_embeddings 384))
       default_settings "d1" "alice" d1_path "a.pdf" uploaded_world
     = (OK tt,
        unlink d1_path
          (set_documents
             (update_one (doc_matches [("documentId", "d1")])
                (status_update ERROR (clock uploaded_world) (Some 0%Z)
                   (Some "No text could be extracted from this PDF."))
                (documents uploaded_world))
             (tick uploaded_world))).
Proof.
  apply (empty_pages_caught_by_task_not_splitter
           (healthy_env (OK []) (constant_embeddings 384))
           default_settings "d1" "alice" d1_path "a.pdf" uploaded_world);
    reflexivity.
Defined.

(** C5 as stated fails: with the default sizes the splitter returns the
    empty list for the empty page sequence, and raises nothing. *)
Lemma splitter_silent_on_no_pages :
  split_into_chunks short_page_splitter []
    (chunk_size default_settings) (chunk_overlap default_settings) = OK [].
Proof. reflexivity. Qed.

(** ** The retriever *)

(** The search is reached exactly when the model gave a vector of 384
    entries; the settings play no part. *)
Lemma search_issued_iff_384 :
  forall (S : AtlasSearch) self query w v,
    embed_query (embeddings self) query = OK v ->
    (fst (_get_relevant_documents self query w) = [_vector_search_pipeline self v]
     <-> length v = 384%nat)
    /\ (fst (_get_relevant_documents self query w) = [] <-> length v <> 384%nat).
Proof.
  intros S self query w v Hv. unfold _get_relevant_documents. rewrite Hv.
  destruct (Nat.eqb (length v) 384) eqn:E; cbn [negb].
  - apply Nat.eqb_eq in E.
    destruct (aggregate (_vector_search_pipeline self v) (chunks w)); cbn [fst];
      (split; split; intros H; [exact E | reflexivity | discriminate H
                               | exfalso; exact (H E)]).
  - apply Nat.eqb_neq in E. cbn [fst].
    split; split; intros H; [discriminate H | exfalso; exact (E H)
                            | exact E | reflexivity].
Qed.

(** C3: when the model gave a vector of the expected length and the search
    raises, the retriever returns the empty list and raises nothing. *)
Theorem search_failure_returns_empty_list :
  forall (S : AtlasSearch) self query w v e,
    embed_query (embeddings self) query = OK v ->
    length v = 384%nat ->
    aggregate (_vector_search_pipeline self v) (chunks w) = Raise e ->
    _get_relevant_documents self query w
    = ([_vector_search_pipeline self v], OK []).
Proof.
  intros S self query w v e Hv Hlen Hsearch.
  unfold _get_relevant_documents. rewrite Hv, Hlen. cbn [Nat.eqb negb].
  now rewrite Hsearch.
Qed.

(** The theorem applies: the store cannot be reached. *)
Lemma search_failure_example :
  @_get_relevant_documents (unreachable_search (OtherException "connection refused"))
    (chat_retriever default_settings (constant_embeddings 384) "alice")
    "what is alpha?" shared_text_world
  = ([_vector_search_pipeline
        (chat_retriever default_settings (constant_embeddings 384) "alice")
        (zeros 384)],
     OK []).
Proof.
  apply (@search_failure_returns_empty_list
           (unreachable_search (OtherException "connection refused"))
           (chat_retriever default_settings (constant_embeddings 384) "alice")
           "what is alpha?" shared_text_world (zeros 384)
           (OtherException "connection refused")).
  - reflexivity.
  - reflexivity.
  - reflexivity.
Defined.

(** C4 at a configured dimensionality of 256: a query vector of the
    configured length is refused against the literal 384 and no search is
    sent, while one of 384 entries, which the configuration excludes, is
    searched with. *)
Theorem query_check_uses_literal_not_setting :
  embeddings_dimensions (with_dimensions 256 default_settings) = 256%Z
  /\ @_get_relevant_documents exact_search
       (chat_retriever (with_dimensions 256 default_settings)
          (constant_embeddings 256) "alice")
       "what is alpha?" shared_text_world
     = ([], Raise (ValueError
                     "Query vector dimension mismatch: expected 384, got 256"))
  /\ fst (@_get_relevant_documents exact_search
            (chat_retriever (with_dimensions 256 default_settings)
               (constant_embeddings 384) "alice")
            "what is alpha?" shared_text_world)
     = [_vector_search_pipeline
          (chat_retriever (with_dimensions 256 default_settings)
             (constant_embeddings 384) "alice")
          (zeros 384)].
Proof. repeat split; vm_compute; reflexivity. Qed.

Lemma pipeline_filter_starts_with_session :
  forall self,
    exists rest,
      match document_id self with
      | Some d => if truthy d
                  then [("sessionId", session_id self)] ++ [("documentId", d)]
                  else [("sessionId", session_id self)]
      | None => [("sessionId", session_id self)]
      end = ("sessionId", session_id self) :: rest.
Proof.
  intros self. destruct (document_id self) as [d|]; [destruct (truthy d)|];
    simpl; eauto.
Qed.

(** C7: for every search behind [$vectorSearch] that returns rows of the
    collection satisfying the stage's filter (the [AtlasSearch] interface),
    every Document a retrieval returns is the projection of a chunk of the
    collection whose sessionId is the retriever's session; no chunk of
    another session is behind a result, whatever the query text. *)
Theorem retrieval_stays_within_session :
  forall (S : AtlasSearch) self query w trace docs,
    _get_relevant_documents self query w = (trace, OK docs) ->
    Forall
      (fun d =>
         exists c score,
           In c (chunks w)
           /\ chunk_sessionId c = session_id self
           /\ d = to_document
                    (project ["text"; "page"; "source"; "documentId"] true (c, score)))
      docs.
Proof.
  intros S self query w trace docs H.
  unfold _get_relevant_documents in H.
  destruct (embed_query (embeddings self) query) as [v|e]; [|discriminate H].
  destruct (negb (Nat.eqb (length v) 384)); [discriminate H|].
  unfold aggregate, _vector_search_pipeline in H.
  destruct (pipeline_filter_starts_with_session self) as [rest Hfilter].
  rewrite Hfilter in H.
  match type of H with
  | context [vector_search ?vs ?coll] =>
      pose proof (vector_search_filtered vs coll) as Hlaw;
      destruct (vector_search vs coll) as [hits|e]
  end.
  - injection H as _ <-. specialize (Hlaw hits eq_refl).
    rewrite collect_documents_eq.
    apply Forall_forall. intros d Hd.
    apply in_map_iff in Hd. destruct Hd as [r [<- Hr]].
    apply filter_In in Hr. destruct Hr as [Hr _].
    apply in_map_iff in Hr. destruct Hr as [[c score] [<- Hhit]].
    rewrite Forall_forall in Hlaw. destruct (Hlaw _ Hhit) as [Hin Hmatch].
    simpl in Hin, Hmatch. exists c, score. repeat split; auto.
    eapply chunk_matches_sessionId_first. exact Hmatch.
  - injection H as _ <-. constructor.
Qed.

(** The theorem applies: alice and bob hold the same text, and alice's
    query returns her passage only. *)
Lemma retrieval_stays_within_session_example :
  Forall
    (fun d =>
       exists c score,
         In c (chunks shared_text_world)
         /\ chunk_sessionId c
            = session_id (chat_retriever default_settings (constant_embeddings 384) "alice")
         /\ d = to_document
                  (project ["text"; "page"; "source"; "documentId"] true (c, score)))
    [ {| sd_page_content := "the same words";
         sd_page := Some 1%Z;
         sd_source := Some "a.pdf";
         sd_documentId := Some "d1";
         sd_similarity := Some 0%float |} ].
Proof.
  apply (@retrieval_stays_within_session exact_search
           (chat_retriever default_settings (constant_embeddings 384) "alice")
           "the same words" shared_text_world
           [_vector_search_pipeline
              (chat_retriever default_settings (constant_embeddings 384) "alice")
              (zeros 384)]).
  vm_compute. reflexivity.
Defined.

(** ** The ingestion task *)

Lemma build_chunk_docs_length :
  forall session_id document_id now split_chunks vectors,
    length (build_chunk_docs session_id document_id now split_chunks vectors)
    = Nat.min (length split_chunks) (length vectors).
Proof.
  intros. unfold build_chunk_docs, enumerate.
  rewrite length_map, length_combine, length_seq, length_combine.
  apply Nat.min_id.
Qed.

Lemma build_chunk_docs_prefix :
  forall session_id document_id now split_chunks vectors,
    build_chunk_docs session_id document_id now split_chunks vectors
    = build_chunk_docs session_id document_id now
        (firstn (length vectors) split_chunks) vectors.
Proof.
  intros. unfold build_chunk_docs.
  now rewrite (combine_firstn_r split_chunks vectors) at 1.
Qed.

Lemma enumerate_map_snd :
  forall (A : Type) (xs : list A), map snd (enumerate xs) = xs.
Proof.
  intros A xs. unfold enumerate.
  assert (H : forall (l : list A) n, map snd (combine (seq n (length l)) l) = l).
  { induction l as [|x l IH]; simpl; intros n; auto. now rewrite IH. }
  apply H.
Qed.

Lemma build_chunk_docs_texts :
  forall session_id document_id now split_chunks vectors,
    map chunk_text (build_chunk_docs session_id document_id now split_chunks vectors)
    = map page_content (map fst (combine split_chunks vectors)).
Proof.
  intros. unfold build_chunk_docs. rewrite map_map. simpl.
  rewrite <- (enumerate_map_snd _ (combine split_chunks vectors)) at 2.
  now rewrite !map_map.
Qed.

Lemma combine_fst_longer :
  forall (A B : Type) (xs : list A) (ys : list B),
    (length ys <= length xs)%nat ->
    map fst (combine xs ys) = firstn (length ys) xs.
Proof.
  induction xs as [|x xs IH]; intros [|y ys] H; simpl in *; auto; try lia.
  f_equal. apply IH. lia.
Qed.

(** What a run of the [try] body can come to. Either it returns, and then
    its one write to the documents collection is the READY update; or it
    raises with the documents untouched, and then the chunks are untouched
    too unless the bulk insert raised after writing, or the READY update
    raised after the insert. *)
Lemma ingest_cases :
  forall env settings document_id session_id file_path original_filename w r w1,
    ingest env settings document_id session_id file_path original_filename w
    = (r, w1) ->
    (r = OK tt
     /\ exists now n,
          documents w1
          = update_one (doc_matches [("documentId", document_id)])
              (status_update READY now (Some n) None) (documents w))
    \/ (exists e,
          r = Raise e
          /\ documents w1 = documents w
          /\ (chunks w1 = chunks w
              \/ (exists n e1, insert_outcome env = InsertRaises (S n) e1)
              \/ (exists e1, ready_update_fault env = Some e1))).
Proof.
  intros env settings document_id session_id file_path original_filename w r w1.
  unfold ingest, bind, lift.
  destruct (load_pdf_pages (pypdf_load env file_path) original_filename)
    as [pages|e]; [|intros [= <- <-]; right; eauto].
  destruct pages as [|p ps]; [intros [= <- <-]; right; unfold raise; eauto|].
  cbn [ret].
  destruct (split_into_chunks (text_splitter env) (p :: ps)
              (chunk_size settings) (chunk_overlap settings))
    as [split_chunks|e]; [|intros [= <- <-]; right; eauto].
  destruct (get_embeddings env settings) as [emb|e];
    [|intros [= <- <-]; right; eauto].
  destruct (embed_documents emb (map page_content split_chunks)) as [vectors|e];
    [|intros [= <- <-]; right; eauto].
  assert (Hcheck :
    check_dimensions settings vectors w = (OK tt, w)
    \/ exists e, check_dimensions settings vectors w = (Raise e, w)).
  { unfold check_dimensions. destruct vectors as [|v0 rest]; [now left|].
    destruct (negb (Z.of_nat (length v0) =? embeddings_dimensions settings)%Z);
      [right; eexists; reflexivity | now left]. }
  destruct Hcheck as [Hcheck|[e Hcheck]]; rewrite Hcheck;
    [|intros [= <- <-]; right; eauto].
  cbn [utc_now].
  set (docs := build_chunk_docs session_id document_id (clock w) split_chunks vectors).
  destruct docs as [|c cs].
  - cbn [insert_chunks ret Nat.eqb raise]. intros [= <- <-]. right.
    eexists. split; [reflexivity|]. split; [reflexivity|]. now left.
  - cbn [insert_chunks insert_many].
    destruct (insert_outcome env) as [|n e1] eqn:Hins; cbn [insert_many].
    + cbn [length Nat.eqb ret]. unfold update_document_status, bind, utc_now.
      destruct (ready_update_fault env) as [e1|] eqn:Hready.
      * intros [= <- <-]. right. eexists. split; [reflexivity|].
        split; [reflexivity|]. right. right. eauto.
      * intros [= <- <-]. left. split; [reflexivity|]. eexists. eexists.
        reflexivity.
    + intros [= <- <-]. right. eexists. split; [reflexivity|].
      split; [reflexivity|]. destruct n as [|n].
      * left. cbn [firstn set_chunks chunks tick]. now rewrite app_nil_r.
      * right. left. eauto.
Qed.

(** The [try] body up to the dimension check, when every collaborator
    answers. *)
Lemma ingest_after_embedding :
  forall env settings document_id session_id file_path original_filename w
         pages split_chunks emb vectors,
    load_pdf_pages (pypdf_load env file_path) original_filename = OK pages ->
    pages <> [] ->
    split_into_chunks (text_splitter env) pages
      (chunk_size settings) (chunk_overlap settings) = OK split_chunks ->
    get_embeddings env settings = OK emb ->
    embed_documents emb (map page_content split_chunks) = OK vectors ->
    ingest env settings document_id session_id file_path original_filename w
    = (check_dimensions settings vectors ;;;
       now <- utc_now ;;
       let chunk_docs :=
         build_chunk_docs session_id document_id now split_chunks vectors in
       inserted <- insert_chunks (insert_outcome env) chunk_docs ;;
       (if Nat.eqb inserted 0
        then raise (ValueError "No chunks were stored (empty document).")
        else ret tt) ;;;
       update_document_status (ready_update_fault env) document_id READY
         (Some (Z.of_nat (length pages))) None) w.
Proof.
  intros env settings document_id session_id file_path original_filename w
         pages split_chunks emb vectors Hload Hpages Hsplit Hemb Hvec.
  unfold ingest, bind at 1 2 3 4 5, lift. rewrite Hload.
  destruct pages as [|p ps]; [contradiction|]. cbn [ret].
  now rewrite Hsplit, Hemb, Hvec.
Qed.

(** C10: the model returned fewer vectors than there are passages, at
    least one, and the first has the configured length. Then the task
    stores a record for each of the first [len(vectors)] passages and for
    no other, returns without an exception, and its only write to the
    documents collection is the READY update, which sets no error message:
    the stored record becomes READY with the page count, its error message
    as it was. *)
Theorem fewer_vectors_store_prefix_and_mark_ready :
  forall env settings document_id session_id file_path original_filename w
         pages split_chunks emb v0 rest,
    load_pdf_pages (pypdf_load env file_path) original_filename = OK pages ->
    pages <> [] ->
    split_into_chunks (text_splitter env) pages
      (chunk_size settings) (chunk_overlap settings) = OK split_chunks ->
    get_embeddings env settings = OK emb ->
    embed_documents emb (map page_content split_chunks) = OK (v0 :: rest) ->
    (length (v0 :: rest) < length split_chunks)%nat ->
    Z.of_nat (length v0) = embeddings_dimensions settings ->
    insert_outcome env = InsertAll ->
    ready_update_fault env = None ->
    let stored :=
      build_chunk_docs session_id document_id (clock w)
        (firstn (length (v0 :: rest)) split_chunks) (v0 :: rest) in
    let run :=
      process_document_background env settings document_id session_id
        file_path original_filename w in
    fst run = OK tt
    /\ chunks (snd run) = chunks w ++ stored
    /\ length stored = length (v0 :: rest)
    /\ map chunk_text stored
       = map page_content (firstn (length (v0 :: rest)) split_chunks)
    /\ documents (snd run)
       = update_one (doc_matches [("documentId", document_id)])
           (status_update READY (S (clock w))
              (Some (Z.of_nat (length pages))) None)
           (documents w)
    /\ (forall r,
          get_document document_id w = Some r ->
          exists r1,
            get_document document_id (snd run) = Some r1
            /\ doc_status r1 = READY
            /\ doc_pages r1 = Z.of_nat (length pages)
            /\ doc_errorMessage r1 = doc_errorMessage r).
Proof.
  intros env settings document_id session_id file_path original_filename w
         pages split_chunks emb v0 rest Hload Hpages Hsplit Hemb Hvec Hfew Hdim
         Hins Hready stored run.
  assert (Hstored : length stored = length (v0 :: rest)).
  { unfold stored. rewrite build_chunk_docs_length, length_firstn. lia. }
  assert (Hrun :
    run = (OK tt,
           unlink file_path
             (set_documents
                (update_one (doc_matches [("documentId", document_id)])
                   (status_update READY (S (clock w))
                      (Some (Z.of_nat (length pages))) None)
                   (documents w))
                (tick (set_chunks (chunks w ++ stored) (tick w)))))).
  { unfold run, process_document_background, finally, try_except.
    rewrite (ingest_after_embedding env settings document_id session_id file_path
               original_filename w _ _ _ _ Hload Hpages Hsplit Hemb Hvec).
    unfold bind at 1, check_dimensions. rewrite Hdim, Z.eqb_refl. cbn [negb ret].
    unfold bind at 1, utc_now.
    rewrite build_chunk_docs_prefix. fold stored.
    unfold bind at 1, insert_chunks.
    destruct stored as [|c cs] eqn:Estored; [discriminate Hstored|].
    rewrite Hins. cbn [insert_many length Nat.eqb]. unfold bind at 1. cbn [ret].
    unfold update_document_status, bind, utc_now. rewrite Hready. reflexivity. }
  rewrite Hrun. cbn [fst snd].
  split; [reflexivity|]. split; [reflexivity|]. split; [exact Hstored|].
  split; [|split; [reflexivity|]].
  - unfold stored. rewrite build_chunk_docs_texts, combine_fst_longer.
    + now rewrite firstn_firstn, Nat.min_id.
    + rewrite length_firstn. lia.
  - intros r Hr. unfold get_document, find_one in *.
    cbn [unlink set_files set_documents documents].
    rewrite find_update_one by reflexivity. rewrite Hr.
    eexists. split; [reflexivity|]. repeat split.
Qed.

(** The theorem applies: two passages, one vector. *)
Lemma fewer_vectors_example :
  let stored :=
    build_chunk_docs "alice" "d1" (clock uploaded_world)
      (firstn 1 [ {| page_content := "alpha";
                     metadata := {| meta_page := 1; meta_source := "a.pdf" |} |};
                  {| page_content := "beta";
                     metadata := {| meta_page := 2; meta_source := "a.pdf" |} |} ])
      [zeros 384] in
  let run :=
    process_document_background
      (healthy_env (OK two_pages) (single_vector_embeddings 384))
      default_settings "d1" "alice" d1_path "a.pdf" uploaded_world in
  fst run = OK tt
  /\ chunks (snd run) = chunks uploaded_world ++ stored
  /\ length stored = 1%nat
  /\ map chunk_text stored = ["alpha"]
  /\ documents (snd run)
     = update_one (doc_matches [("documentId", "d1")])
         (status_update READY (S (clock uploaded_world)) (Some 2%Z) None)
         (documents uploaded_world)
  /\ (forall r,
        get_document "d1" uploaded_world = Some r ->
        exists r1,
          get_document "d1" (snd run) = Some r1
          /\ doc_status r1 = READY
          /\ doc_pages r1 = 2%Z
          /\ doc_errorMessage r1 = doc_errorMessage r).
Proof.
  apply (fewer_vectors_store_prefix_and_mark_ready
           (healthy_env (OK two_pages) (single_vector_embeddings 384))
           default_settings "d1" "alice" d1_path "a.pdf" uploaded_world
           [ {| page_content := "alpha";
                metadata := {| meta_page := 1; meta_source := "a.pdf" |} |};
             {| page_content := "beta";
                metadata := {| meta_page := 2; meta_source := "a.pdf" |} |} ]
           [ {| page_content := "alpha";
                metadata := {| meta_page := 1; meta_source := "a.pdf" |} |};
             {| page_content := "beta";
                metadata := {| meta_page := 2; meta_source := "a.pdf" |} |} ]
           (single_vector_embeddings 384) (zeros 384) []).
  - reflexivity.
  - discriminate.
  - reflexivity.
  - reflexivity.
  - reflexivity.
  - simpl. lia.
  - reflexivity.
  - reflexivity.
  - reflexivity.
Defined.

(** The check reads [len(vectors[0])]. When the length of the first vector
    differs from the configured dimensionality the [try] body raises a
    ValueError whose text gives the length found and the length expected,
    with the world as it was; the task leaves the chunks untouched, and
    (when the ERROR update goes through) records that text on the
    document. *)
Lemma first_vector_mismatch_fails_before_any_write :
  forall env settings document_id session_id file_path original_filename w
         pages split_chunks emb v0 rest,
    load_pdf_pages (pypdf_load env file_path) original_filename = OK pages ->
    pages <> [] ->
    split_into_chunks (text_splitter env) pages
      (chunk_size settings) (chunk_overlap settings) = OK split_chunks ->
    get_embeddings env settings = OK emb ->
    embed_documents emb (map page_content split_chunks) = OK (v0 :: rest) ->
    Z.of_nat (length v0) <> embeddings_dimensions settings ->
    let message :=
      "Embedding dimensions mismatch. "
      +++ "Got " +++ str_of_nat (length v0)
      +++ ", expected " +++ str_of_Z (embeddings_dimensions settings) +++ ". "
      +++ "Update EMBEDDINGS_DIMENSIONS and recreate the Atlas Vector Search index." in
    let run :=
      process_document_background env settings document_id session_id
        file_path original_filename w in
    ingest env settings document_id session_id file_path original_filename w
    = (Raise (ValueError message), w)
    /\ chunks (snd run) = chunks w
    /\ (error_update_fault env = None ->
        fst run = OK tt
        /\ documents (snd run)
           = update_one (doc_matches [("documentId", document_id)])
               (status_update ERROR (clock w) (Some 0%Z) (Some message))
               (documents w)).
Proof.
  intros env settings document_id session_id file_path original_filename w
         pages split_chunks emb v0 rest Hload Hpages Hsplit Hemb Hvec Hdim
         message run.
  assert (Hingest :
    ingest env settings document_id session_id file_path original_filename w
    = (Raise (ValueError message), w)).
  { rewrite (ingest_after_embedding env settings document_id session_id file_path
               original_filename w _ _ _ _ Hload Hpages Hsplit Hemb Hvec).
    unfold bind at 1, check_dimensions.
    apply Z.eqb_neq in Hdim. rewrite Hdim. reflexivity. }
  split; [exact Hingest|].
  unfold run, process_document_background, finally, try_except.
  rewrite Hingest. unfold update_document_status, bind, utc_now.
  destruct (error_update_fault env) as [e|].
  - split; [reflexivity|]. intros H. discriminate H.
  - split; [reflexivity|]. intros _. split; reflexivity.
Qed.

(** A model of 256 entries against an index of 384. *)
Lemma first_vector_mismatch_example :
  let message :=
    "Embedding dimensions mismatch. "
    +++ "Got " +++ str_of_nat (length (zeros 256))
    +++ ", expected " +++ str_of_Z (embeddings_dimensions default_settings) +++ ". "
    +++ "Update EMBEDDINGS_DIMENSIONS and recreate the Atlas Vector Search index." in
  let run :=
    process_document_background
      (healthy_env (OK two_pages) (constant_embeddings 256))
      default_settings "d1" "alice" d1_path "a.pdf" uploaded_world in
  ingest (healthy_env (OK two_pages) (constant_embeddings 256))
    default_settings "d1" "alice" d1_path "a.pdf" uploaded_world
  = (Raise (ValueError message), uploaded_world)
  /\ chunks (snd run) = chunks uploaded_world
  /\ (error_update_fault (healthy_env (OK two_pages) (constant_embeddings 256)) = None ->
      fst run = OK tt
      /\ documents (snd run)
         = update_one (doc_matches [("documentId", "d1")])
             (status_update ERROR (clock uploaded_world) (Some 0%Z) (Some message))
             (documents uploaded_world)).
Proof.
  apply (first_vector_mismatch_fails_before_any_write
           (healthy_env (OK two_pages) (constant_embeddings 256))
           default_settings "d1" "alice" d1_path "a.pdf" uploaded_world
           [ {| page_content := "alpha";
                metadata := {| meta_page := 1; meta_source := "a.pdf" |} |};
             {| page_content := "beta";
                metadata := {| meta_page := 2; meta_source := "a.pdf" |} |} ]
           [ {| page_content := "alpha";
                metadata := {| meta_page := 1; meta_source := "a.pdf" |} |};
             {| page_content := "beta";
                metadata := {| meta_page := 2; meta_source := "a.pdf" |} |} ]
           (constant_embeddings 256) (zeros 256) [zeros 256]).
  - reflexivity.
  - discriminate.
  - reflexivity.
  - reflexivity.
  - reflexivity.
  - vm_compute. discriminate.
Defined.

(** The text recorded in that example names both lengths. *)
Lemma first_vector_mismatch_message_256_384 :
  dimension_mismatch_message 256 384
  = "Embedding dimensions mismatch. Got 256, expected 384. Update EMBEDDINGS_DIMENSIONS and recreate the Atlas Vector Search index.".
Proof. reflexivity. Qed.

(** C1: the embedding model answers a call with vectors of one length (a
    sentence-transformers model has one output size), and some vector of
    the reply has a length other than the configured dimensionality. Then
    the [try] body raises the code's dimension error, a ValueError whose
    text gives the length found and the length expected, and raises it with
    the world as it was: nothing was written. The task then leaves the
    chunks untouched and, when the ERROR update goes through, returns with
    that text recorded on the document. *)
Theorem any_vector_mismatch_fails_before_any_write :
  forall env settings document_id session_id file_path original_filename w
         pages split_chunks emb vectors v,
    load_pdf_pages (pypdf_load env file_path) original_filename = OK pages ->
    pages <> [] ->
    split_into_chunks (text_splitter env) pages
      (chunk_size settings) (chunk_overlap settings) = OK split_chunks ->
    get_embeddings env settings = OK emb ->
    embed_documents emb (map page_content split_chunks) = OK vectors ->
    (forall u1 u2, In u1 vectors -> In u2 vectors -> length u1 = length u2) ->
    In v vectors ->
    Z.of_nat (length v) <> embeddings_dimensions settings ->
    let message :=
      "Embedding dimensions mismatch. "
      +++ "Got " +++ str_of_nat (length v)
      +++ ", expected " +++ str_of_Z (embeddings_dimensions settings) +++ ". "
      +++ "Update EMBEDDINGS_DIMENSIONS and recreate the Atlas Vector Search index." in
    let run :=
      process_document_background env settings document_id session_id
        file_path original_filename w in
    ingest env settings document_id session_id file_path original_filename w
    = (Raise (ValueError message), w)
    /\ chunks (snd run) = chunks w
    /\ (error_update_fault env = None ->
        fst run = OK tt
        /\ documents (snd run)
           = update_one (doc_matches [("documentId", document_id)])
               (status_update ERROR (clock w) (Some 0%Z) (Some message))
               (documents w)).
Proof.
  intros env settings document_id session_id file_path original_filename w
         pages split_chunks emb vectors v Hload Hpages Hsplit Hemb Hvec Hsame
         Hin Hdim message run.
  destruct vectors as [|v0 rest]; [destruct Hin|].
  assert (Hlen : length v = length v0).
  { apply Hsame; [exact Hin | left; reflexivity]. }
  subst message run. rewrite Hlen in *.
  exact (first_vector_mismatch_fails_before_any_write env settings document_id
           session_id file_path original_filename w pages split_chunks emb v0 rest
           Hload Hpages Hsplit Hemb Hvec Hdim).
Qed.

(** The theorem applies: a model of 256 entries against an index of 384,
    read at the second vector of its reply. *)
Lemma any_vector_mismatch_example :
  let message :=
    "Embedding dimensions mismatch. "
    +++ "Got " +++ str_of_nat (length (zeros 256))
    +++ ", expected " +++ str_of_Z (embeddings_dimensions default_settings) +++ ". "
    +++ "Update EMBEDDINGS_DIMENSIONS and recreate the Atlas Vector Search index." in
  let run :=
    process_document_background
      (healthy_env (OK two_pages) (constant_embeddings 256))
      default_settings "d1" "alice" d1_path "a.pdf" uploaded_world in
  ingest (healthy_env (OK two_pages) (constant_embeddings 256))
    default_settings "d1" "alice" d1_path "a.pdf" uploaded_world
  = (Raise (ValueError message), uploaded_world)
  /\ chunks (snd run) = chunks uploaded_world
  /\ (error_update_fault (healthy_env (OK two_pages) (constant_embeddings 256)) = None ->
      fst run = OK tt
      /\ documents (snd run)
         = update_one (doc_matches [("documentId", "d1")])
             (status_update ERROR (clock uploaded_world) (Some 0%Z) (Some message))
             (documents uploaded_world)).
Proof.
  apply (any_vector_mismatch_fails_before_any_write
           (healthy_env (OK two_pages) (constant_embeddings 256))
           default_settings "d1" "alice" d1_path "a.pdf" uploaded_world
           [ {| page_content := "alpha";
                metadata := {| meta_page := 1; meta_source := "a.pdf" |} |};
             {| page_content := "beta";
                metadata := {| meta_page := 2; meta_source := "a.pdf" |} |} ]
           [ {| page_content := "alpha";
                metadata := {| meta_page := 1; meta_source := "a.pdf" |} |};
             {| page_content := "beta";
                metadata := {| meta_page := 2; meta_source := "a.pdf" |} |} ]
           (constant_embeddings 256) [zeros 256; zeros 256] (zeros 256)).
  - reflexivity.
  - discriminate.
  - reflexivity.
  - reflexivity.
  - reflexivity.
  - intros u1 u2 [<-|[<-|[]]] [<-|[<-|[]]]; reflexivity.
  - right; left; reflexivity.
  - vm_compute. discriminate.
Defined.

(** The premise on the reply is needed because the check reads the first
    vector alone: were a model to answer with a first vector of 384 entries
    and a second of 256, the run would raise nothing, store both chunks,
    the second with its 256 entries, and mark the document READY. *)
Lemma later_vector_mismatch_is_stored :
  embeddings_dimensions default_settings = 384%Z
  /\ embed_documents (ragged_embeddings 384 256) ["alpha"; "beta"]
     = OK [zeros 384; zeros 256]
  /\ length (zeros 256) = 256%nat
  /\ fst (process_document_background
            (healthy_env (OK two_pages) (ragged_embeddings 384 256))
            default_settings "d1" "alice" d1_path "a.pdf" uploaded_world)
     = OK tt
  /\ map (fun c => (chunk_text c, length (chunk_embedding c)))
         (chunks (snd (process_document_background
                         (healthy_env (OK two_pages) (ragged_embeddings 384 256))
                         default_settings "d1" "alice" d1_path "a.pdf"
                         uploaded_world)))
     = [("alpha", 384%nat); ("beta", 256%nat)]
  /\ map doc_status
         (documents (snd (process_document_background
                            (healthy_env (OK two_pages) (ragged_embeddings 384 256))
                            default_settings "d1" "alice" d1_path "a.pdf"
                            uploaded_world)))
     = [READY].
Proof. repeat split; vm_compute; reflexivity. Qed.

(** C2, as the code has it: the task has no rollback. When the record of
    the document ends in ERROR, the chunks are as they were before the run
    (so none for a fresh documentId), provided the bulk insert did not
    raise after writing records and the READY update did not raise. *)
Theorem error_leaves_chunks_unless_store_failed_midway :
  forall env settings document_id session_id file_path original_filename w,
    (forall n e, insert_outcome env <> InsertRaises (S n) e) ->
    ready_update_fault env = None ->
    (forall r, In r (documents w) ->
               doc_documentId r = document_id -> doc_status r = PROCESSING) ->
    count_documents (chunk_matches [("documentId", document_id)]) (chunks w) = 0%nat ->
    (exists r,
        In r (documents (snd (process_document_background env settings document_id
                                session_id file_path original_filename w)))
        /\ doc_documentId r = document_id
        /\ doc_status r = ERROR) ->
    chunks (snd (process_document_background env settings document_id
                   session_id file_path original_filename w))
    = chunks w
    /\ count_documents (chunk_matches [("documentId", document_id)])
         (chunks (snd (process_document_background env settings document_id
                         session_id file_path original_filename w)))
       = 0%nat.
Proof.
  intros env settings document_id session_id file_path original_filename w
         Hins Hready Hproc Hnone [r [Hr [Hid Hst]]].
  assert (Hchunks :
    chunks (snd (process_document_background env settings document_id
                   session_id file_path original_filename w)) = chunks w);
    [|split; [exact Hchunks | now rewrite Hchunks]].
  revert Hr. unfold process_document_background, finally, try_except.
  destruct (ingest env settings document_id session_id file_path
              original_filename w) as [res w1] eqn:Hing.
  destruct (ingest_cases _ _ _ _ _ _ _ _ _ Hing)
    as [[-> [now [n Hdocs]]] | [e [-> [Hdocs Hch]]]].
  - cbn [snd unlink set_files documents chunks]. rewrite Hdocs. intros Hr.
    exfalso. apply update_one_In in Hr.
    destruct Hr as [Hr | [r0 [Hr0 [_ ->]]]].
    + rewrite (Hproc r Hr Hid) in Hst. discriminate Hst.
    + simpl in Hst. discriminate Hst.
  - intros _. unfold update_document_status, bind, utc_now.
    assert (Hw1 : chunks w1 = chunks w).
    { destruct Hch as [Hch | [[n [e1 Hbad]] | [e1 Hbad]]]; auto.
      - exfalso. exact (Hins _ _ Hbad).
      - rewrite Hready in Hbad. discriminate Hbad. }
    destruct (error_update_fault env); cbn; exact Hw1.
Qed.

(** The theorem applies: the upload d1 has no page, and ends in ERROR. *)
Lemma error_leaves_chunks_example :
  chunks (snd (process_document_background
                 (healthy_env (OK []) (constant_embeddings 384))
                 default_settings "d1" "alice" d1_path "a.pdf" uploaded_world))
  = chunks uploaded_world
  /\ count_documents (chunk_matches [("documentId", "d1")])
       (chunks (snd (process_document_background
                       (healthy_env (OK []) (constant_embeddings 384))
                       default_settings "d1" "alice" d1_path "a.pdf"
                       uploaded_world)))
     = 0%nat.
Proof.
  apply (error_leaves_chunks_unless_store_failed_midway
           (healthy_env (OK []) (constant_embeddings 384))
           default_settings "d1" "alice" d1_path "a.pdf" uploaded_world).
  - intros n e. discriminate.
  - reflexivity.
  - simpl. intros r [<-|[]] _. reflexivity.
  - reflexivity.
  - exists (status_update ERROR 1 (Some 0%Z)
              (Some "No text could be extracted from this PDF.")
              {| doc_documentId := "d1"; doc_sessionId := "alice";
                 doc_fileName := "a.pdf"; doc_fileSize := None;
                 doc_status := PROCESSING; doc_pages := 0;
                 doc_errorMessage := None; doc_createdAt := 0;
                 doc_updatedAt := 0 |}).
    split; [left; reflexivity | split; reflexivity].
Defined.

(** C2 as stated fails: the bulk insert of two chunks raises after the
    first was written; the document ends in ERROR and that chunk stays. *)
Lemma partial_insert_survives_error :
  count_documents (chunk_matches [("documentId", "d1")]) (chunks uploaded_world)
  = 0%nat
  /\ map doc_status
         (documents (snd (process_document_background
                            (insert_failing_env (OK two_pages) (constant_embeddings 384) 1)
                            default_settings "d1" "alice" d1_path "a.pdf"
                            uploaded_world)))
     = [ERROR]
  /\ map (fun c => (chunk_documentId c, chunk_text c))
         (chunks (snd (process_document_background
                         (insert_failing_env (OK two_pages) (constant_embeddings 384) 1)
                         default_settings "d1" "alice" d1_path "a.pdf"
                         uploaded_world)))
     = [("d1", "alpha")]
  /\ count_documents (chunk_matches [("documentId", "d1")])
       (chunks (snd (process_document_background
                       (insert_failing_env (OK two_pages) (constant_embeddings 384) 1)
                       default_settings "d1" "alice" d1_path "a.pdf"
                       uploaded_world)))
     = 1%nat.
Proof. repeat split; vm_compute; reflexivity. Qed.

(** ** The lifecycle of a document record *)

Lemma status_update_documentId :
  forall st now p m r,
    doc_documentId (status_update st now p m r) = doc_documentId r.
Proof. reflexivity. Qed.

Lemma delete_one_NoDup_map :
  forall (A B : Type) (f : A -> B) (m : A -> bool) (rows : list A),
    NoDup (map f rows) -> NoDup (map f (delete_one m rows)).
Proof.
  induction rows as [|r rest IH]; simpl; intros H; auto.
  inversion H as [|x l Hnotin Hrest]; subst.
  destruct (m r); auto. simpl. constructor; auto.
  intros Hin. apply Hnotin. apply in_map_iff in Hin.
  destruct Hin as [y [Hy Hin]]. apply in_map_iff. exists y. split; auto.
  eapply delete_one_subset. exact Hin.
Qed.

Lemma firstn_skipn_at :
  forall (A : Type) (l1 l2 : list A) (x : A),
    firstn (length l1) (l1 ++ x :: l2) ++ skipn (S (length l1)) (l1 ++ x :: l2)
    = l1 ++ l2.
Proof.
  induction l1 as [|y l1 IH]; intros l2 x; simpl; auto.
  f_equal. apply IH.
Qed.

(** Taking the [n]-th task out of the queue. *)
Lemma queue_without_nth :
  forall (l : list Task) n t,
    nth_error l n = Some t ->
    exists l1 l2,
      l = l1 ++ t :: l2 /\ firstn n l ++ skipn (S n) l = l1 ++ l2.
Proof.
  intros l n t H. apply nth_error_split in H.
  destruct H as [l1 [l2 [-> <-]]]. exists l1, l2. split; auto.
  apply firstn_skipn_at.
Qed.

(** The path of an upload, for storage directories written in several
    ways. *)
Lemma save_upload_paths :
  path_join (storage_dir default_settings) "d1.pdf" = d1_path
  /\ path_join "store/" "d1.pdf" = "store/d1.pdf"
  /\ path_join "" "d1.pdf" = "d1.pdf"
  /\ path_join "/srv//uploads/." "d1.pdf" = "/srv/uploads/d1.pdf".
Proof. repeat split. Qed.

(** A copy that fails leaves the file it had opened, and the upload ends
    with the record in ERROR and no task to remove the file. *)
Lemma failed_copy_leaves_file :
  files (snd (upload_pdf default_settings
                (Some (DuringCopy (OtherException "disk full"))) None
                "d1" "alice" (Some "a.pdf") (world initial)))
  = [d1_path]
  /\ map doc_status
         (documents (snd (upload_pdf default_settings
                            (Some (DuringCopy (OtherException "disk full"))) None
                            "d1" "alice" (Some "a.pdf") (world initial))))
     = [ERROR]
  /\ fst (upload_pdf default_settings
            (Some (DuringCopy (OtherException "disk full"))) None
            "d1" "alice" (Some "a.pdf") (world initial))
     = Raise (OtherException "Failed to store upload.").
Proof. repeat split. Qed.

(** The documents collection after an upload. *)
Lemma upload_pdf_documents :
  forall settings save_fault error_fault id session filename w r w1,
    upload_pdf settings save_fault error_fault id session filename w = (r, w1) ->
    exists new,
      doc_documentId new = id
      /\ doc_status new = PROCESSING
      /\ ((exists t, r = OK t /\ task_document_id t = id
                     /\ documents w1 = documents w ++ [new])
          \/ (exists e, r = Raise e
                /\ (documents w1 = documents w ++ [new]
                    \/ exists now m,
                         documents w1
                         = update_one (doc_matches [("documentId", id)])
                             (status_update ERROR now None m)
                             (documents w ++ [new])))).
Proof.
  intros settings save_fault error_fault id session filename w r w1.
  unfold upload_pdf, bind, create_document_record, utc_now, try_except,
    _save_upload_to_disk, bind.
  cbn [tick documents set_documents].
  destruct save_fault as [[e|e]|].
  - unfold raise, update_document_status, bind, utc_now.
    destruct error_fault as [e1|]; intros [= <- <-]; eexists; (split; [|split]).
    3: { right. eexists. split; [reflexivity|]. left. reflexivity. }
    5: { right. eexists. split; [reflexivity|]. right. eexists. eexists.
         reflexivity. }
    all: reflexivity.
  - unfold raise, update_document_status, bind, utc_now.
    destruct error_fault as [e1|]; intros [= <- <-]; eexists; (split; [|split]).
    3: { right. eexists. split; [reflexivity|]. left. reflexivity. }
    5: { right. eexists. split; [reflexivity|]. right. eexists. eexists.
         reflexivity. }
    all: reflexivity.
  - intros [= <- <-]. eexists. split; [|split].
    3: { left. eexists. split; [reflexivity|]. split; reflexivity. }
    all: reflexivity.
Qed.

(** The documents collection after a run of the task: untouched, or one
    status update of the task's own record. *)
Lemma process_documents :
  forall env settings id session_id file_path original_filename w,
    documents (snd (process_document_background env settings id session_id
                      file_path original_filename w))
    = documents w
    \/ exists st now p m,
         documents (snd (process_document_background env settings id session_id
                           file_path original_filename w))
         = update_one (doc_matches [("documentId", id)])
             (status_update st now p m) (documents w).
Proof.
  intros env settings id session_id file_path original_filename w.
  unfold process_document_background, finally, try_except.
  destruct (ingest env settings id session_id file_path original_filename w)
    as [res w1] eqn:Hing.
  destruct (ingest_cases _ _ _ _ _ _ _ _ _ Hing)
    as [[-> [now [n Hdocs]]] | [e [-> [Hdocs _]]]].
  - right. exists READY, now, (Some n), None. exact Hdocs.
  - unfold update_document_status, bind, utc_now.
    destruct (error_update_fault env) as [e1|].
    + left. exact Hdocs.
    + right. exists ERROR, (clock w1), (Some 0%Z), (Some (str_of_exn e)).
      cbn. now rewrite Hdocs.
Qed.

Lemma not_minted :
  forall id ids, existsb (String.eqb id) ids = false -> ~ In id ids.
Proof.
  intros id ids H Hin.
  assert (Ht : existsb (String.eqb id) ids = true).
  { apply existsb_exists. exists id. split; auto. apply String.eqb_refl. }
  rewrite H in Ht. discriminate Ht.
Qed.

(** After an upload with the fresh id [id]: a record is an old one, or it
    is the record of [id], which is PROCESSING whenever a task was handed
    over; and the ids are the old ones followed by [id]. *)
Lemma upload_pdf_records :
  forall settings save_fault error_fault id session filename w r w1,
    upload_pdf settings save_fault error_fault id session filename w = (r, w1) ->
    (forall x, In x (documents w) -> doc_documentId x <> id) ->
    (forall x, In x (documents w1) ->
       In x (documents w)
       \/ (doc_documentId x = id
           /\ ((exists t, r = OK t) -> doc_status x = PROCESSING)))
    /\ map doc_documentId (documents w1) = map doc_documentId (documents w) ++ [id]
    /\ (forall t, r = OK t -> task_document_id t = id).
Proof.
  intros settings save_fault error_fault id session filename w r w1 Hup Hfresh.
  destruct (upload_pdf_documents _ _ _ _ _ _ _ _ _ Hup)
    as [new [Hid [Hst [[t [-> [Ht Hdocs]]] | [e [-> Hdocs]]]]]].
  - rewrite Hdocs. repeat split.
    + intros x Hx. apply in_app_or in Hx. destruct Hx as [Hx|[<-|[]]]; auto.
    + rewrite map_app. simpl. now rewrite Hid.
    + intros t0 [= <-]. exact Ht.
  - assert (Hids : map doc_documentId (documents w1)
                   = map doc_documentId (documents w) ++ [id]).
    { destruct Hdocs as [-> | [now [m ->]]].
      - rewrite map_app. simpl. now rewrite Hid.
      - rewrite update_one_map by (intros; apply status_update_documentId).
        rewrite map_app. simpl. now rewrite Hid. }
    repeat split; auto.
    + intros x Hx.
      assert (Hx1 : In x (documents w ++ [new])
                    \/ exists x0, In x0 (documents w ++ [new])
                                  /\ doc_documentId x0 = id
                                  /\ doc_documentId x = id).
      { destruct Hdocs as [Hd | [now [m Hd]]]; rewrite Hd in Hx; auto.
        apply update_one_In in Hx. destruct Hx as [Hx | [x0 [Hx0 [Hm ->]]]]; auto.
        right. exists x0. rewrite doc_matches_documentId in Hm.
        apply String.eqb_eq in Hm. auto. }
      destruct Hx1 as [Hx1 | [x0 [_ [_ Hx1]]]].
      * apply in_app_or in Hx1. destruct Hx1 as [Hx1|[<-|[]]]; auto.
      * right. split; auto. intros [t Ht]. discriminate Ht.
    + intros t Ht. discriminate Ht.
Qed.

(** The two collections after the whole call: as they were when the lines
    before the [try] raise, and otherwise as the run from the [try] on
    leaves them. *)
Lemma call_collections :
  forall env settings id session_id file_path original_filename w,
    (documents (snd (process_document_background_call env settings id session_id
                       file_path original_filename w)) = documents w
     /\ chunks (snd (process_document_background_call env settings id session_id
                       file_path original_filename w)) = chunks w)
    \/ (documents (snd (process_document_background_call env settings id session_id
                          file_path original_filename w))
        = documents (snd (process_document_background env settings id session_id
                            file_path original_filename w))
        /\ chunks (snd (process_document_background_call env settings id session_id
                          file_path original_filename w))
           = chunks (snd (process_document_background env settings id session_id
                            file_path original_filename w))).
Proof.
  intros env settings id session_id file_path original_filename w.
  unfold process_document_background_call, process_document_background, finally.
  destruct (setup_fault env) as [e|]; [left; split; reflexivity|].
  right.
  destruct (try_except
              (ingest env settings id session_id file_path original_filename)
              (fun e =>
                 update_document_status (error_update_fault env) id ERROR
                   (Some 0%Z) (Some (str_of_exn e))) w) as [res w1].
  destruct (unlink_fault env); split; reflexivity.
Qed.

Lemma run_task_records :
  forall env settings t w x,
    In x (documents (snd (run_task env settings t w))) ->
    In x (documents w)
    \/ exists x0, In x0 (documents w)
                  /\ doc_documentId x0 = task_document_id t
                  /\ doc_documentId x = task_document_id t.
Proof.
  intros env settings t w x Hx. unfold run_task in Hx.
  destruct (call_collections env settings (task_document_id t) (task_session_id t)
              (task_file_path t) (task_original_filename t) w)
    as [[Hc _] | [Hc _]]; rewrite Hc in Hx; [auto|].
  destruct (process_documents env settings (task_document_id t) (task_session_id t)
              (task_file_path t) (task_original_filename t) w)
    as [Hd | [st [now [p [m Hd]]]]]; rewrite Hd in Hx; auto.
  apply update_one_In in Hx. destruct Hx as [Hx | [x0 [Hx0 [Hm ->]]]]; auto.
  right. exists x0. rewrite doc_matches_documentId in Hm.
  apply String.eqb_eq in Hm. auto.
Qed.

Lemma run_task_ids :
  forall env settings t w,
    map doc_documentId (documents (snd (run_task env settings t w)))
    = map doc_documentId (documents w).
Proof.
  intros env settings t w. unfold run_task.
  destruct (call_collections env settings (task_document_id t) (task_session_id t)
              (task_file_path t) (task_original_filename t) w)
    as [[Hc _] | [Hc _]]; rewrite Hc; [reflexivity|].
  destruct (process_documents env settings (task_document_id t) (task_session_id t)
              (task_file_path t) (task_original_filename t) w)
    as [Hd | [st [now [p [m Hd]]]]]; rewrite Hd; auto.
  apply update_one_map. intros; apply status_update_documentId.
Qed.

Lemma delete_records :
  forall id session w x,
    In x (documents (ui_delete_document id session w)) -> In x (documents w).
Proof.
  intros id session w x. unfold ui_delete_document, delete_document_and_chunks.
  cbn [documents set_chunks set_documents]. apply delete_one_subset.
Qed.

Lemma in_map_documentId :
  forall x rows, In x rows -> In (doc_documentId x) (map doc_documentId rows).
Proof. intros x rows H. now apply in_map. Qed.

Lemma NoDup_snoc :
  forall (A : Type) (l : list A) (x : A),
    NoDup l -> ~ In x l -> NoDup (l ++ [x]).
Proof.
  induction l as [|y l IH]; simpl; intros x Hnd Hx.
  - constructor; auto.
  - inversion Hnd as [|z l0 Hy Hl]; subst. constructor.
    + intros Hin. apply in_app_or in Hin. destruct Hin as [Hin|[<-|[]]]; auto.
    + apply IH; auto.
Qed.

Lemma consistent_initial : consistent initial.
Proof.
  constructor; simpl; try constructor; intros; contradiction.
Qed.

Lemma consistent_step :
  forall settings ev s s1,
    consistent s -> step settings ev s = Some s1 -> consistent s1.
Proof.
  intros settings ev s s1 C H.
  destruct ev as [id session filename sf ef | n env | id session];
    unfold step in H.
  - destruct (existsb (String.eqb id) (minted s)) eqn:Efresh; [discriminate H|].
    apply not_minted in Efresh.
    destruct (upload_pdf settings sf ef id session filename (world s))
      as [r w1] eqn:Hup.
    injection H as <-.
    assert (Hold : forall x, In x (documents (world s)) -> doc_documentId x <> id).
    { intros x Hx Heq. apply Efresh. rewrite <- Heq.
      now apply (documents_minted C). }
    destruct (upload_pdf_records _ _ _ _ _ _ _ _ _ Hup Hold) as [Hrec [Hids Htask]].
    assert (Hpend : forall t,
               In t (match r with OK t0 => pending s ++ [t0] | Raise _ => pending s end) ->
               In t (pending s) \/ (r = OK t /\ task_document_id t = id)).
    { intros t Ht. destruct r as [t0|e]; auto.
      apply in_app_or in Ht. destruct Ht as [Ht|[<-|[]]]; auto. }
    constructor; cbn [world pending minted].
    + intros t Ht. destruct (Hpend t Ht) as [Ht1 | [_ Ht1]].
      * right. now apply (pending_minted C).
      * left. now rewrite Ht1.
    + destruct r as [t0|e]; [|apply (pending_distinct C)].
      rewrite map_app. simpl. rewrite (Htask t0 eq_refl).
      apply NoDup_snoc; [apply (pending_distinct C)|].
      intros Hin. apply in_map_iff in Hin. destruct Hin as [t [Ht Hin]].
      apply Efresh. rewrite <- Ht. now apply (pending_minted C).
    + intros x Hx. destruct (Hrec x Hx) as [Hx1 | [Hx1 _]].
      * right. now apply (documents_minted C).
      * left. now rewrite Hx1.
    + rewrite Hids. apply NoDup_snoc; [apply (documents_distinct C)|].
      intros Hin. apply in_map_iff in Hin. destruct Hin as [x [Hx Hin]].
      exact (Hold x Hin Hx).
    + intros t x Ht Hx Heq.
      destruct (Hpend t Ht) as [Ht1 | [Hr Ht1]];
        destruct (Hrec x Hx) as [Hx1 | [Hx1 Hx2]].
      * now apply (pending_processing C t x).
      * exfalso. apply Efresh. rewrite <- Hx1, Heq. now apply (pending_minted C).
      * exfalso. apply (Hold x Hx1). now rewrite Heq.
      * apply Hx2. eauto.
  - destruct (nth_error (pending s) n) as [t|] eqn:Hn; [|discriminate H].
    destruct (queue_without_nth _ _ _ Hn) as [l1 [l2 [Hl Hrest]]].
    rewrite Hrest in H. clear Hrest. injection H as <-.
    constructor; cbn [world pending minted].
    + intros t0 Ht0. apply (pending_minted C). rewrite Hl.
      apply in_app_or in Ht0. apply in_or_app. simpl. tauto.
    + pose proof (pending_distinct C) as Hnd. rewrite Hl in Hnd.
      rewrite map_app in *. simpl in Hnd. now apply NoDup_remove_1 in Hnd.
    + intros x Hx. apply in_map_documentId in Hx. rewrite run_task_ids in Hx.
      apply in_map_iff in Hx. destruct Hx as [y [<- Hy]].
      now apply (documents_minted C).
    + rewrite run_task_ids. apply (documents_distinct C).
    + intros t0 x Ht0 Hx Heq.
      assert (Ht0' : In t0 (pending s)).
      { rewrite Hl. apply in_app_or in Ht0. apply in_or_app. simpl. tauto. }
      destruct (run_task_records _ _ _ _ _ Hx) as [Hx1 | [x0 [_ [_ Hx1]]]].
      * now apply (pending_processing C t0 x).
      * exfalso. pose proof (pending_distinct C) as Hnd. rewrite Hl in Hnd.
        rewrite map_app in Hnd. simpl in Hnd. apply NoDup_remove_2 in Hnd.
        apply Hnd. rewrite <- map_app. rewrite <- Hx1, Heq. now apply in_map.
  - injection H as <-. constructor; cbn [world pending minted].
    + apply (pending_minted C).
    + apply (pending_distinct C).
    + intros x Hx. apply (documents_minted C). eapply delete_records. exact Hx.
    + unfold ui_delete_document, delete_document_and_chunks.
      cbn [documents set_chunks set_documents].
      apply delete_one_NoDup_map. apply (documents_distinct C).
    + intros t x Ht Hx. apply (pending_processing C t x Ht).
      eapply delete_records. exact Hx.
Qed.

Lemma consistent_run :
  forall settings evs s s1,
    consistent s -> run settings evs s = Some s1 -> consistent s1.
Proof.
  induction evs as [|ev rest IH]; simpl; intros s s1 C H.
  - now injection H as <-.
  - destruct (step settings ev s) as [s2|] eqn:Hstep; [|discriminate H].
    eapply IH; [|exact H]. eapply consistent_step; eauto.
Qed.

Lemma reachable_consistent :
  forall settings s, reachable settings s -> consistent s.
Proof.
  intros settings s [evs H]. eapply consistent_run; [|exact H].
  apply consistent_initial.
Qed.

(** Once a document has settled on a terminal status, no event unsettles
    it: an upload concerns another id, a run concerns a document that is
    still PROCESSING, a delete removes records. *)
Lemma settled_step :
  forall settings ev s s1 id st,
    consistent s -> terminal st = true -> settled id st s ->
    step settings ev s = Some s1 -> settled id st s1.
Proof.
  intros settings ev s s1 id0 st C Hterm [Hmint Hst] H.
  destruct ev as [id session filename sf ef | n env | id session];
    unfold step in H.
  - destruct (existsb (String.eqb id) (minted s)) eqn:Efresh; [discriminate H|].
    apply not_minted in Efresh.
    destruct (upload_pdf settings sf ef id session filename (world s))
      as [r w1] eqn:Hup.
    injection H as <-.
    assert (Hold : forall x, In x (documents (world s)) -> doc_documentId x <> id).
    { intros x Hx Heq. apply Efresh. rewrite <- Heq.
      now apply (documents_minted C). }
    destruct (upload_pdf_records _ _ _ _ _ _ _ _ _ Hup Hold) as [Hrec _].
    split; cbn [world minted]; [now right|].
    intros x Hx Hid. destruct (Hrec x Hx) as [Hx1 | [Hx1 _]]; [now apply Hst|].
    exfalso. apply Efresh. now rewrite <- Hx1, Hid.
  - destruct (nth_error (pending s) n) as [t|] eqn:Hn; [|discriminate H].
    injection H as <-. split; cbn [world minted]; [exact Hmint|].
    intros x Hx Hid.
    destruct (run_task_records _ _ _ _ _ Hx) as [Hx1 | [x0 [Hx0 [Hid0 Hidx]]]];
      [now apply Hst|].
    exfalso.
    assert (Hproc : doc_status x0 = PROCESSING).
    { apply (pending_processing C t x0); auto. eapply nth_error_In. exact Hn. }
    assert (Hset : doc_status x0 = st).
    { apply Hst; auto. now rewrite Hid0, <- Hidx. }
    rewrite Hproc in Hset. subst st. discriminate Hterm.
  - injection H as <-. split; cbn [world minted]; [exact Hmint|].
    intros x Hx. apply Hst. eapply delete_records. exact Hx.
Qed.

Lemma settled_run :
  forall settings evs s s1 id st,
    consistent s -> terminal st = true -> settled id st s ->
    run settings evs s = Some s1 -> settled id st s1.
Proof.
  induction evs as [|ev rest IH]; simpl; intros s s1 id st C Hterm Hset H.
  - now injection H as <-.
  - destruct (step settings ev s) as [s2|] eqn:Hstep; [|discriminate H].
    eapply IH; [| exact Hterm | | exact H].
    + eapply consistent_step; eauto.
    + eapply settled_step; eauto.
Qed.

Lemma same_id_same_record :
  forall (rows : list DocumentRecord) x y,
    NoDup (map doc_documentId rows) ->
    In x rows -> In y rows -> doc_documentId x = doc_documentId y -> x = y.
Proof.
  induction rows as [|r rest IH]; simpl; intros x y Hnd Hx Hy Heq; [contradiction|].
  inversion Hnd as [|z l Hnotin Hrest]; subst.
  destruct Hx as [<-|Hx]; destruct Hy as [<-|Hy]; auto.
  - exfalso. apply Hnotin. rewrite Heq. now apply in_map.
  - exfalso. apply Hnotin. rewrite <- Heq. now apply in_map.
Qed.

(** C6: in a reachable state take a record whose status is READY or
    ERROR. Whatever events follow (uploads, runs of waiting tasks under any
    behaviour of the collaborators, deletes), a record with that documentId
    in the resulting state has the same status. *)
Theorem terminal_status_is_final :
  forall settings evs s s1 r r1,
    reachable settings s ->
    run settings evs s = Some s1 ->
    In r (documents (world s)) ->
    terminal (doc_status r) = true ->
    In r1 (documents (world s1)) ->
    doc_documentId r1 = doc_documentId r ->
    doc_status r1 = doc_status r.
Proof.
  intros settings evs s s1 r r1 Hreach Hrun Hr Hterm Hr1 Hid.
  pose proof (reachable_consistent _ _ Hreach) as C.
  assert (Hset : settled (doc_documentId r) (doc_status r) s).
  { split; [now apply (documents_minted C)|].
    intros x Hx Hidx.
    now rewrite (same_id_same_record _ x r (documents_distinct C) Hx Hr Hidx). }
  destruct (settled_run _ _ _ _ _ _ C Hterm Hset Hrun) as [_ Hfinal].
  now apply Hfinal.
Qed.

(** The theorem applies: d1 is READY after its ingestion, and stays READY
    through a second upload that fails, two deletes and a third upload. *)
Lemma terminal_status_example :
  doc_status
    {| doc_documentId := "d1"; doc_sessionId := "alice";
       doc_fileName := "a.pdf"; doc_fileSize := None;
       doc_status := READY; doc_pages := 2;
       doc_errorMessage := None; doc_createdAt := 0; doc_updatedAt := 2 |}
  = doc_status
      {| doc_documentId := "d1"; doc_sessionId := "alice";
         doc_fileName := "a.pdf"; doc_fileSize := None;
         doc_status := READY; doc_pages := 2;
         doc_errorMessage := None; doc_createdAt := 0; doc_updatedAt := 2 |}.
Proof.
  apply (@terminal_status_is_final default_settings later_history
           (state_after first_history initial)
           (state_after later_history (state_after first_history initial))).
  - exists first_history. vm_compute. reflexivity.
  - vm_compute. reflexivity.
  - vm_compute. left. reflexivity.
  - reflexivity.
  - vm_compute. left. reflexivity.
  - reflexivity.
Defined.

(** * Further properties of the code *)

(** ** backend/vector_store.py *)

Lemma find_app_none :
  forall (A : Type) (m : A -> bool) (l1 l2 : list A),
    find m l1 = None -> find m (l1 ++ l2) = find m l2.
Proof.
  induction l1 as [|x l1 IH]; simpl; intros l2 H; auto.
  destruct (m x); [discriminate H | now apply IH].
Qed.

Lemma find_app_some :
  forall (A : Type) (m : A -> bool) (l1 l2 : list A) (x : A),
    find m l1 = Some x -> find m (l1 ++ l2) = Some x.
Proof.
  induction l1 as [|y l1 IH]; simpl; intros l2 x H; [discriminate H|].
  destruct (m y); [exact H | now apply IH].
Qed.

(** X1: a record created under an id that no stored record has is what
    [get_document] then returns for that id: PROCESSING, no page, no error
    message, created and updated at the instant of the call, in the given
    session. The lookup of every other id answers as before. *)
Theorem created_record_is_found :
  forall document_id session_id file_name file_size w,
    get_document document_id w = None ->
    exists doc,
      fst (create_document_record document_id session_id file_name file_size w)
      = OK doc
      /\ get_document document_id
           (snd (create_document_record document_id session_id file_name
                   file_size w))
         = Some doc
      /\ doc = {| doc_documentId := document_id;
                  doc_sessionId := session_id;
                  doc_fileName := file_name;
                  doc_fileSize := file_size;
                  doc_status := PROCESSING;
                  doc_pages := 0;
                  doc_errorMessage := None;
                  doc_createdAt := clock w;
                  doc_updatedAt := clock w |}
      /\ forall other,
           other <> document_id ->
           get_document other
             (snd (create_document_record document_id session_id file_name
                     file_size w))
           = get_document other w.
Proof.
  intros document_id session_id file_name file_size w Hfresh.
  eexists. unfold create_document_record, bind, utc_now. cbn [fst snd].
  split; [reflexivity|]. unfold get_document, find_one in *.
  cbn [documents set_documents tick]. split; [|split; [reflexivity|]].
  - rewrite find_app_none by exact Hfresh. cbn [find].
    rewrite doc_matches_documentId. cbn [doc_documentId].
    now rewrite String.eqb_refl.
  - intros other Hother.
    destruct (find (doc_matches [("documentId", other)]) (documents w))
      as [x|] eqn:Hfind.
    + now apply find_app_some.
    + rewrite find_app_none by exact Hfind. cbn [find].
      rewrite doc_matches_documentId. cbn [doc_documentId].
      apply String.eqb_neq in Hother. rewrite String.eqb_sym in Hother.
      now rewrite Hother.
Qed.

(** The theorem applies: the first upload into the empty store. *)
Lemma created_record_example :
  exists doc,
    fst (create_document_record "d1" "alice" "a.pdf" None (world initial)) = OK doc
    /\ get_document "d1"
         (snd (create_document_record "d1" "alice" "a.pdf" None (world initial)))
       = Some doc
    /\ doc = {| doc_documentId := "d1";
                doc_sessionId := "alice";
                doc_fileName := "a.pdf";
                doc_fileSize := None;
                doc_status := PROCESSING;
                doc_pages := 0;
                doc_errorMessage := None;
                doc_createdAt := clock (world initial);
                doc_updatedAt := clock (world initial) |}
    /\ forall other,
         other <> "d1" ->
         get_document other
           (snd (create_document_record "d1" "alice" "a.pdf" None (world initial)))
         = get_document other (world initial).
Proof.
  apply (created_record_is_found "d1" "alice" "a.pdf" None (world initial)).
  reflexivity.
Defined.

Lemma find_update_one_other :
  forall id other f (rows : list DocumentRecord),
    other <> id ->
    (forall r, doc_documentId (f r) = doc_documentId r) ->
    find (doc_matches [("documentId", other)])
         (update_one (doc_matches [("documentId", id)]) f rows)
    = find (doc_matches [("documentId", other)]) rows.
Proof.
  intros id other f rows Hother Hid.
  induction rows as [|r rest IH]; cbn [update_one find]; auto.
  destruct (doc_matches [("documentId", id)] r) eqn:E; cbn [find].
  - rewrite !doc_matches_documentId in *. rewrite Hid.
    apply String.eqb_eq in E.
    assert (Hne : String.eqb (doc_documentId r) other = false).
    { apply String.eqb_neq. rewrite E. auto. }
    now rewrite Hne.
  - now rewrite IH.
Qed.

Lemma find_none_no_match :
  forall (A : Type) (m : A -> bool) (rows : list A),
    find m rows = None -> forall r, In r rows -> m r = false.
Proof.
  intros A m rows H r Hr. exact (find_none m rows H r Hr).
Qed.

(** X2: a status update that goes through rewrites the record of its
    documentId and nothing else: no record is added or removed, the ids
    keep their order, every other id is looked up as before, the chunks
    are untouched, and for an id that no record has the documents
    collection is unchanged. *)
Theorem status_update_touches_one_record :
  forall document_id status pages error_message w,
    map doc_documentId
        (documents (snd (update_document_status None document_id status pages
                           error_message w)))
    = map doc_documentId (documents w)
    /\ (forall other,
          other <> document_id ->
          get_document other
            (snd (update_document_status None document_id status pages
                    error_message w))
          = get_document other w)
    /\ chunks (snd (update_document_status None document_id status pages
                      error_message w))
       = chunks w
    /\ (get_document document_id w = None ->
        documents (snd (update_document_status None document_id status pages
                          error_message w))
        = documents w).
Proof.
  intros document_id status pages error_message w.
  unfold update_document_status, bind, utc_now, get_document, find_one.
  cbn [snd documents chunks tick set_documents].
  split; [|split; [|split]].
  - apply update_one_map. intros r. apply status_update_documentId.
  - intros other Hother. apply find_update_one_other; auto.
  - reflexivity.
  - intros Hnone. apply update_one_no_match.
    apply find_none_no_match. exact Hnone.
Qed.

Lemma doc_matches_sessionId :
  forall s r,
    doc_matches [("sessionId", s)] r = String.eqb (doc_sessionId r) s.
Proof. intros s r. unfold doc_matches. simpl. apply andb_true_r. Qed.

Lemma insert_newest_first_perm :
  forall r rows, Permutation (insert_newest_first r rows) (r :: rows).
Proof.
  induction rows as [|x rest IH]; simpl; auto.
  destruct (doc_createdAt x <=? doc_createdAt r)%nat; auto.
  eapply perm_trans; [apply perm_skip; exact IH | apply perm_swap].
Qed.

Lemma sort_newest_first_perm :
  forall rows, Permutation (sort_newest_first rows) rows.
Proof.
  induction rows as [|r rest IH]; simpl; auto.
  eapply perm_trans; [apply insert_newest_first_perm | now apply perm_skip].
Qed.

Lemma insert_newest_first_sorted :
  forall r rows,
    StronglySorted (fun a b => (doc_createdAt b <= doc_createdAt a)%nat) rows ->
    StronglySorted (fun a b => (doc_createdAt b <= doc_createdAt a)%nat)
                   (insert_newest_first r rows).
Proof.
  induction rows as [|x rest IH]; simpl; intros Hs.
  - constructor; constructor.
  - inversion Hs as [|y l Hrest Hall]; subst.
    destruct (doc_createdAt x <=? doc_createdAt r)%nat eqn:E.
    + apply Nat.leb_le in E. constructor; [exact Hs|].
      constructor; [exact E|].
      eapply Forall_impl; [|exact Hall]. intros a Ha. simpl in Ha. lia.
    + apply Nat.leb_gt in E. constructor; [now apply IH|].
      apply Forall_forall. intros a Ha.
      apply (Permutation_in _ (insert_newest_first_perm r rest)) in Ha.
      destruct Ha as [<-|Ha]; [lia|].
      rewrite Forall_forall in Hall. now apply Hall.
Qed.

Lemma sort_newest_first_sorted :
  forall rows,
    StronglySorted (fun a b => (doc_createdAt b <= doc_createdAt a)%nat)
                   (sort_newest_first rows).
Proof.
  induction rows as [|r rest IH]; simpl; [constructor|].
  now apply insert_newest_first_sorted.
Qed.

(** X3: the listing of a session holds exactly the stored records of that
    session, each as often as it is stored, and no record of another
    session; it is ordered by creation, newest first. *)
Theorem list_documents_session_newest_first :
  forall session w,
    Permutation (list_documents session w)
                (filter (fun r => String.eqb (doc_sessionId r) session) (documents w))
    /\ (forall r,
          In r (list_documents session w)
          <-> In r (documents w) /\ doc_sessionId r = session)
    /\ StronglySorted (fun a b => (doc_createdAt b <= doc_createdAt a)%nat)
                      (list_documents session w).
Proof.
  intros session w. unfold list_documents.
  assert (Hfilter :
    filter (doc_matches [("sessionId", session)]) (documents w)
    = filter (fun r => String.eqb (doc_sessionId r) session) (documents w)).
  { apply filter_ext. intros r. apply doc_matches_sessionId. }
  rewrite Hfilter. split; [apply sort_newest_first_perm|]. split.
  - intros r. split.
    + intros Hr. apply (Permutation_in _ (sort_newest_first_perm _)) in Hr.
      apply filter_In in Hr. destruct Hr as [Hr Hs]. split; auto.
      now apply String.eqb_eq.
    + intros [Hr Hs].
      apply (Permutation_in _ (Permutation_sym (sort_newest_first_perm _))).
      apply filter_In. split; auto. now apply String.eqb_eq.
  - apply sort_newest_first_sorted.
Qed.

(** X4: what [insert_chunks] returns is the growth of the collection. When
    the bulk insert goes through, the count of any query grows by the
    number of given chunks that match it, the returned number is the number
    of given chunks, and the rows already stored stay in place; for no
    chunks nothing is sent, the result is 0 whatever the driver would do. *)
Theorem insert_chunks_count :
  forall (q : query_doc) (docs : list ChunkDoc) (o : InsertOutcome) (w : World),
    fst (insert_chunks InsertAll docs w) = OK (length docs)
    /\ count_documents (chunk_matches q) (chunks (snd (insert_chunks InsertAll docs w)))
       = (count_documents (chunk_matches q) (chunks w)
          + count_documents (chunk_matches q) docs)%nat
    /\ firstn (length (chunks w)) (chunks (snd (insert_chunks InsertAll docs w)))
       = chunks w
    /\ insert_chunks o [] w = (OK 0%nat, w).
Proof.
  intros q docs o w. destruct docs as [|c cs].
  - cbn. rewrite firstn_all. repeat split; auto.
  - unfold insert_chunks, insert_many, count_documents.
    cbn [fst snd chunks set_chunks].
    split; [reflexivity|]. split; [|split; [|reflexivity]].
    + rewrite filter_app, length_app. reflexivity.
    + rewrite firstn_app, Nat.sub_diag, firstn_all. cbn [firstn].
      apply app_nil_r.
Qed.

Lemma delete_one_ext :
  forall (A : Type) (m1 m2 : A -> bool) (rows : list A),
    (forall r, In r rows -> m1 r = m2 r) ->
    delete_one m1 rows = delete_one m2 rows.
Proof.
  induction rows as [|r rest IH]; simpl; intros H; auto.
  rewrite (H r (or_introl eq_refl)).
  destruct (m2 r); auto. f_equal. apply IH. auto.
Qed.

Lemma find_delete_one_same :
  forall id (rows : list DocumentRecord),
    NoDup (map doc_documentId rows) ->
    find (doc_matches [("documentId", id)])
         (delete_one (doc_matches [("documentId", id)]) rows)
    = None.
Proof.
  intros id. induction rows as [|r rest IH]; cbn [delete_one find map]; intros Hnd; auto.
  inversion Hnd as [|x l Hnotin Hrest]; subst.
  destruct (doc_matches [("documentId", id)] r) eqn:E.
  - rewrite doc_matches_documentId in E. apply String.eqb_eq in E.
    destruct (find (doc_matches [("documentId", id)]) rest) as [y|] eqn:Hf; auto.
    apply find_some in Hf. destruct Hf as [Hy Hm].
    rewrite doc_matches_documentId in Hm. apply String.eqb_eq in Hm.
    exfalso. apply Hnotin. rewrite E, <- Hm. now apply in_map.
  - cbn [find]. rewrite E. now apply IH.
Qed.

Lemma find_delete_one_other :
  forall id other (rows : list DocumentRecord),
    other <> id ->
    find (doc_matches [("documentId", other)])
         (delete_one (doc_matches [("documentId", id)]) rows)
    = find (doc_matches [("documentId", other)]) rows.
Proof.
  intros id other rows Hother.
  induction rows as [|r rest IH]; cbn [delete_one find]; auto.
  destruct (doc_matches [("documentId", id)] r) eqn:E; cbn [find].
  - rewrite !doc_matches_documentId in *. apply String.eqb_eq in E.
    assert (Hne : String.eqb (doc_documentId r) other = false).
    { apply String.eqb_neq. rewrite E. auto. }
    now rewrite Hne.
  - now rewrite IH.
Qed.

(** X5: deleting a document whose session is the one given, or with no
    session given, leaves no trace of it, provided no two records share a
    documentId: the id is no longer found, no chunk of that documentId is
    left, every other document is found as before and every chunk of
    another document stays. *)
Theorem delete_removes_record_and_chunks :
  forall document_id session_id w,
    NoDup (map doc_documentId (documents w)) ->
    (forall s r,
        session_id = Some s -> truthy s = true ->
        In r (documents w) -> doc_documentId r = document_id ->
        doc_sessionId r = s) ->
    get_document document_id (delete_document_and_chunks document_id session_id w)
    = None
    /\ count_documents (chunk_matches [("documentId", document_id)])
         (chunks (delete_document_and_chunks document_id session_id w))
       = 0%nat
    /\ (forall other,
          other <> document_id ->
          get_document other (delete_document_and_chunks document_id session_id w)
          = get_document other w)
    /\ (forall c,
          In c (chunks w) -> chunk_documentId c <> document_id ->
          In c (chunks (delete_document_and_chunks document_id session_id w))).
Proof.
  intros document_id session_id w Hnd Hsession.
  assert (Hdocs :
    documents (delete_document_and_chunks document_id session_id w)
    = delete_one (doc_matches [("documentId", document_id)]) (documents w)).
  { unfold delete_document_and_chunks. cbn [documents set_chunks set_documents].
    destruct session_id as [s|]; [|reflexivity].
    destruct (truthy s) eqn:Hs; [|reflexivity].
    apply delete_one_ext. intros r Hr.
    cbn [app]. rewrite doc_matches_documentId_sessionId, doc_matches_documentId.
    destruct (String.eqb (doc_documentId r) document_id) eqn:E; auto.
    apply String.eqb_eq in E. cbn [andb].
    apply String.eqb_eq. now apply (Hsession s r). }
  assert (Hchunks :
    chunks (delete_document_and_chunks document_id session_id w)
    = delete_many (chunk_matches [("documentId", document_id)]) (chunks w)).
  { unfold delete_document_and_chunks. reflexivity. }
  unfold get_document, find_one. rewrite Hdocs, Hchunks.
  split; [now apply find_delete_one_same|]. split; [|split].
  - unfold count_documents, delete_many.
    assert (Hnil : forall l : list ChunkDoc,
               filter (chunk_matches [("documentId", document_id)])
                 (filter (fun r => negb (chunk_matches [("documentId", document_id)] r)) l)
               = []).
    { induction l as [|c l IH]; cbn [filter]; auto.
      destruct (chunk_matches [("documentId", document_id)] c) eqn:E;
        cbn [negb filter]; auto.
      now rewrite E. }
    now rewrite Hnil.
  - intros other Hother. now apply find_delete_one_other.
  - intros c Hc Hid. unfold delete_many. apply filter_In. split; auto.
    rewrite chunk_matches_documentId. apply negb_true_iff.
    now apply String.eqb_neq.
Qed.

(** The theorem applies: alice deletes her document d1. *)
Lemma delete_removes_example :
  get_document "d1" (delete_document_and_chunks "d1" (Some "alice") shared_text_world)
  = None
  /\ count_documents (chunk_matches [("documentId", "d1")])
       (chunks (delete_document_and_chunks "d1" (Some "alice") shared_text_world))
     = 0%nat
  /\ (forall other,
        other <> "d1" ->
        get_document other
          (delete_document_and_chunks "d1" (Some "alice") shared_text_world)
        = get_document other shared_text_world)
  /\ (forall c,
        In c (chunks shared_text_world) -> chunk_documentId c <> "d1" ->
        In c (chunks (delete_document_and_chunks "d1" (Some "alice")
                        shared_text_world))).
Proof.
  apply (delete_removes_record_and_chunks "d1" (Some "alice") shared_text_world).
  - simpl. repeat constructor; simpl; intuition discriminate.
  - intros s r [= <-] _. simpl.
    intros [<-|[<-|[]]]; simpl; intros H; [reflexivity | discriminate H].
Defined.

(** ** backend/api.py : sessions on the routes *)

Lemma truthy_nonempty : forall s, truthy s = true <-> s <> "".
Proof.
  intros s. unfold truthy. rewrite negb_true_iff. apply String.eqb_neq.
Qed.

Lemma safe_session_id_nonempty :
  forall (P : PyStr) settings provided,
    default_session_id settings <> "" -> _safe_session_id settings provided <> "".
Proof.
  intros P settings provided Hdefault. unfold _safe_session_id.
  destruct (truthy (strip match provided with Some p => p | None => "" end)) eqn:E.
  - now apply truthy_nonempty.
  - exact Hdefault.
Qed.

(** X6: with a non-empty default session, the session a request resolves
    to is never the empty string: a header that is missing or stripped to
    nothing resolves to the default, any other header to its stripped
    text. *)
Theorem safe_session_id_never_empty :
  forall (P : PyStr) settings provided,
    default_session_id settings <> "" ->
    _safe_session_id settings provided <> ""
    /\ (strip (match provided with Some p => p | None => "" end) = "" ->
        _safe_session_id settings provided = default_session_id settings)
    /\ (strip (match provided with Some p => p | None => "" end) <> "" ->
        _safe_session_id settings provided
        = strip (match provided with Some p => p | None => "" end)).
Proof.
  intros P settings provided Hdefault. unfold _safe_session_id.
  destruct (truthy (strip match provided with Some p => p | None => "" end)) eqn:E.
  - apply truthy_nonempty in E. split; [exact E|]. split; [|reflexivity].
    intros H. contradiction.
  - split; [exact Hdefault|]. split; [reflexivity|].
    intros H. apply truthy_nonempty in H. rewrite H in E. discriminate E.
Qed.

(** The theorem applies: the default settings and a blank header. *)
Lemma safe_session_id_example :
  @_safe_session_id ascii_str default_settings (Some "   ") <> ""
  /\ (@strip ascii_str "   " = "" ->
      @_safe_session_id ascii_str default_settings (Some "   ")
      = default_session_id default_settings)
  /\ (@strip ascii_str "   " <> "" ->
      @_safe_session_id ascii_str default_settings (Some "   ")
      = @strip ascii_str "   ").
Proof.
  apply (@safe_session_id_never_empty ascii_str default_settings (Some "   ")).
  discriminate.
Defined.

Lemma delete_one_keeps :
  forall (A : Type) (m : A -> bool) (rows : list A) (r : A),
    In r rows -> m r = false -> In r (delete_one m rows).
Proof.
  induction rows as [|x rest IH]; simpl; intros r Hr Hm; auto.
  destruct Hr as [<-|Hr].
  - rewrite Hm. now left.
  - destruct (m x); auto. right. now apply IH.
Qed.

Lemma delete_one_length :
  forall (A : Type) (m : A -> bool) (rows : list A),
    (length rows <= S (length (delete_one m rows)))%nat.
Proof.
  induction rows as [|x rest IH]; simpl; auto.
  destruct (m x); simpl; lia.
Qed.

(** X7: with a non-empty default session, a delete request never removes
    the record of a document that belongs to another session than the one
    the request resolves to, and it removes at most one record. *)
Theorem delete_request_spares_foreign_records :
  forall (P : PyStr) settings document_id x_session_id w,
    default_session_id settings <> "" ->
    (forall r,
        In r (documents w) ->
        doc_sessionId r <> _safe_session_id settings x_session_id ->
        In r (documents (ui_delete_document_request settings document_id
                           x_session_id w)))
    /\ (length (documents w)
        <= S (length (documents (ui_delete_document_request settings document_id
                                   x_session_id w))))%nat.
Proof.
  intros P settings document_id x_session_id w Hdefault.
  pose proof (safe_session_id_nonempty P settings x_session_id Hdefault) as Hne.
  apply truthy_nonempty in Hne.
  unfold ui_delete_document_request, ui_delete_document, delete_document_and_chunks.
  rewrite Hne. cbn [documents set_chunks set_documents app]. split.
  - intros r Hr Hs. apply delete_one_keeps; auto.
    rewrite doc_matches_documentId_sessionId.
    apply String.eqb_neq in Hs. rewrite Hs. apply andb_false_r.
  - apply delete_one_length.
Qed.

(** The theorem applies: bob asks to delete alice's document. *)
Lemma delete_request_example :
  (forall r,
      In r (documents shared_text_world) ->
      doc_sessionId r <> @_safe_session_id ascii_str default_settings (Some " bob ") ->
      In r (documents (@ui_delete_document_request ascii_str default_settings "d1"
                         (Some " bob ") shared_text_world)))
  /\ (length (documents shared_text_world)
      <= S (length (documents (@ui_delete_document_request ascii_str default_settings
                                 "d1" (Some " bob ") shared_text_world))))%nat.
Proof.
  apply (@delete_request_spares_foreign_records ascii_str default_settings "d1"
           (Some " bob ") shared_text_world).
  discriminate.
Defined.

(** X8: the document route answers with a record only when the record of
    that documentId belongs to the session of the request, and then with
    that record; for a document of another session it raises the same
    exception as for an id that is not stored. *)
Theorem get_document_route_is_session_scoped :
  forall (P : PyStr) settings document_id x_session_id w,
    (forall doc,
        ui_get_document settings document_id x_session_id w = OK doc
        <-> get_document document_id w = Some doc
            /\ doc_sessionId doc = _safe_session_id settings x_session_id)
    /\ (forall doc,
          ui_get_document settings document_id x_session_id w = OK doc ->
          In doc (documents w) /\ doc_documentId doc = document_id)
    /\ ((forall doc,
           ui_get_document settings document_id x_session_id w <> OK doc) ->
        ui_get_document settings document_id x_session_id w = Raise not_found).
Proof.
  intros P settings document_id x_session_id w. unfold ui_get_document.
  destruct (get_document document_id w) as [d|] eqn:Hget.
  - destruct (String.eqb (doc_sessionId d) (_safe_session_id settings x_session_id))
      eqn:E; cbn [negb].
    + apply String.eqb_eq in E. split; [|split].
      * intros doc. split.
        -- intros [= <-]. auto.
        -- intros [[= <-] _]. reflexivity.
      * intros doc [= <-]. unfold get_document, find_one in Hget.
        apply find_some in Hget. destruct Hget as [Hin Hm]. split; auto.
        rewrite doc_matches_documentId in Hm. now apply String.eqb_eq.
      * intros H. exfalso. exact (H d eq_refl).
    + apply String.eqb_neq in E. split; [|split].
      * intros doc. split; [intros H; discriminate H|].
        intros [[= <-] Hs]. contradiction.
      * intros doc H. discriminate H.
      * reflexivity.
  - split; [|split].
    + intros doc. split; [intros H; discriminate H | intros [H _]; discriminate H].
    + intros doc H. discriminate H.
    + reflexivity.
Qed.

(** ** backend/api.py : the chat history *)

Definition turn_kind `{PyStr} (t : ChatTurn) : option string :=
  let r := lower (role t) in
  if role_in r ["user"; "human"] then Some "human"
  else if role_in r ["assistant"; "ai"] then Some "ai"
  else None.

Lemma history_loop_from :
  forall (P : PyStr) turns acc,
    fold_left
      (fun out t =>
         let r := lower (role t) in
         if role_in r ["user"; "human"] then out ++ [("human", content t)]
         else if role_in r ["assistant"; "ai"] then out ++ [("ai", content t)]
         else out)
      turns acc
    = acc ++ flat_map (fun t => match turn_kind t with
                                | Some k => [(k, content t)]
                                | None => []
                                end) turns.
Proof.
  intros P. induction turns as [|t rest IH]; intros acc; cbn [fold_left flat_map].
  - now rewrite app_nil_r.
  - rewrite IH. unfold turn_kind. cbn zeta.
    destruct (role_in (lower (role t)) ["user"; "human"]).
    + now rewrite <- app_assoc.
    + destruct (role_in (lower (role t)) ["assistant"; "ai"]).
      * now rewrite <- app_assoc.
      * reflexivity.
Qed.

(** X10: the history handed to the chain holds, in the order of the
    request, one pair for each turn whose lower-cased role is user, human,
    assistant or ai, with the turn's content; its first components are only
    ever "human" and "ai"; turns of any other role are dropped, and no
    history gives the empty list. *)
Theorem history_to_tuples_roles :
  forall (P : PyStr) (history : option (list ChatTurn)),
    Forall (fun p => fst p = "human" \/ fst p = "ai") (_history_to_tuples history)
    /\ map snd (_history_to_tuples history)
       = map content
           (filter (fun t => match turn_kind t with Some _ => true | None => false end)
                   (match history with Some turns => turns | None => [] end))
    /\ (length (_history_to_tuples history)
        <= length (match history with Some turns => turns | None => [] end))%nat
    /\ _history_to_tuples None = [].
Proof.
  intros P history. destruct history as [turns|]; cbn [_history_to_tuples].
  2: { repeat split; auto. }
  rewrite history_loop_from. cbn [app].
  split; [|split; [|split; [|reflexivity]]].
  - induction turns as [|t rest IH]; cbn [flat_map]; [constructor|].
    apply Forall_app. split; auto.
    unfold turn_kind. cbn zeta.
    destruct (role_in (lower (role t)) ["user"; "human"]);
      [repeat constructor; now left|].
    destruct (role_in (lower (role t)) ["assistant"; "ai"]);
      [repeat constructor; now right | constructor].
  - induction turns as [|t rest IH]; cbn [flat_map filter map]; auto.
    rewrite map_app, IH. destruct (turn_kind t); reflexivity.
  - induction turns as [|t rest IH]; cbn [flat_map length]; auto.
    rewrite length_app. destruct (turn_kind t); cbn [length]; lia.
Qed.

(** ** backend/api.py : the sources of an answer *)















(** On text outside ASCII the cut falls after 240 characters: the snippet
    of 300 two-byte letters has 243 characters, held in 483 bytes. *)
Lemma snippet_counts_characters :
  str_len (sd_page_content accented_chunk) = 300%nat
  /\ str_len (@snippet_of ascii_str accented_chunk) = 243%nat
  /\ String.length (@snippet_of ascii_str accented_chunk) = 483%nat.
Proof. repeat split; vm_compute; reflexivity. Qed.

(** ** backend/loaders.py and backend/chunking.py *)

Definition raw_page_number (r : RawPage) : Z :=
  match raw_page r with
  | Some p => p
  | None => 0%Z
  end.

Lemma StronglySorted_le_app :
  forall l1 l2 : list Z,
    StronglySorted Z.le l1 -> StronglySorted Z.le l2 ->
    (forall a b, In a l1 -> In b l2 -> (a <= b)%Z) ->
    StronglySorted Z.le (l1 ++ l2).
Proof.
  induction l1 as [|x l1 IH]; simpl; intros l2 H1 H2 H; auto.
  inversion H1 as [|y l Hs Hall]; subst. constructor.
  - apply IH; auto.
  - apply Forall_app. split; auto.
    apply Forall_forall. intros b Hb. apply H; auto.
Qed.

Lemma StronglySorted_le_constant :
  forall (k : Z) (l : list Z), (forall a, In a l -> a = k) -> StronglySorted Z.le l.
Proof.
  induction l as [|x l IH]; intros H; constructor.
  - apply IH. intros a Ha. apply H. now right.
  - apply Forall_forall. intros a Ha.
    rewrite (H x (or_introl eq_refl)), (H a (or_intror Ha)). lia.
Qed.

Lemma split_documents_In :
  forall ts size overlap docs c,
    In c (split_documents ts size overlap docs) <->
    exists d, In d docs
              /\ metadata c = metadata d
              /\ In (page_content c) (split_text ts size overlap (page_content d)).
Proof.
  intros ts size overlap docs c. unfold split_documents. rewrite in_flat_map.
  split.
  - intros [d [Hd Hc]]. exists d. split; auto.
    apply in_map_iff in Hc. destruct Hc as [t [<- Ht]]. auto.
  - intros [d [Hd [Hm Ht]]]. exists d. split; auto.
    apply in_map_iff. exists (page_content c). split; auto.
    destruct c as [pc m]. cbn in *. now rewrite Hm.
Qed.

Lemma split_documents_pages_sorted :
  forall ts size overlap docs,
    StronglySorted Z.le (map (fun d => meta_page (metadata d)) docs) ->
    StronglySorted Z.le
      (map (fun c => meta_page (metadata c)) (split_documents ts size overlap docs)).
Proof.
  intros ts size overlap. induction docs as [|d rest IH]; intros Hs.
  - constructor.
  - inversion Hs as [|x l Hrest Hall]; subst.
    change (split_documents ts size overlap (d :: rest))
      with (map (fun t => {| page_content := t; metadata := metadata d |})
                (split_text ts size overlap (page_content d))
            ++ split_documents ts size overlap rest).
    rewrite map_app. apply StronglySorted_le_app.
    + apply (StronglySorted_le_constant (meta_page (metadata d))).
      intros a Ha. apply in_map_iff in Ha. destruct Ha as [c [<- Hc]].
      apply in_map_iff in Hc. destruct Hc as [t [<- _]]. reflexivity.
    + now apply IH.
    + intros a b Ha Hb.
      apply in_map_iff in Ha. destruct Ha as [c [<- Hc]].
      apply in_map_iff in Hc. destruct Hc as [t [<- _]]. cbn.
      apply in_map_iff in Hb. destruct Hb as [c2 [<- Hc2]].
      apply split_documents_In in Hc2. destruct Hc2 as [d2 [Hd2 [Hm _]]].
      rewrite Hm. rewrite Forall_forall in Hall. apply Hall.
      apply in_map_iff. exists d2. auto.
Qed.

(** X11: from the pages the PDF loader yields to the chunks handed to the
    embedding model. Every chunk is a piece that the splitter cut from the
    text of one page; it carries the file name as source and that page's
    number plus one (a page without a number counts as page 0, so gets 1);
    no chunk mixes two pages; and when the loader's page numbers do not
    decrease, neither do the chunks' pages. *)
Theorem chunks_carry_page_and_source :
  forall ts raw source_filename size overlap pages split_chunks,
    load_pdf_pages (OK raw) source_filename = OK pages ->
    split_into_chunks ts pages size overlap = OK split_chunks ->
    length pages = length raw
    /\ Forall
         (fun c =>
            meta_source (metadata c) = source_filename
            /\ exists r,
                 In r raw
                 /\ meta_page (metadata c) = (raw_page_number r + 1)%Z
                 /\ In (page_content c)
                       (split_text ts size overlap (raw_content r)))
         split_chunks
    /\ (StronglySorted Z.le (map raw_page_number raw) ->
        StronglySorted Z.le (map (fun c => meta_page (metadata c)) split_chunks)).
Proof.
  intros ts raw source_filename size overlap pages split_chunks Hload Hsplit.
  unfold load_pdf_pages in Hload. injection Hload as <-.
  unfold split_into_chunks in Hsplit.
  destruct (splitter_init ts size overlap); [discriminate Hsplit|].
  injection Hsplit as <-.
  split; [apply length_map|]. split.
  - apply Forall_forall. intros c Hc. apply split_documents_In in Hc.
    destruct Hc as [d [Hd [Hm Ht]]]. apply in_map_iff in Hd.
    destruct Hd as [r [<- Hr]]. rewrite Hm. cbn. split; auto.
    exists r. auto.
  - intros Hs. apply split_documents_pages_sorted. rewrite map_map. cbn.
    assert (Hmap : forall l : list RawPage,
               StronglySorted Z.le (map raw_page_number l) ->
               StronglySorted Z.le
                 (map (fun x => (match raw_page x with Some p => p | None => 0 end + 1)%Z) l)).
    { induction l as [|x l IH]; cbn [map]; intros H; [constructor|].
      inversion H as [|y l0 Hl Hall]; subst. constructor; [now apply IH|].
      rewrite Forall_map in *. eapply Forall_impl; [|exact Hall].
      intros a Ha. unfold raw_page_number in Ha. cbn in Ha. lia. }
    now apply Hmap.
Qed.

(** The theorem applies: the two-page PDF of the examples. *)
Lemma chunks_carry_page_example :
  length [ {| page_content := "alpha";
              metadata := {| meta_page := 1; meta_source := "a.pdf" |} |};
           {| page_content := "beta";
              metadata := {| meta_page := 2; meta_source := "a.pdf" |} |} ]
  = length two_pages
  /\ Forall
       (fun c =>
          meta_source (metadata c) = "a.pdf"
          /\ exists r,
               In r two_pages
               /\ meta_page (metadata c) = (raw_page_number r + 1)%Z
               /\ In (page_content c)
                     (split_text short_page_splitter 1000 150 (raw_content r)))
       [ {| page_content := "alpha";
            metadata := {| meta_page := 1; meta_source := "a.pdf" |} |};
         {| page_content := "beta";
            metadata := {| meta_page := 2; meta_source := "a.pdf" |} |} ]
  /\ (StronglySorted Z.le (map raw_page_number two_pages) ->
      StronglySorted Z.le
        (map (fun c => meta_page (metadata c))
           [ {| page_content := "alpha";
                metadata := {| meta_page := 1; meta_source := "a.pdf" |} |};
             {| page_content := "beta";
                metadata := {| meta_page := 2; meta_source := "a.pdf" |} |} ])).
Proof.
  apply (chunks_carry_page_and_source short_page_splitter two_pages "a.pdf"
           1000 150).
  - reflexivity.
  - reflexivity.
Defined.

(** ** backend/api.py : the records of the chunks *)

Lemma nth_error_enumerate_from :
  forall (A : Type) (l : list A) (start i : nat) (x : A),
    nth_error l i = Some x ->
    nth_error (combine (seq start (length l)) l) i = Some ((start + i)%nat, x).
Proof.
  induction l as [|y l IH]; intros start i x H; destruct i as [|i]; simpl in *;
    try discriminate H.
  - injection H as <-. now rewrite Nat.add_0_r.
  - rewrite (IH (S start) i x H). f_equal. f_equal. lia.
Qed.

Lemma nth_error_combine_both :
  forall (A B : Type) (l1 : list A) (l2 : list B) (i : nat) (a : A) (b : B),
    nth_error l1 i = Some a -> nth_error l2 i = Some b ->
    nth_error (combine l1 l2) i = Some (a, b).
Proof.
  induction l1 as [|x l1 IH]; intros l2 i a b H1 H2; destruct i as [|i];
    destruct l2 as [|y l2]; simpl in *; try discriminate.
  - injection H1 as <-. injection H2 as <-. reflexivity.
  - now apply IH.
Qed.

(** X12: the records built for the store are aligned by position: the
    record at position [i] holds the text, page and source of the [i]-th
    chunk and the [i]-th vector, with chunkIndex [i] counted from 0; every
    record carries the session and the documentId of the task; and there
    are as many records as the shorter of the two lists has entries. *)
Theorem chunk_records_aligned :
  forall session_id document_id now split_chunks vectors,
    (forall i chunk vec,
        nth_error split_chunks i = Some chunk ->
        nth_error vectors i = Some vec ->
        nth_error (build_chunk_docs session_id document_id now split_chunks vectors) i
        = Some {| chunk_sessionId := session_id;
                  chunk_documentId := document_id;
                  chunk_text := page_content chunk;
                  chunk_embedding := vec;
                  chunk_metadata := metadata chunk;
                  chunk_page := meta_page (metadata chunk);
                  chunk_source := meta_source (metadata chunk);
                  chunk_chunkIndex := Z.of_nat i;
                  chunk_createdAt := now |})
    /\ Forall (fun c => chunk_sessionId c = session_id
                        /\ chunk_documentId c = document_id)
              (build_chunk_docs session_id document_id now split_chunks vectors)
    /\ map chunk_chunkIndex
           (build_chunk_docs session_id document_id now split_chunks vectors)
       = map Z.of_nat
             (seq 0 (Nat.min (length split_chunks) (length vectors)))
    /\ length (build_chunk_docs session_id document_id now split_chunks vectors)
       = Nat.min (length split_chunks) (length vectors).
Proof.
  intros session_id document_id now split_chunks vectors.
  split; [|split; [|split]].
  - intros i chunk vec Hc Hv. unfold build_chunk_docs, enumerate.
    pose proof (nth_error_combine_both _ _ _ _ _ _ _ Hc Hv) as Hpair.
    rewrite nth_error_map.
    rewrite (nth_error_enumerate_from _ _ 0 _ _ Hpair). cbn.
    destruct (metadata chunk). reflexivity.
  - unfold build_chunk_docs. apply Forall_forall. intros c Hc.
    apply in_map_iff in Hc. destruct Hc as [x [<- _]]. cbn. auto.
  - unfold build_chunk_docs, enumerate. rewrite map_map. cbn.
    rewrite <- length_combine.
    generalize (combine split_chunks vectors). intros l. generalize 0%nat.
    induction l as [|x l IH]; intros start; cbn; auto. now rewrite IH.
  - apply build_chunk_docs_length.
Qed.

(** ** backend/retriever.py : the document scope *)

Lemma chunk_matches_session_document :
  forall s d c,
    chunk_matches [("sessionId", s); ("documentId", d)] c
    = String.eqb (chunk_sessionId c) s && String.eqb (chunk_documentId c) d.
Proof. intros s d c. unfold chunk_matches. simpl. now rewrite andb_true_r. Qed.

(** X13: a retriever scoped to a document returns only Documents projected
    from chunks of that documentId in the retriever's session, and each
    result names that documentId. *)
Theorem retrieval_stays_within_document :
  forall (S : AtlasSearch) self query w d trace docs,
    document_id self = Some d ->
    d <> "" ->
    _get_relevant_documents self query w = (trace, OK docs) ->
    Forall
      (fun doc =>
         sd_documentId doc = Some d
         /\ exists c score,
              In c (chunks w)
              /\ chunk_documentId c = d
              /\ chunk_sessionId c = session_id self
              /\ doc = to_document
                         (project ["text"; "page"; "source"; "documentId"] true
                                  (c, score)))
      docs.
Proof.
  intros S self query w d trace docs Hd Hne H.
  unfold _get_relevant_documents in H.
  destruct (embed_query (embeddings self) query) as [v|e]; [|discriminate H].
  destruct (negb (Nat.eqb (length v) 384)); [discriminate H|].
  unfold aggregate, _vector_search_pipeline in H. rewrite Hd in H.
  apply truthy_nonempty in Hne. rewrite Hne in H. cbn [app] in H.
  match type of H with
  | context [vector_search ?vs ?coll] =>
      pose proof (vector_search_filtered vs coll) as Hlaw;
      destruct (vector_search vs coll) as [hits|e]
  end.
  - injection H as _ <-. specialize (Hlaw hits eq_refl).
    rewrite collect_documents_eq.
    apply Forall_forall. intros doc Hdoc.
    apply in_map_iff in Hdoc. destruct Hdoc as [r [<- Hr]].
    apply filter_In in Hr. destruct Hr as [Hr _].
    apply in_map_iff in Hr. destruct Hr as [[c score] [<- Hhit]].
    rewrite Forall_forall in Hlaw. destruct (Hlaw _ Hhit) as [Hin Hmatch].
    cbn [fst vs_filter] in Hin, Hmatch.
    rewrite chunk_matches_session_document in Hmatch.
    apply andb_true_iff in Hmatch. destruct Hmatch as [Hs Hid].
    apply String.eqb_eq in Hs. apply String.eqb_eq in Hid.
    split; [cbn; now rewrite Hid|].
    exists c, score. repeat split; auto.
  - injection H as _ <-. constructor.
Qed.

(** The theorem applies: alice asks about her document d1. *)
Lemma retrieval_within_document_example :
  Forall
    (fun doc =>
       sd_documentId doc = Some "d1"
       /\ exists c score,
            In c (chunks shared_text_world)
            /\ chunk_documentId c = "d1"
            /\ chunk_sessionId c = "alice"
            /\ doc = to_document
                       (project ["text"; "page"; "source"; "documentId"] true
                                (c, score)))
    [ {| sd_page_content := "the same words";
         sd_page := Some 1%Z;
         sd_source := Some "a.pdf";
         sd_documentId := Some "d1";
         sd_similarity := Some 0%float |} ].
Proof.
  apply (@retrieval_stays_within_document exact_search
           {| embeddings := constant_embeddings 384;
              index_name := "chunks_vector_index";
              retriever_top_k := 6;
              retriever_num_candidates := 80;
              session_id := "alice";
              document_id := Some "d1" |}
           "the same words" shared_text_world "d1"
           [_vector_search_pipeline
              {| embeddings := constant_embeddings 384;
                 index_name := "chunks_vector_index";
                 retriever_top_k := 6;
                 retriever_num_candidates := 80;
                 session_id := "alice";
                 document_id := Some "d1" |}
              (zeros 384)]).
  - reflexivity.
  - discriminate.
  - vm_compute. reflexivity.
Defined.

Lemma retrieval_empty_without_match :
  forall (S : AtlasSearch) self query w d v,
    document_id self = Some d ->
    d <> "" ->
    embed_query (embeddings self) query = OK v ->
    length v = 384%nat ->
    (forall c, In c (chunks w) ->
               chunk_sessionId c = session_id self -> chunk_documentId c <> d) ->
    _get_relevant_documents self query w
    = ([_vector_search_pipeline self v], OK []).
Proof.
  intros S self query w d v Hd Hne Hv Hlen Hnone.
  unfold _get_relevant_documents. rewrite Hv, Hlen. cbn [Nat.eqb negb].
  destruct (aggregate (_vector_search_pipeline self v) (chunks w))
    as [results|e] eqn:Hagg; [|reflexivity].
  f_equal. f_equal.
  unfold aggregate, _vector_search_pipeline in Hagg. rewrite Hd in Hagg.
  apply truthy_nonempty in Hne. rewrite Hne in Hagg. cbn [app] in Hagg.
  match type of Hagg with
  | context [vector_search ?vs ?coll] =>
      pose proof (vector_search_filtered vs coll) as Hlaw;
      destruct (vector_search vs coll) as [hits|e]
  end; [|discriminate Hagg].
  injection Hagg as <-. specialize (Hlaw hits eq_refl).
  destruct hits as [|[c score] rest]; [reflexivity|]. exfalso.
  inversion Hlaw as [|x l [Hin Hmatch] _]; subst.
  cbn [fst vs_filter] in Hin, Hmatch.
  rewrite chunk_matches_session_document in Hmatch.
  apply andb_true_iff in Hmatch. destruct Hmatch as [Hs Hid].
  apply String.eqb_eq in Hs. apply String.eqb_eq in Hid.
  exact (Hnone c Hin Hs Hid).
Qed.

(** X14: when no chunk of the collection is both in the retriever's
    session and of the documentId it is scoped to, a retrieval whose query
    vector has 384 entries sends its one search and returns the empty
    list, not an error, whether the search answers or raises. *)
Theorem retrieval_without_matching_chunks_is_empty :
  forall (S : AtlasSearch) self query w d v,
    document_id self = Some d ->
    d <> "" ->
    embed_query (embeddings self) query = OK v ->
    length v = 384%nat ->
    (forall c, In c (chunks w) ->
               chunk_sessionId c = session_id self -> chunk_documentId c <> d) ->
    _get_relevant_documents self query w
    = ([_vector_search_pipeline self v], OK []).
Proof.
  intros S self query w d v Hd Hne Hv Hlen Hnone.
  now apply (retrieval_empty_without_match S self query w d v).
Qed.

(** The theorem applies: bob asks about alice's document d1. *)
Lemma retrieval_without_matching_chunks_example :
  @_get_relevant_documents exact_search
    {| embeddings := constant_embeddings 384;
       index_name := "chunks_vector_index";
       retriever_top_k := 6;
       retriever_num_candidates := 80;
       session_id := "bob";
       document_id := Some "d1" |}
    "the same words" shared_text_world
  = ([_vector_search_pipeline
        {| embeddings := constant_embeddings 384;
           index_name := "chunks_vector_index";
           retriever_top_k := 6;
           retriever_num_candidates := 80;
           session_id := "bob";
           document_id := Some "d1" |}
        (zeros 384)],
     OK []).
Proof.
  apply (@retrieval_without_matching_chunks_is_empty exact_search
           {| embeddings := constant_embeddings 384;
              index_name := "chunks_vector_index";
              retriever_top_k := 6;
              retriever_num_candidates := 80;
              session_id := "bob";
              document_id := Some "d1" |}
           "the same words" shared_text_world "d1" (zeros 384)).
  - reflexivity.
  - discriminate.
  - reflexivity.
  - reflexivity.
  - simpl. intros c [<-|[<-|[]]]; simpl; intros H; discriminate.
Defined.

(** X15: a query vector whose length is not 384 makes the retriever raise
    a ValueError that names the length found, before any search is sent;
    and an exception of the embedding model is passed on, with no search
    sent either. *)
Theorem wrong_query_length_raises_before_search :
  forall (S : AtlasSearch) self query w,
    (forall v,
        embed_query (embeddings self) query = OK v ->
        length v <> 384%nat ->
        _get_relevant_documents self query w
        = ([], Raise (ValueError
                        ("Query vector dimension mismatch: expected 384, got "
                         +++ str_of_nat (length v)))))
    /\ (forall e,
          embed_query (embeddings self) query = Raise e ->
          _get_relevant_documents self query w = ([], Raise e))
    /\ (fst (_get_relevant_documents self query w) <> [] ->
        exists v, embed_query (embeddings self) query = OK v
                  /\ length v = 384%nat).
Proof.
  intros S self query w. unfold _get_relevant_documents. split; [|split].
  - intros v Hv Hlen. rewrite Hv. apply Nat.eqb_neq in Hlen. now rewrite Hlen.
  - intros e He. now rewrite He.
  - destruct (embed_query (embeddings self) query) as [v|e];
      [|intros H; now contradiction H].
    destruct (Nat.eqb (length v) 384) eqn:E; cbn [negb fst].
    + intros _. exists v. split; auto. now apply Nat.eqb_eq.
    + intros H. now contradiction H.
Qed.

(** ** backend/api.py : what a run of the task leaves behind *)

Lemma build_chunk_docs_tagged :
  forall session_id document_id now split_chunks vectors,
    Forall (fun c => chunk_sessionId c = session_id
                     /\ chunk_documentId c = document_id)
           (build_chunk_docs session_id document_id now split_chunks vectors).
Proof.
  intros. unfold build_chunk_docs. apply Forall_forall. intros c Hc.
  apply in_map_iff in Hc. destruct Hc as [x [<- _]]. cbn. auto.
Qed.

Lemma Forall_firstn :
  forall (A : Type) (Q : A -> Prop) (n : nat) (l : list A),
    Forall Q l -> Forall Q (firstn n l).
Proof.
  intros A Q n l H. apply Forall_forall. intros x Hx.
  rewrite Forall_forall in H. apply H. eapply firstn_subset. exact Hx.
Qed.

(** The [try] body never touches the files; the chunks it leaves are the
    old ones followed by records of its own document and session, and
    there is at least one of these when it returns. *)
Lemma ingest_frame :
  forall env settings document_id session_id file_path original_filename w r w1,
    ingest env settings document_id session_id file_path original_filename w
    = (r, w1) ->
    files w1 = files w
    /\ exists extra,
         chunks w1 = chunks w ++ extra
         /\ Forall (fun c => chunk_sessionId c = session_id
                             /\ chunk_documentId c = document_id) extra
         /\ (r = OK tt -> extra <> []).
Proof.
  intros env settings document_id session_id file_path original_filename w r w1.
  assert (Hnone : forall e,
             files w = files w
             /\ exists extra,
                  chunks w = chunks w ++ extra
                  /\ Forall (fun c => chunk_sessionId c = session_id
                                      /\ chunk_documentId c = document_id) extra
                  /\ (@Raise unit e = OK tt -> extra <> [])).
  { intros e. split; [reflexivity|]. exists []. rewrite app_nil_r.
    repeat split; auto. intros H. discriminate H. }
  unfold ingest, bind, lift.
  destruct (load_pdf_pages (pypdf_load env file_path) original_filename)
    as [pages|e]; [|intros [= <- <-]; apply Hnone].
  destruct pages as [|p ps]; [intros [= <- <-]; apply Hnone|].
  cbn [ret].
  destruct (split_into_chunks (text_splitter env) (p :: ps)
              (chunk_size settings) (chunk_overlap settings))
    as [split_chunks|e]; [|intros [= <- <-]; apply Hnone].
  destruct (get_embeddings env settings) as [emb|e];
    [|intros [= <- <-]; apply Hnone].
  destruct (embed_documents emb (map page_content split_chunks)) as [vectors|e];
    [|intros [= <- <-]; apply Hnone].
  assert (Hcheck :
    check_dimensions settings vectors w = (OK tt, w)
    \/ exists e, check_dimensions settings vectors w = (Raise e, w)).
  { unfold check_dimensions. destruct vectors as [|v0 rest]; [now left|].
    destruct (negb (Z.of_nat (length v0) =? embeddings_dimensions settings)%Z);
      [right; eexists; reflexivity | now left]. }
  destruct Hcheck as [Hcheck|[e Hcheck]]; rewrite Hcheck;
    [|intros [= <- <-]; apply Hnone].
  cbn [utc_now].
  pose proof (build_chunk_docs_tagged session_id document_id (clock w)
                split_chunks vectors) as Htag.
  destruct (build_chunk_docs session_id document_id (clock w) split_chunks vectors)
    as [|c cs].
  - cbn [insert_chunks ret Nat.eqb raise]. intros [= <- <-].
    split; [reflexivity|]. exists []. cbn [chunks tick]. rewrite app_nil_r.
    repeat split; auto. intros H. discriminate H.
  - cbn [insert_chunks insert_many].
    destruct (insert_outcome env) as [|n e1]; cbn [insert_many].
    + cbn [length Nat.eqb ret]. unfold update_document_status, bind, utc_now.
      destruct (ready_update_fault env) as [e1|]; intros [= <- <-];
        (split; [reflexivity|]); exists (c :: cs);
        (split; [reflexivity|]); (split; [exact Htag|]); intros _ H;
        discriminate H.
    + intros [= <- <-]. split; [reflexivity|]. exists (firstn n (c :: cs)).
      split; [reflexivity|]. split; [now apply Forall_firstn|].
      intros H. discriminate H.
Qed.

Lemma process_frame :
  forall env settings document_id session_id file_path original_filename w,
    files (snd (process_document_background env settings document_id session_id
                  file_path original_filename w))
    = filter (fun f => negb (String.eqb f file_path)) (files w)
    /\ exists extra,
         chunks (snd (process_document_background env settings document_id
                        session_id file_path original_filename w))
         = chunks w ++ extra
         /\ Forall (fun c => chunk_sessionId c = session_id
                             /\ chunk_documentId c = document_id) extra
         /\ (fst (ingest env settings document_id session_id file_path
                    original_filename w) = OK tt -> extra <> []).
Proof.
  intros env settings document_id session_id file_path original_filename w.
  unfold process_document_background, finally, try_except.
  destruct (ingest env settings document_id session_id file_path
              original_filename w) as [res w1] eqn:Hing.
  destruct (ingest_frame _ _ _ _ _ _ _ _ _ Hing)
    as [Hfiles [extra [Hch [Htag Hne]]]].
  destruct res as [[]|e].
  - cbn [fst snd unlink set_files files chunks]. rewrite Hfiles.
    split; [reflexivity|]. exists extra. auto.
  - unfold update_document_status, bind, utc_now.
    destruct (error_update_fault env);
      cbn [fst snd unlink set_files set_documents tick files chunks raise];
      rewrite Hfiles; (split; [reflexivity|]); exists extra; auto.
Qed.

(** The files after the [try] and its [except]: as they were. *)
Lemma try_block_files :
  forall env settings document_id session_id file_path original_filename w,
    files (snd (try_except
                  (ingest env settings document_id session_id file_path
                     original_filename)
                  (fun e =>
                     update_document_status (error_update_fault env) document_id
                       ERROR (Some 0%Z) (Some (str_of_exn e))) w))
    = files w.
Proof.
  intros env settings document_id session_id file_path original_filename w.
  unfold try_except.
  destruct (ingest env settings document_id session_id file_path
              original_filename w) as [res w1] eqn:Hing.
  destruct (ingest_frame _ _ _ _ _ _ _ _ _ Hing) as [Hfiles _].
  destruct res as [[]|e]; [exact Hfiles|].
  unfold update_document_status, bind, utc_now.
  destruct (error_update_fault env);
    cbn [snd set_documents tick files raise]; exact Hfiles.
Qed.

(** X16: what a call of the task does to the upload it was given. When the
    lines before the [try] raise (no client, an index refused), the call
    ends with that exception and the world as it was, the upload still on
    disk. Otherwise, whatever the loader, the splitter, the model and the
    driver do, the [finally] runs: the upload is gone and every other file
    is still there, in the same order, unless the unlink itself fails, in
    which case the files are as they were and nothing more is raised. In
    both of these cases the call ends as the run from the [try] on ends,
    and with neither failure it is that run. *)
Theorem task_removes_its_upload_once_started :
  forall env settings document_id session_id file_path original_filename w,
    let call :=
      process_document_background_call env settings document_id session_id
        file_path original_filename w in
    files (snd call)
    = match setup_fault env, unlink_fault env with
      | None, None => filter (fun f => negb (String.eqb f file_path)) (files w)
      | _, _ => files w
      end
    /\ match setup_fault env with
       | Some e => call = (Raise e, w)
       | None =>
           fst call
           = fst (process_document_background env settings document_id session_id
                    file_path original_filename w)
       end
    /\ match setup_fault env, unlink_fault env with
       | None, None =>
           ~ In file_path (files (snd call))
           /\ call = process_document_background env settings document_id
                       session_id file_path original_filename w
       | _, _ => True
       end.
Proof.
  intros env settings document_id session_id file_path original_filename w call.
  pose proof (try_block_files env settings document_id session_id file_path
                original_filename w) as Hfiles.
  subst call.
  unfold process_document_background_call, process_document_background, finally
    in *.
  destruct (setup_fault env) as [e|];
    [destruct (unlink_fault env); repeat split|].
  destruct (try_except
              (ingest env settings document_id session_id file_path
                 original_filename)
              (fun e =>
                 update_document_status (error_update_fault env) document_id
                   ERROR (Some 0%Z) (Some (str_of_exn e))) w) as [res w1].
  cbn [fst snd] in *.
  destruct (unlink_fault env) as [u|];
    cbn [fst snd unlink_quietly unlink set_files files].
  - repeat split. exact Hfiles.
  - rewrite Hfiles. repeat split. intros Hin.
    apply filter_In in Hin. destruct Hin as [_ Hneq].
    rewrite String.eqb_refl in Hneq. discriminate Hneq.
Qed.

(** The theorem at two runs for the upload of d1. With no database server
    the call raises and the upload stays on disk; in a healthy run it is
    gone. *)
Lemma task_upload_example :
  files uploaded_world = [d1_path]
  /\ process_document_background_call
       (no_server_env (OK two_pages) (constant_embeddings 384))
       default_settings "d1" "alice" d1_path "a.pdf" uploaded_world
     = (Raise (OtherException "ServerSelectionTimeoutError"), uploaded_world)
  /\ files (snd (process_document_background_call
                   (healthy_env (OK two_pages) (constant_embeddings 384))
                   default_settings "d1" "alice" d1_path "a.pdf" uploaded_world))
     = [].
Proof.
  split; [reflexivity|]. split.
  - exact (proj1 (proj2 (task_removes_its_upload_once_started
                           (no_server_env (OK two_pages) (constant_embeddings 384))
                           default_settings "d1" "alice" d1_path "a.pdf"
                           uploaded_world))).
  - rewrite (proj1 (task_removes_its_upload_once_started
                      (healthy_env (OK two_pages) (constant_embeddings 384))
                      default_settings "d1" "alice" d1_path "a.pdf"
                      uploaded_world)).
    reflexivity.
Defined.

(** X17: a document goes to READY only in a run that stored chunks for
    it. If every record of the documentId was PROCESSING before the run
    and one is READY after it, the run appended at least one chunk, and
    every chunk it appended carries the documentId and the session of the
    task. *)
Theorem ready_only_after_chunks_stored :
  forall env settings document_id session_id file_path original_filename w,
    (forall r, In r (documents w) ->
               doc_documentId r = document_id -> doc_status r = PROCESSING) ->
    (exists r,
        In r (documents (snd (process_document_background env settings document_id
                                session_id file_path original_filename w)))
        /\ doc_documentId r = document_id
        /\ doc_status r = READY) ->
    exists extra,
      extra <> []
      /\ chunks (snd (process_document_background env settings document_id
                        session_id file_path original_filename w))
         = chunks w ++ extra
      /\ Forall (fun c => chunk_sessionId c = session_id
                          /\ chunk_documentId c = document_id) extra.
Proof.
  intros env settings document_id session_id file_path original_filename w
         Hproc [r [Hr [Hid Hst]]].
  destruct (process_frame env settings document_id session_id file_path
              original_filename w) as [_ [extra [Hch [Htag Hne]]]].
  exists extra. split; [|split; assumption]. apply Hne.
  revert Hr. unfold process_document_background, finally, try_except.
  destruct (ingest env settings document_id session_id file_path
              original_filename w) as [res w1] eqn:Hing.
  destruct (ingest_cases _ _ _ _ _ _ _ _ _ Hing)
    as [[-> _] | [e [-> [Hdocs _]]]]; [reflexivity|].
  unfold update_document_status, bind, utc_now. intros Hr. exfalso.
  destruct (error_update_fault env);
    cbn [snd unlink set_files set_documents tick documents raise] in Hr;
    rewrite Hdocs in Hr.
  - rewrite (Hproc r Hr Hid) in Hst. discriminate Hst.
  - apply update_one_In in Hr. destruct Hr as [Hr | [r0 [_ [_ ->]]]].
    + rewrite (Hproc r Hr Hid) in Hst. discriminate Hst.
    + cbn in Hst. discriminate Hst.
Qed.

(** The theorem applies: the ingestion of the two-page upload d1. *)
Lemma ready_only_after_chunks_example :
  exists extra,
    extra <> []
    /\ chunks (snd (process_document_background
                      (healthy_env (OK two_pages) (constant_embeddings 384))
                      default_settings "d1" "alice" d1_path "a.pdf" uploaded_world))
       = chunks uploaded_world ++ extra
    /\ Forall (fun c => chunk_sessionId c = "alice" /\ chunk_documentId c = "d1")
              extra.
Proof.
  apply (ready_only_after_chunks_stored
           (healthy_env (OK two_pages) (constant_embeddings 384))
           default_settings "d1" "alice" d1_path "a.pdf" uploaded_world).
  - simpl. intros r [<-|[]] _. reflexivity.
  - exists (status_update READY 2 (Some 2%Z) None
              {| doc_documentId := "d1"; doc_sessionId := "alice";
                 doc_fileName := "a.pdf"; doc_fileSize := None;
                 doc_status := PROCESSING; doc_pages := 0;
                 doc_errorMessage := None; doc_createdAt := 0;
                 doc_updatedAt := 0 |}).
    split; [vm_compute; left; reflexivity | split; reflexivity].
Defined.

(** ** The backend as a transition system: what every reachable state keeps *)

(** X18: in every state the backend can reach, no two records of the
    documents collection share a documentId, no two waiting tasks are for
    the same document, and the record of a document whose task still waits
    is PROCESSING. *)
Theorem reachable_ids_unique :
  forall settings s,
    reachable settings s ->
    NoDup (map doc_documentId (documents (world s)))
    /\ NoDup (map task_document_id (pending s))
    /\ (forall t r,
          In t (pending s) -> In r (documents (world s)) ->
          doc_documentId r = task_document_id t -> doc_status r = PROCESSING).
Proof.
  intros settings s Hreach.
  pose proof (reachable_consistent _ _ Hreach) as C.
  split; [apply (documents_distinct C)|].
  split; [apply (pending_distinct C)|].
  intros t r. apply (pending_processing C).
Qed.

(** The theorem applies: the state after two uploads, one of them
    ingested. *)
Lemma reachable_ids_unique_example :
  NoDup (map doc_documentId
           (documents (world (state_after
                                [ Upload "d1" "alice" (Some "a.pdf") None None;
                                  Upload "d2" "bob" (Some "b.pdf") None None;
                                  RunTask 1 (healthy_env (OK two_pages)
                                               (constant_embeddings 384)) ]
                                initial))))
  /\ NoDup (map task_document_id
              (pending (state_after
                          [ Upload "d1" "alice" (Some "a.pdf") None None;
                            Upload "d2" "bob" (Some "b.pdf") None None;
                            RunTask 1 (healthy_env (OK two_pages)
                                         (constant_embeddings 384)) ]
                          initial)))
  /\ (forall t r,
        In t (pending (state_after
                         [ Upload "d1" "alice" (Some "a.pdf") None None;
                           Upload "d2" "bob" (Some "b.pdf") None None;
                           RunTask 1 (healthy_env (OK two_pages)
                                        (constant_embeddings 384)) ]
                         initial)) ->
        In r (documents (world (state_after
                                  [ Upload "d1" "alice" (Some "a.pdf") None None;
                                    Upload "d2" "bob" (Some "b.pdf") None None;
                                    RunTask 1 (healthy_env (OK two_pages)
                                                 (constant_embeddings 384)) ]
                                  initial))) ->
        doc_documentId r = task_document_id t -> doc_status r = PROCESSING).
Proof.
  apply (reachable_ids_unique default_settings).
  exists [ Upload "d1" "alice" (Some "a.pdf") None None;
           Upload "d2" "bob" (Some "b.pdf") None None;
           RunTask 1 (healthy_env (OK two_pages) (constant_embeddings 384)) ].
  vm_compute. reflexivity.
Defined.

(** Who owns what: the chunks are of documents whose id was drawn, a
    waiting task is for the session of its record, and a chunk is in the
    session of the record of its document. *)
Record tenancy (s : System) : Prop := {
  chunks_minted :
    forall c, In c (chunks (world s)) -> In (chunk_documentId c) (minted s);
  task_session :
    forall t r,
      In t (pending s) -> In r (documents (world s)) ->
      doc_documentId r = task_document_id t ->
      doc_sessionId r = task_session_id t;
  chunk_session :
    forall c r,
      In c (chunks (world s)) -> In r (documents (world s)) ->
      doc_documentId r = chunk_documentId c ->
      chunk_sessionId c = doc_sessionId r
}.

Arguments chunks_minted {s} _ c _.
Arguments task_session {s} _ t r _ _ _.
Arguments chunk_session {s} _ c r _ _ _.

Lemma upload_pdf_tenancy :
  forall settings save_fault error_fault id session filename w r w1,
    upload_pdf settings save_fault error_fault id session filename w = (r, w1) ->
    (forall x, In x (documents w) -> doc_documentId x <> id) ->
    chunks w1 = chunks w
    /\ (forall x, In x (documents w1) ->
          In x (documents w)
          \/ (doc_documentId x = id /\ doc_sessionId x = session))
    /\ (forall t, r = OK t ->
          task_document_id t = id /\ task_session_id t = session).
Proof.
  intros settings save_fault error_fault id session filename w r w1 Hup Hfresh.
  revert Hup.
  unfold upload_pdf, bind, create_document_record, utc_now, try_except,
    _save_upload_to_disk, bind.
  cbn [tick documents set_documents].
  assert (Hnew : forall new x,
             doc_documentId new = id -> doc_sessionId new = session ->
             In x (documents w ++ [new]) ->
             In x (documents w)
             \/ (doc_documentId x = id /\ doc_sessionId x = session)).
  { intros new x Hid Hs Hx. apply in_app_or in Hx.
    destruct Hx as [Hx|[<-|[]]]; auto. }
  destruct save_fault as [[e|e]|].
  1, 2: unfold raise, update_document_status, bind, utc_now;
    destruct error_fault as [e1|]; intros [= <- <-];
      cbn [chunks documents set_documents set_files tick];
      (split; [reflexivity|]); (split; [|intros t H; discriminate H]);
      intros x Hx;
      [ eapply Hnew; [| |exact Hx]; reflexivity
      | apply update_one_In in Hx;
        destruct Hx as [Hx | [x0 [Hx0 [Hm ->]]]];
        [ eapply Hnew; [| |exact Hx]; reflexivity
        | right; rewrite doc_matches_documentId in Hm; apply String.eqb_eq in Hm;
          cbn [status_update doc_documentId doc_sessionId]; split; auto;
          apply in_app_or in Hx0; destruct Hx0 as [Hx0|[<-|[]]]; [|reflexivity];
          exfalso; exact (Hfresh x0 Hx0 Hm) ] ].
  - intros [= <- <-]. cbn [chunks documents set_documents set_files tick].
    split; [reflexivity|]. split.
    + intros x Hx. eapply Hnew; [| |exact Hx]; reflexivity.
    + intros t [= <-]. split; reflexivity.
Qed.

Lemma run_task_record_origin :
  forall env settings t w x,
    In x (documents (snd (run_task env settings t w))) ->
    exists x0, In x0 (documents w)
               /\ doc_documentId x = doc_documentId x0
               /\ doc_sessionId x = doc_sessionId x0.
Proof.
  intros env settings t w x Hx. unfold run_task in Hx.
  destruct (call_collections env settings (task_document_id t) (task_session_id t)
              (task_file_path t) (task_original_filename t) w)
    as [[Hc _] | [Hc _]]; rewrite Hc in Hx; [exists x; auto|].
  destruct (process_documents env settings (task_document_id t) (task_session_id t)
              (task_file_path t) (task_original_filename t) w)
    as [Hd | [st [now [p [m Hd]]]]]; rewrite Hd in Hx.
  - exists x. auto.
  - apply update_one_In in Hx. destruct Hx as [Hx | [x0 [Hx0 [_ ->]]]].
    + exists x. auto.
    + exists x0. auto.
Qed.

(** The chunks after the call for a waiting task: the old ones, then those
    the run appended, which carry the session and the id of the task. *)
Lemma run_task_chunks :
  forall env settings t w,
    exists extra,
      chunks (snd (run_task env settings t w)) = chunks w ++ extra
      /\ Forall (fun c => chunk_sessionId c = task_session_id t
                          /\ chunk_documentId c = task_document_id t) extra.
Proof.
  intros env settings t w. unfold run_task.
  destruct (call_collections env settings (task_document_id t) (task_session_id t)
              (task_file_path t) (task_original_filename t) w)
    as [[_ Hc] | [_ Hc]]; rewrite Hc.
  - exists []. rewrite app_nil_r. split; [reflexivity | constructor].
  - destruct (process_frame env settings (task_document_id t) (task_session_id t)
                (task_file_path t) (task_original_filename t) w)
      as [_ [extra [Hch [Htag _]]]].
    exists extra. split; assumption.
Qed.

Lemma delete_chunks_subset :
  forall id session w c,
    In c (chunks (ui_delete_document id session w)) -> In c (chunks w).
Proof.
  intros id session w c. unfold ui_delete_document, delete_document_and_chunks.
  cbn [chunks set_chunks set_documents]. unfold delete_many.
  intros H. apply filter_In in H. tauto.
Qed.

Lemma tenancy_initial : tenancy initial.
Proof. constructor; simpl; intros; contradiction. Qed.

Lemma tenancy_step :
  forall settings ev s s1,
    consistent s -> tenancy s -> step settings ev s = Some s1 -> tenancy s1.
Proof.
  intros settings ev s s1 C T H.
  destruct ev as [id session filename sf ef | n env | id session];
    unfold step in H.
  - destruct (existsb (String.eqb id) (minted s)) eqn:Efresh; [discriminate H|].
    apply not_minted in Efresh.
    destruct (upload_pdf settings sf ef id session filename (world s))
      as [r w1] eqn:Hup.
    injection H as <-.
    assert (Hold : forall x, In x (documents (world s)) -> doc_documentId x <> id).
    { intros x Hx Heq. apply Efresh. rewrite <- Heq.
      now apply (documents_minted C). }
    destruct (upload_pdf_tenancy _ _ _ _ _ _ _ _ _ Hup Hold)
      as [Hch [Hrec Htask]].
    assert (Hpend : forall t,
               In t (match r with OK t0 => pending s ++ [t0] | Raise _ => pending s end) ->
               In t (pending s)
               \/ (task_document_id t = id /\ task_session_id t = session)).
    { intros t Ht. destruct r as [t0|e]; auto.
      apply in_app_or in Ht. destruct Ht as [Ht|[<-|[]]]; auto. }
    constructor; cbn [world pending minted].
    + intros c Hc. rewrite Hch in Hc. right. now apply (chunks_minted T).
    + intros t x Ht Hx Heq.
      destruct (Hpend t Ht) as [Ht1 | [Ht1 Ht2]];
        destruct (Hrec x Hx) as [Hx1 | [Hx1 Hx2]].
      * now apply (task_session T t x).
      * exfalso. apply Efresh. rewrite <- Hx1, Heq. now apply (pending_minted C).
      * exfalso. apply (Hold x Hx1). now rewrite Heq.
      * now rewrite Hx2, Ht2.
    + intros c x Hc Hx Heq. rewrite Hch in Hc.
      destruct (Hrec x Hx) as [Hx1 | [Hx1 _]].
      * now apply (chunk_session T c x).
      * exfalso. apply Efresh. rewrite <- Hx1, Heq. now apply (chunks_minted T).
  - destruct (nth_error (pending s) n) as [t|] eqn:Hn; [|discriminate H].
    destruct (queue_without_nth _ _ _ Hn) as [l1 [l2 [Hl Hrest]]].
    rewrite Hrest in H. clear Hrest. injection H as <-.
    assert (Ht : In t (pending s)) by (eapply nth_error_In; exact Hn).
    assert (Hsub : forall t0, In t0 (l1 ++ l2) -> In t0 (pending s)).
    { intros t0 Ht0. rewrite Hl. apply in_app_or in Ht0. apply in_or_app.
      simpl. tauto. }
    destruct (run_task_chunks env settings t (world s)) as [extra [Hch Htag]].
    rewrite Forall_forall in Htag.
    constructor; cbn [world pending minted].
    + intros c Hc. rewrite Hch in Hc. apply in_app_or in Hc.
      destruct Hc as [Hc|Hc]; [now apply (chunks_minted T)|].
      destruct (Htag c Hc) as [_ ->]. now apply (pending_minted C).
    + intros t0 x Ht0 Hx Heq.
      destruct (run_task_record_origin _ _ _ _ _ Hx) as [x0 [Hx0 [Hid Hs]]].
      rewrite Hs. apply (task_session T t0 x0); auto. now rewrite <- Hid.
    + intros c x Hc Hx Heq.
      destruct (run_task_record_origin _ _ _ _ _ Hx) as [x0 [Hx0 [Hid Hs]]].
      rewrite Hs. rewrite Hch in Hc. apply in_app_or in Hc.
      destruct Hc as [Hc|Hc].
      * apply (chunk_session T c x0); auto. now rewrite <- Hid.
      * destruct (Htag c Hc) as [Hcs Hcd]. rewrite Hcs. symmetry.
        apply (task_session T t x0); auto. now rewrite <- Hid, Heq.
  - injection H as <-. constructor; cbn [world pending minted].
    + intros c Hc. apply (chunks_minted T). eapply delete_chunks_subset. exact Hc.
    + intros t x Ht Hx. apply (task_session T t x Ht).
      eapply delete_records. exact Hx.
    + intros c x Hc Hx. apply (chunk_session T c x).
      * eapply delete_chunks_subset. exact Hc.
      * eapply delete_records. exact Hx.
Qed.

Lemma tenancy_run :
  forall settings evs s s1,
    consistent s -> tenancy s -> run settings evs s = Some s1 -> tenancy s1.
Proof.
  induction evs as [|ev rest IH]; simpl; intros s s1 C T H.
  - now injection H as <-.
  - destruct (step settings ev s) as [s2|] eqn:Hstep; [|discriminate H].
    eapply IH; [| |exact H].
    + eapply consistent_step; eauto.
    + eapply tenancy_step; eauto.
Qed.

Lemma reachable_tenancy :
  forall settings s, reachable settings s -> tenancy s.
Proof.
  intros settings s [evs Hrun].
  eapply tenancy_run; [| |exact Hrun];
    [apply consistent_initial | apply tenancy_initial].
Qed.

(** X19: in every state the backend can reach, a stored chunk is in the
    session of its document: whenever the record of the chunk's documentId
    is stored, the chunk's sessionId is that record's sessionId. *)
Theorem reachable_chunks_in_session_of_document :
  forall settings s c r,
    reachable settings s ->
    In c (chunks (world s)) ->
    In r (documents (world s)) ->
    doc_documentId r = chunk_documentId c ->
    chunk_sessionId c = doc_sessionId r.
Proof.
  intros settings s c r Hreach Hc Hr Hid.
  pose proof (reachable_tenancy _ _ Hreach) as T.
  now apply (chunk_session T c r).
Qed.

(** The theorem applies: the chunk "alpha" of d1 after its ingestion. *)
Lemma reachable_chunks_example :
  chunk_sessionId
    {| chunk_sessionId := "alice"; chunk_documentId := "d1";
       chunk_text := "alpha"; chunk_embedding := zeros 384;
       chunk_metadata := {| meta_page := 1; meta_source := "a.pdf" |};
       chunk_page := 1; chunk_source := "a.pdf";
       chunk_chunkIndex := 0; chunk_createdAt := 1 |}
  = doc_sessionId
      {| doc_documentId := "d1"; doc_sessionId := "alice";
         doc_fileName := "a.pdf"; doc_fileSize := None;
         doc_status := READY; doc_pages := 2;
         doc_errorMessage := None; doc_createdAt := 0; doc_updatedAt := 2 |}.
Proof.
  apply (@reachable_chunks_in_session_of_document default_settings
           (state_after first_history initial)).
  - exists first_history. vm_compute. reflexivity.
  - vm_compute. left. reflexivity.
  - vm_compute. left. reflexivity.
  - reflexivity.
Defined.

(** ** backend/api.py : the chat route of the UI *)



(** X21: the chat route does not compare the document's session with the
    session of the request, yet it never hands out another session's
    passages. In every reachable state, for a READY document that belongs
    to another session than the one the request resolves to, the route
    either raises or answers with one of two fixed texts and no sources,
    without calling the chain; the second text states how many chunks the
    document has. *)
Theorem chat_on_foreign_document_gives_no_sources :
  forall (S : AtlasSearch) (P : PyStr) settings get_emb chain x_session_id
         documentId question s doc,
    reachable settings s ->
    documentId <> "" ->
    get_document documentId (world s) = Some doc ->
    doc_status doc = READY ->
    doc_sessionId doc <> _safe_session_id settings x_session_id ->
    (exists e,
        ui_chat_query settings get_emb chain x_session_id documentId question
          (world s) = Raise e)
    \/ ui_chat_query settings get_emb chain x_session_id documentId question
         (world s)
       = OK {| answer := answer_no_chunks; sources := [] |}
    \/ ui_chat_query settings get_emb chain x_session_id documentId question
         (world s)
       = OK {| answer :=
                 answer_no_match
                   (count_documents (chunk_matches [("documentId", documentId)])
                      (chunks (world s)));
               sources := [] |}.
Proof.
  intros S P settings get_emb chain x_session_id documentId question s doc
         Hreach Hne Hget Hready Hforeign.
  pose proof (reachable_tenancy _ _ Hreach) as T.
  assert (Hdoc : In doc (documents (world s)) /\ doc_documentId doc = documentId).
  { unfold get_document, find_one in Hget. apply find_some in Hget.
    destruct Hget as [Hin Hm]. rewrite doc_matches_documentId in Hm.
    apply String.eqb_eq in Hm. auto. }
  destruct Hdoc as [Hin Hid].
  unfold ui_chat_query, chat_query_body.
  destruct (get_emb settings) as [emb|e]; [|left; eexists; reflexivity].
  rewrite Hget, Hready.
  destruct (Nat.eqb (count_documents (chunk_matches [("documentId", documentId)])
                       (chunks (world s))) 0);
    [right; left; reflexivity|].
  destruct (embed_query emb question) as [v|e] eqn:Hv.
  - destruct (Nat.eqb (length v) 384) eqn:Hlen.
    + apply Nat.eqb_eq in Hlen.
      rewrite (retrieval_empty_without_match S
                 {| embeddings := emb;
                    index_name := mongodb_vector_index_name settings;
                    retriever_top_k := top_k settings;
                    retriever_num_candidates := num_candidates settings;
                    session_id := _safe_session_id settings x_session_id;
                    document_id := Some documentId |}
                 question (world s) documentId v eq_refl Hne Hv Hlen).
      * right. right. reflexivity.
      * cbn [session_id]. intros c Hc Hs Hcd. apply Hforeign.
        rewrite <- Hs. symmetry. apply (chunk_session T c doc Hc Hin).
        now rewrite Hid, Hcd.
    + left. unfold _get_relevant_documents. cbn [embeddings]. rewrite Hv, Hlen.
      cbn [negb snd]. eexists. reflexivity.
  - left. unfold _get_relevant_documents. cbn [embeddings]. rewrite Hv.
    cbn [snd]. eexists. reflexivity.
Qed.

(** The theorem applies: bob asks about alice's ingested document d1. *)
Lemma chat_on_foreign_document_example :
  (exists e,
      @ui_chat_query exact_search ascii_str default_settings
        (fun _ => OK (constant_embeddings 384)) echo_chain (Some "bob") "d1"
        "what is alpha?" (world (state_after first_history initial))
      = Raise e)
  \/ @ui_chat_query exact_search ascii_str default_settings
       (fun _ => OK (constant_embeddings 384)) echo_chain (Some "bob") "d1"
       "what is alpha?" (world (state_after first_history initial))
     = OK {| answer := answer_no_chunks; sources := [] |}
  \/ @ui_chat_query exact_search ascii_str default_settings
       (fun _ => OK (constant_embeddings 384)) echo_chain (Some "bob") "d1"
       "what is alpha?" (world (state_after first_history initial))
     = OK {| answer :=
               answer_no_match
                 (count_documents (chunk_matches [("documentId", "d1")])
                    (chunks (world (state_after first_history initial))));
             sources := [] |}.
Proof.
  apply (@chat_on_foreign_document_gives_no_sources exact_search ascii_str
           default_settings (fun _ => OK (constant_embeddings 384)) echo_chain
           (Some "bob") "d1" "what is alpha?"
           (state_after first_history initial)
           {| doc_documentId := "d1"; doc_sessionId := "alice";
              doc_fileName := "a.pdf"; doc_fileSize := None;
              doc_status := READY; doc_pages := 2;
              doc_errorMessage := None; doc_createdAt := 0;
              doc_updatedAt := 2 |}).
  - exists first_history. vm_compute. reflexivity.
  - discriminate.
  - vm_compute. reflexivity.
  - reflexivity.
  - vm_compute. discriminate.
Defined.

(** ** backend/api.py : validating an upload *)

(** X22: an upload is accepted exactly when its content type is
    application/pdf or application/octet-stream. Its size plays no part:
    the exception raised for a file above the limit is swallowed by the
    [except Exception: pass] around the size check, so no size and no limit
    ever make the validation fail. *)
Theorem validate_upload_ignores_size :
  forall max_upload_mb content_type size,
    (_validate_upload max_upload_mb content_type size = OK tt
     <-> content_type = Some "application/pdf"
         \/ content_type = Some "application/octet-stream")
    /\ (_validate_upload max_upload_mb content_type size <> OK tt ->
        _validate_upload max_upload_mb content_type size
        = Raise (OtherException "Only PDF files are supported."))
    /\ forall max2 size2,
         _validate_upload max_upload_mb content_type size
         = _validate_upload max2 content_type size2.
Proof.
  intros max_upload_mb content_type size.
  assert (Hsize : forall m sz b,
    (if negb b then Raise (OtherException "Only PDF files are supported.")
     else match match sz with
                | Raise e => Raise e
                | OK n => if (n >? m * 1024 * 1024)%Z
                          then Raise (OtherException "File too large.")
                          else OK tt
                end with
          | OK _ => OK tt
          | Raise _ => OK tt
          end)
    = if b then OK tt else Raise (OtherException "Only PDF files are supported.")).
  { intros m sz b. destruct b; cbn [negb]; auto.
    destruct sz as [n|e]; auto. destruct (n >? m * 1024 * 1024)%Z; auto. }
  unfold _validate_upload. cbn zeta. rewrite Hsize.
  split; [|split].
  - destruct content_type as [ct|].
    + unfold role_in. cbn [existsb].
      destruct (String.eqb ct "application/pdf") eqn:E1.
      * apply String.eqb_eq in E1. subst. cbn. split; auto.
      * destruct (String.eqb ct "application/octet-stream") eqn:E2.
        -- apply String.eqb_eq in E2. subst. cbn. split; auto.
        -- cbn. apply String.eqb_neq in E1. apply String.eqb_neq in E2.
           split; [intros H; discriminate H|].
           intros [[= H]|[= H]]; contradiction.
    + split; [intros H; discriminate H | intros [H|H]; discriminate H].
  - destruct (match content_type with
              | Some ct => role_in ct ["application/pdf"; "application/octet-stream"]
              | None => false
              end); [intros H; now contradiction H | reflexivity].
  - intros max2 size2. now rewrite Hsize.
Qed.

(** ** The shape of the records in reachable states *)

(** When the [try] body returns, its READY update carries the number of
    loaded pages, which is at least one, and no error message. *)
Lemma ingest_ready_shape :
  forall env settings document_id session_id file_path original_filename w w1,
    ingest env settings document_id session_id file_path original_filename w
    = (OK tt, w1) ->
    exists now n,
      (1 <= n)%Z
      /\ documents w1
         = update_one (doc_matches [("documentId", document_id)])
             (status_update READY now (Some n) None) (documents w).
Proof.
  intros env settings document_id session_id file_path original_filename w w1.
  unfold ingest, bind, lift.
  destruct (load_pdf_pages (pypdf_load env file_path) original_filename)
    as [pages|e]; [|intros H; discriminate H].
  destruct pages as [|p ps]; [intros H; discriminate H|].
  cbn [ret].
  destruct (split_into_chunks (text_splitter env) (p :: ps)
              (chunk_size settings) (chunk_overlap settings))
    as [split_chunks|e]; [|intros H; discriminate H].
  destruct (get_embeddings env settings) as [emb|e]; [|intros H; discriminate H].
  destruct (embed_documents emb (map page_content split_chunks)) as [vectors|e];
    [|intros H; discriminate H].
  assert (Hcheck :
    check_dimensions settings vectors w = (OK tt, w)
    \/ exists e, check_dimensions settings vectors w = (Raise e, w)).
  { unfold check_dimensions. destruct vectors as [|v0 rest]; [now left|].
    destruct (negb (Z.of_nat (length v0) =? embeddings_dimensions settings)%Z);
      [right; eexists; reflexivity | now left]. }
  destruct Hcheck as [Hcheck|[e Hcheck]]; rewrite Hcheck;
    [|intros H; discriminate H].
  cbn [utc_now].
  destruct (build_chunk_docs session_id document_id (clock w) split_chunks vectors)
    as [|c cs].
  - cbn [insert_chunks ret Nat.eqb raise]. intros H. discriminate H.
  - cbn [insert_chunks insert_many].
    destruct (insert_outcome env) as [|n e1]; cbn [insert_many];
      [|intros H; discriminate H].
    cbn [length Nat.eqb ret]. unfold update_document_status, bind, utc_now.
    destruct (ready_update_fault env) as [e1|]; [intros H; discriminate H|].
    intros [= <-]. eexists. exists (Z.of_nat (length (p :: ps))).
    split; [cbn [length]; lia | reflexivity].
Qed.

(** After a run of the task a record is an old one, or the task's own
    record rewritten to READY with a page count of at least one and its
    error message kept, or rewritten to ERROR with no page and a message. *)
Lemma run_task_record_shape :
  forall env settings t w x,
    In x (documents (snd (run_task env settings t w))) ->
    In x (documents w)
    \/ exists x0 now,
         In x0 (documents w)
         /\ doc_documentId x0 = task_document_id t
         /\ ((exists n, (1 <= n)%Z /\ x = status_update READY now (Some n) None x0)
             \/ exists m, x = status_update ERROR now (Some 0%Z) (Some m) x0).
Proof.
  intros env settings t w x. unfold run_task.
  destruct (call_collections env settings (task_document_id t) (task_session_id t)
              (task_file_path t) (task_original_filename t) w)
    as [[Hc _] | [Hc _]]; rewrite Hc; [auto|]. clear Hc.
  unfold process_document_background, finally, try_except.
  destruct (ingest env settings (task_document_id t) (task_session_id t)
              (task_file_path t) (task_original_filename t) w)
    as [res w1] eqn:Hing.
  destruct res as [[]|e].
  - destruct (ingest_ready_shape _ _ _ _ _ _ _ _ Hing) as [now [n [Hn Hdocs]]].
    cbn [snd unlink set_files documents]. rewrite Hdocs. intros Hx.
    apply update_one_In in Hx. destruct Hx as [Hx | [x0 [Hx0 [Hm ->]]]]; auto.
    right. exists x0, now. rewrite doc_matches_documentId in Hm.
    apply String.eqb_eq in Hm. split; auto. split; auto. left. eauto.
  - destruct (ingest_cases _ _ _ _ _ _ _ _ _ Hing)
      as [[H _] | [e0 [_ [Hdocs _]]]]; [discriminate H|].
    unfold update_document_status, bind, utc_now.
    destruct (error_update_fault env);
      cbn [snd unlink set_files set_documents tick documents raise];
      rewrite Hdocs; intros Hx; auto.
    apply update_one_In in Hx. destruct Hx as [Hx | [x0 [Hx0 [Hm ->]]]]; auto.
    right. exists x0, (clock w1). rewrite doc_matches_documentId in Hm.
    apply String.eqb_eq in Hm. split; auto. split; auto. right. eauto.
Qed.

Lemma upload_pdf_record_shape :
  forall settings save_fault error_fault id session filename w r w1 x,
    upload_pdf settings save_fault error_fault id session filename w = (r, w1) ->
    (forall y, In y (documents w) -> doc_documentId y <> id) ->
    In x (documents w1) ->
    In x (documents w) \/ record_shape x.
Proof.
  intros settings save_fault error_fault id session filename w r w1 x Hup Hfresh.
  revert Hup.
  unfold upload_pdf, bind, create_document_record, utc_now, try_except,
    _save_upload_to_disk, bind.
  cbn [tick documents set_documents].
  assert (Hnew : forall new,
             record_shape new ->
             In x (documents w ++ [new]) -> In x (documents w) \/ record_shape x).
  { intros new Hs Hx. apply in_app_or in Hx.
    destruct Hx as [Hx|[<-|[]]]; auto. }
  destruct save_fault as [[e|e]|].
  1, 2: unfold raise, update_document_status, bind, utc_now;
    destruct error_fault as [e1|]; intros [= <- <-];
      cbn [chunks documents set_documents set_files tick]; intros Hx;
      [ eapply Hnew; [|exact Hx]; split; reflexivity
      | apply update_one_In in Hx;
        destruct Hx as [Hx | [x0 [Hx0 [Hm ->]]]];
        [ eapply Hnew; [|exact Hx]; split; reflexivity
        | right; rewrite doc_matches_documentId in Hm; apply String.eqb_eq in Hm;
          apply in_app_or in Hx0; destruct Hx0 as [Hx0|[<-|[]]];
          [ exfalso; exact (Hfresh x0 Hx0 Hm)
          | split; [reflexivity | discriminate] ] ] ].
  - intros [= <- <-]. cbn [chunks documents set_documents set_files tick].
    intros Hx. eapply Hnew; [|exact Hx]. split; reflexivity.
Qed.

Lemma record_shape_step :
  forall settings ev s s1,
    consistent s ->
    (forall r, In r (documents (world s)) -> record_shape r) ->
    step settings ev s = Some s1 ->
    forall r, In r (documents (world s1)) -> record_shape r.
Proof.
  intros settings ev s s1 C Hshape H.
  destruct ev as [id session filename sf ef | n env | id session];
    unfold step in H.
  - destruct (existsb (String.eqb id) (minted s)) eqn:Efresh; [discriminate H|].
    apply not_minted in Efresh.
    destruct (upload_pdf settings sf ef id session filename (world s))
      as [r w1] eqn:Hup.
    injection H as <-. cbn [world].
    assert (Hold : forall x, In x (documents (world s)) -> doc_documentId x <> id).
    { intros x Hx Heq. apply Efresh. rewrite <- Heq.
      now apply (documents_minted C). }
    intros x Hx.
    destruct (upload_pdf_record_shape _ _ _ _ _ _ _ _ _ x Hup Hold Hx); auto.
  - destruct (nth_error (pending s) n) as [t|] eqn:Hn; [|discriminate H].
    injection H as <-. cbn [world]. intros x Hx.
    assert (Ht : In t (pending s)) by (eapply nth_error_In; exact Hn).
    destruct (run_task_record_shape _ _ _ _ _ Hx)
      as [Hx0 | [x0 [now [Hx0 [Hid [[k [Hk ->]] | [m ->]]]]]]]; auto.
    + pose proof (pending_processing C t x0 Ht Hx0 Hid) as Hproc.
      pose proof (Hshape x0 Hx0) as Hs0. unfold record_shape in *.
      rewrite Hproc in Hs0. cbn. tauto.
    + unfold record_shape. cbn. split; [reflexivity | discriminate].
  - injection H as <-. cbn [world]. intros x Hx. apply Hshape.
    eapply delete_records. exact Hx.
Qed.

Lemma record_shape_run :
  forall settings evs s s1,
    consistent s ->
    (forall r, In r (documents (world s)) -> record_shape r) ->
    run settings evs s = Some s1 ->
    forall r, In r (documents (world s1)) -> record_shape r.
Proof.
  induction evs as [|ev rest IH]; simpl; intros s s1 C Hshape H.
  - now injection H as <-.
  - destruct (step settings ev s) as [s2|] eqn:Hstep; [|discriminate H].
    eapply IH; [| |exact H].
    + eapply consistent_step; eauto.
    + eapply record_shape_step; eauto.
Qed.

(** X23: in every state the backend can reach, each stored record has the
    shape of its status: a PROCESSING record has no page and no error
    message, a READY record has at least one page and no error message, an
    ERROR record has no page and an error message. *)
Theorem reachable_records_have_shape :
  forall settings s r,
    reachable settings s ->
    In r (documents (world s)) ->
    record_shape r.
Proof.
  intros settings s r [evs Hrun] Hr.
  apply (record_shape_run settings evs initial s consistent_initial); auto.
  simpl. intros x [].
Qed.

(** The theorem applies: the record of d3, whose upload could not be
    saved, at the end of the two histories. *)
Lemma reachable_records_example :
  record_shape
    {| doc_documentId := "d3"; doc_sessionId := "alice";
       doc_fileName := "d3.pdf"; doc_fileSize := None;
       doc_status := ERROR; doc_pages := 0;
       doc_errorMessage := Some "Failed to store upload: disk full";
       doc_createdAt := 5; doc_updatedAt := 6 |}.
Proof.
  apply (@reachable_records_have_shape default_settings
           (state_after later_history (state_after first_history initial))).
  - exists (first_history ++ later_history). vm_compute. reflexivity.
  - vm_compute. right. left. reflexivity.
Defined.
